(** * Shift operations hub: persistence, session state and derived documents

    A shallow embedding of the three Streamlit programs of the repository

    - [shift_log.py]  (module [ShiftLog]): the shift-log entry form, the
      spares catalogue reload, the workbook and PDF writers and the
      SAVE REPORT handler;
    - [app.py]        (module [App]): the V3 portal with editable reports,
      carry-over of open reactive tasks and its own PDF writer;
    - [dashboard.py]  (module [Dashboard]): the low-stock filter of the
      manager dashboard.

    Python values are a small sum type, row dictionaries are finite maps
    from key strings to values, the SQLite file is a record of tables, and
    the code that talks to the database runs in a state-and-exception monad
    whose state holds the durable database, the open connection's view of
    it and [st.session_state]. *)

From Stdlib Require Import ZArith QArith Lia List String Ascii Permutation.
From stdpp Require Import base gmap strings list fin_maps pretty.
Import ListNotations.

Open Scope Z_scope.

(** ** Python values *)

(** The values that the forms, the data frames and the database cells
    carry.  [VNaN] is the float [nan] with which pandas fills a missing
    cell; every other float is a rational [VReal]. *)
Inductive value : Type :=
| VNone
| VBool (b : bool)
| VInt (n : Z)
| VReal (q : Q)
| VNaN
| VText (s : string).

(** The exceptions that the modelled code can meet. *)
Inductive exn : Type :=
| KeyError (k : string)
| TypeError
| OperationalError
| IntegrityError
| ParserError
| ValueError.

(** A row dictionary: only lookups by key are made on it, so the insertion
    order of a Python dict does not matter here. *)
Abbreviation dict := (gmap string value).

(** A header dictionary whose [items()] are enumerated in insertion order. *)
Abbreviation odict := (list (string * value)).

(** Truthiness of a value, as [if v:] tests it. *)
Definition truthy (v : value) : bool :=
  match v with
  | VNone => false
  | VBool b => b
  | VInt n => negb (n =? 0)
  | VReal q => negb (Qeq_bool q 0)
  | VNaN => true
  | VText s => negb (String.eqb s "")
  end.

(** *** Decimal rendering *)

Definition pad2 (n : Z) : string :=
  if n <? 10 then "0" +:+ pretty n else pretty n.

(** The digits of [r / d] after the decimal point, at most [fuel] of them,
    stopping when the remainder is zero. *)
Fixpoint frac_digits (fuel : nat) (r d : Z) : string :=
  match fuel with
  | O => ""
  | S fuel' =>
      if r =? 0 then ""
      else pretty (r * 10 / d) +:+ frac_digits fuel' (r * 10 mod d) d
  end.

(** [repr] of a float: sign, integer part, point, fraction (["0"] when the
    value is whole).  It is the text Python prints for the short decimals
    that the forms produce, such as [45.0] or [7.5]. *)
Definition float_repr (q : Q) : string :=
  let n := Z.abs (Qnum q) in
  let d := Z.pos (Qden q) in
  let frac := frac_digits 17 (n mod d) d in
  (if Qnum q <? 0 then "-" else "") +:+ pretty (n / d) +:+ "." +:+
  (if String.eqb frac "" then "0" else frac).

(** [str(v)], also the rendering of [{v}] inside an f-string. *)
Definition py_str (v : value) : string :=
  match v with
  | VNone => "None"
  | VBool true => "True"
  | VBool false => "False"
  | VInt n => pretty n
  | VReal q => float_repr q
  | VNaN => "nan"
  | VText s => s
  end.

(** *** Rounding *)

Definition Qltb (x y : Q) : bool := negb (Qle_bool y x).

(** The integer nearest to [q], ties going to the even neighbour. *)
Definition round_half_even (q : Q) : Z :=
  let d := Z.pos (Qden q) in
  let f := Qnum q / d in
  let r := Qnum q mod d in
  match 2 * r ?= d with
  | Lt => f
  | Gt => f + 1
  | Eq => if Z.even f then f else f + 1
  end.

(** [round(q, ndigits)] on the exact value. *)
Definition py_round (ndigits : nat) (q : Q) : Q :=
  let s := 10 ^ Z.of_nat ndigits in
  Qred (round_half_even (q * inject_Z s) # Z.to_pos s).

(** [round(v, ndigits)] of a value that is a float or an int: an int is
    returned as it is. *)
Definition round_value (ndigits : nat) (v : value) : value :=
  match v with
  | VReal q => VReal (py_round ndigits q)
  | _ => v
  end.

(** ** Results and exceptions of pure code *)

Inductive result (A : Type) : Type :=
| Ok (a : A)
| Raise (e : exn).
Arguments Ok {A} a.
Arguments Raise {A} e.

Global Instance result_ret : MRet result := fun A a => Ok a.
Global Instance result_bind : MBind result := fun A B f m =>
  match m with
  | Ok a => f a
  | Raise e => Raise e
  end.

(** [[f(x) for x in l]], where [f] may raise. *)
Fixpoint map_result {A B} (f : A -> result B) (l : list A) : result (list B) :=
  match l with
  | [] => mret []
  | x :: l' => y ← f x; ys ← map_result f l'; mret (y :: ys)
  end.

(** [d[k]]: a missing key raises [KeyError]. *)
Definition getitem (d : dict) (k : string) : result value :=
  match d !! k with
  | Some v => Ok v
  | None => Raise (KeyError k)
  end.

(** [d.get(k, default)]. *)
Definition get (d : dict) (k : string) (default : value) : value :=
  match d !! k with
  | Some v => v
  | None => default
  end.

(** Lookup in a header dictionary. *)
Fixpoint olookup (d : odict) (k : string) : option value :=
  match d with
  | [] => None
  | (k', v) :: d' => if String.eqb k' k then Some v else olookup d' k
  end.

Definition ogetitem (d : odict) (k : string) : result value :=
  match olookup d k with
  | Some v => Ok v
  | None => Raise (KeyError k)
  end.

Definition oget (d : odict) (k : string) (default : value) : value :=
  match olookup d k with
  | Some v => v
  | None => default
  end.

(** A Python number in float arithmetic: a rational or [nan]. *)
Inductive number : Type :=
| Num (q : Q)
| NaN.

(** The operand of a float division or multiplication; a value that is
    not a number raises [TypeError]. *)
Definition as_number (v : value) : result number :=
  match v with
  | VInt n => Ok (Num (inject_Z n))
  | VBool b => Ok (Num (inject_Z (if b then 1 else 0)))
  | VReal q => Ok (Num q)
  | VNaN => Ok NaN
  | _ => Raise TypeError
  end.

Definition num_div (x : number) (d : Q) : number :=
  match x with
  | Num q => Num (q / d)
  | NaN => NaN
  end.

Definition num_mul (x y : number) : number :=
  match x, y with
  | Num p, Num q => Num (p * q)
  | _, _ => NaN
  end.

(** [round(x, ndigits)] of a float. *)
Definition round_number (ndigits : nat) (x : number) : value :=
  match x with
  | Num q => VReal (py_round ndigits q)
  | NaN => VNaN
  end.

(** ** Wall-clock times *)

(** The value of [st.time_input]: the widget works at minute resolution,
    so seconds and microseconds are zero. *)
Record time : Type := Time { hour : Z; minute : Z }.

Definition valid_time (t : time) : Prop :=
  0 <= hour t < 24 /\ 0 <= minute t < 60.

(** [str(t)], in the form HH:MM:SS. *)
Definition time_str (t : time) : string :=
  pad2 (hour t) +:+ ":" +:+ pad2 (minute t) +:+ ":00".

(** [(datetime.combine(today, t2) - datetime.combine(today, t1)).total_seconds()]. *)
Definition total_seconds (t2 t1 : time) : Z :=
  (hour t2 * 3600 + minute t2 * 60) - (hour t1 * 3600 + minute t1 * 60).

(** Minutes since midnight. *)
Definition minute_of_day (t : time) : Z := hour t * 60 + minute t.

(** The value of [st.date_input]. *)
Record py_date : Type := Date { year : Z; month : Z; day : Z }.

(** [str(d)], in the form YYYY-MM-DD. *)
Definition date_str (d : py_date) : string :=
  pretty (year d) +:+ "-" +:+ pad2 (month d) +:+ "-" +:+ pad2 (day d).

(** ** The database connection and the session state *)

(** [durable] is the content of the database file.  [work] is what the open
    connection sees: [sqlite3.connect] is used in its default mode, where
    the first INSERT, UPDATE or DELETE opens a transaction and only
    [conn.commit()] makes the changes durable; a connection that is dropped
    without a commit leaves the file as it was.  [budget] is the number of
    database calls that still succeed before one raises
    [sqlite3.OperationalError] ([None]: every call succeeds).  [session] is
    [st.session_state]. *)
Record world (db sess : Type) : Type := World {
  durable : db;
  work : db;
  budget : option nat;
  session : sess
}.
Arguments World {db sess} _ _ _ _.
Arguments durable {db sess} _.
Arguments work {db sess} _.
Arguments budget {db sess} _.
Arguments session {db sess} _.

Inductive outcome (db sess A : Type) : Type :=
| Done (a : A) (w : world db sess)
| Fail (e : exn) (w : world db sess).
Arguments Done {db sess A} a w.
Arguments Fail {db sess A} e w.

Definition Tx (db sess A : Type) : Type := world db sess -> outcome db sess A.

Global Instance tx_ret db sess : MRet (Tx db sess) := fun A a w => Done a w.
Global Instance tx_bind db sess : MBind (Tx db sess) := fun A B f m w =>
  match m w with
  | Done a w' => f a w'
  | Fail e w' => Fail e w'
  end.

Section Connection.
Context {db sess : Type}.

(** One call into the database engine. *)
Definition tick : Tx db sess unit := fun w =>
  match budget w with
  | Some O => Fail OperationalError w
  | Some (S n) => Done tt (World (durable w) (work w) (Some n) (session w))
  | None => Done tt w
  end.

(** [conn = sqlite3.connect(DB_FILE)]. *)
Definition connect : Tx db sess unit := fun w =>
  Done tt (World (durable w) (durable w) (budget w) (session w)).

(** The connection's view of the database, read and replaced. *)
Definition read_work {A} (f : db -> A) : Tx db sess A := fun w =>
  Done (f (work w)) w.

Definition write_work (f : db -> db) : Tx db sess unit := fun w =>
  Done tt (World (durable w) (f (work w)) (budget w) (session w)).

Definition flush_work : Tx db sess unit := fun w =>
  Done tt (World (work w) (work w) (budget w) (session w)).

(** [c.execute(...)] of a statement that changes the database. *)
Definition execute (f : db -> db) : Tx db sess unit :=
  tick;; write_work f.

(** [c.execute(...)] of an INSERT whose [c.lastrowid] is read back: [f]
    gives the new database, [g] the row id that it allocates. *)
Definition execute_returning {A} (f : db -> db) (g : db -> A) : Tx db sess A :=
  tick;; a ← read_work g; write_work f;; mret a.

(** A SELECT. *)
Definition query {A} (f : db -> A) : Tx db sess A :=
  tick;; read_work f.

(** [conn.commit()]. *)
Definition commit : Tx db sess unit :=
  tick;; flush_work.

(** Evaluation of an expression that may raise. *)
Definition lift {A} (r : result A) : Tx db sess A := fun w =>
  match r with
  | Ok a => Done a w
  | Raise e => Fail e w
  end.

Definition get_session : Tx db sess sess := fun w => Done (session w) w.

Definition modify_session (f : sess -> sess) : Tx db sess unit := fun w =>
  Done tt (World (durable w) (work w) (budget w) (f (session w))).

(** [try: m except <caught>: handler]. *)
Definition try_except {A} (m : Tx db sess A) (caught : exn -> bool)
    (handler : exn -> Tx db sess A) : Tx db sess A := fun w =>
  match m w with
  | Done a w' => Done a w'
  | Fail e w' => if caught e then handler e w' else Fail e w'
  end.

(** [for x in l: body x]. *)
Fixpoint for_each {A} (l : list A) (body : A -> Tx db sess unit) : Tx db sess unit :=
  match l with
  | [] => mret tt
  | x :: l' => body x;; for_each l' body
  end.

(** A loop that carries local variables [acc]. *)
Fixpoint for_fold {A B} (l : list A) (acc : B) (body : B -> A -> Tx db sess B)
    : Tx db sess B :=
  match l with
  | [] => mret acc
  | x :: l' => acc' ← body acc x; for_fold l' acc' body
  end.
End Connection.

(** What is left when a handler has run from a database file [d] and a
    session [s]: its result or exception, the database file and the
    session. *)
Definition run {db sess A} (m : Tx db sess A) (b : option nat) (d : db) (s : sess)
    : result A * db * sess :=
  match m (World d d b s) with
  | Done a w => (Ok a, durable w, session w)
  | Fail e w => (Raise e, durable w, session w)
  end.

(** A CSV file on disk, as [os.path.exists] and [pd.read_csv] find it.  The
    rows of a frame are keyed by the column names. *)
Inductive csv_file : Type :=
| Missing
| Unreadable
| Frame (rows : list dict).

(** ** Documents *)

(** A worksheet: the values written at (row, column), column A being 1.
    Fills, fonts, borders and merged ranges are layout and are left out. *)
Abbreviation sheet := (gmap (nat * nat) value).

(** [for c, v in enumerate(vals, col): ws.cell(row=row, column=c, value=v)]. *)
Fixpoint write_row (ws : sheet) (row col : nat) (vals : list value) : sheet :=
  match vals with
  | [] => ws
  | v :: vals' => write_row (<[(row, col) := v]> ws) row (S col) vals'
  end.

Inductive style : Type := TitleStyle | H2Style | NormalStyle.

(** The flowables handed to [doc.build]; column widths and table styles are
    layout and are left out. *)
Inductive flowable : Type :=
| Paragraph (text : string) (st : style)
| Spacer (width height : Z)
| PageBreak
| Table (data : list (list value)).

(** [Table(data)]: a table without any row is refused when it is built. *)
Definition mk_table (data : list (list value)) : result flowable :=
  match data with
  | [] => Raise ValueError
  | _ :: _ => Ok (Table data)
  end.

Definition newline : string := String (ascii_of_nat 10) EmptyString.

(** * shift_log.py *)

Module ShiftLog.

(** ** Tables ([init_db]) *)

(** The AUTOINCREMENT [id] of the child tables is never read by the code
    and is left out; each table keeps its rows in insertion order. *)
Record report_row : Type := ReportRow {
  rep_id : Z;
  rep_date : value;
  rep_shift : value;
  rep_engineer : value;
  rep_second_engineer : value;
  rep_urgent_notes : value;
  rep_radios_charged : value;
  rep_phones_working : value;
  rep_keys_handed : value;
  rep_safety_check : value;
  rep_submitted_at : value
}.

Record reactive_row : Type := ReactiveRow {
  rx_report_id : Z;
  rx_asset : value;
  rx_time_called : value;
  rx_time_back : value;
  rx_fault : value;
  rx_engineers : value;
  rx_description : value;
  rx_downtime : value
}.

Record ppm_row : Type := PpmRow {
  ppm_report_id : Z;
  ppm_asset : value;
  ppm_ppm_id : value;
  ppm_status : value;
  ppm_comments : value
}.

Record other_task_row : Type := OtherTaskRow {
  ot_report_id : Z;
  ot_category : value;
  ot_status : value;
  ot_comments : value
}.

Record spare_used_row : Type := SpareUsedRow {
  su_report_id : Z;
  su_art_number : value;
  su_description : value;
  su_location : value;
  su_quantity : value;
  su_decision : value;
  su_category_code : value
}.

(** The inventory table, with the types its columns are declared with:
    the code writes the stock columns only as the integers 10 and 2 and as
    [stock_level - quantity]. *)
Record inventory_row : Type := InventoryRow {
  art_number : string;
  description : string;
  location : string;
  category : string;
  stock_level : Z;
  min_stock_level : Z
}.

(** [report_seq] is the largest report id ever given out (AUTOINCREMENT). *)
Record db : Type := Db {
  tbl_reports : list report_row;
  tbl_reactives : list reactive_row;
  tbl_ppms : list ppm_row;
  tbl_other_tasks : list other_task_row;
  tbl_spares_used : list spare_used_row;
  spares_inventory : list inventory_row;
  report_seq : Z
}.

Definition empty_db : db := Db [] [] [] [] [] [] 0.

(** ** Session state ([init_session_state]) *)

Record session : Type := Session {
  reactives : list dict;
  ppms : list dict;
  other_tasks : list dict;
  spares : list dict
}.

Definition init_session_state : session := Session [] [] [] [].

Abbreviation Tx := (Tx db session).

(** ** Statements *)

Definition next_report_id (d : db) : Z := report_seq d + 1.

(** [INSERT INTO reports (...) VALUES (...)], with the [id] of the columns
    of [h] replaced by the fresh one. *)
Definition insert_report (h : report_row) (d : db) : db :=
  let rid := next_report_id d in
  Db (tbl_reports d ++
        [ReportRow rid (rep_date h) (rep_shift h) (rep_engineer h)
           (rep_second_engineer h) (rep_urgent_notes h) (rep_radios_charged h)
           (rep_phones_working h) (rep_keys_handed h) (rep_safety_check h)
           (rep_submitted_at h)])
     (tbl_reactives d) (tbl_ppms d) (tbl_other_tasks d) (tbl_spares_used d)
     (spares_inventory d) rid.

(** [INSERT INTO reactives (...) VALUES (...)]. *)
Definition insert_reactive (r : reactive_row) (d : db) : db :=
  Db (tbl_reports d) (tbl_reactives d ++ [r]) (tbl_ppms d) (tbl_other_tasks d)
     (tbl_spares_used d) (spares_inventory d) (report_seq d).

(** [INSERT INTO spares_used (...) VALUES (...)]. *)
Definition insert_spare_used (r : spare_used_row) (d : db) : db :=
  Db (tbl_reports d) (tbl_reactives d) (tbl_ppms d) (tbl_other_tasks d)
     (tbl_spares_used d ++ [r]) (spares_inventory d) (report_seq d).

Definition with_inventory (f : list inventory_row -> list inventory_row) (d : db) : db :=
  Db (tbl_reports d) (tbl_reactives d) (tbl_ppms d) (tbl_other_tasks d)
     (tbl_spares_used d) (f (spares_inventory d)) (report_seq d).

(** [UPDATE spares_inventory SET stock_level = stock_level - ? WHERE art_number = ?]
    on the rows of the table. *)
Definition adjust_stock (qty : Z) (art : string) (inv : list inventory_row)
    : list inventory_row :=
  map (fun r =>
         if String.eqb (art_number r) art
         then InventoryRow (art_number r) (description r) (location r)
                (category r) (stock_level r - qty) (min_stock_level r)
         else r) inv.

(** [INSERT OR REPLACE INTO spares_inventory]: [art_number] is the primary
    key, so a row with the same part number is removed before the new one
    is added. *)
Definition insert_or_replace (r : inventory_row) (inv : list inventory_row)
    : list inventory_row :=
  List.filter (fun x => negb (String.eqb (art_number x) (art_number r))) inv ++ [r].

(** The part number is bound as text and the quantity as an integer; a
    value of another kind has no place in the typed inventory table. *)
Definition bind_text (v : value) : result string :=
  match v with
  | VText s => Ok s
  | _ => Raise TypeError
  end.

Definition bind_int (v : value) : result Z :=
  match v with
  | VInt n => Ok n
  | VBool b => Ok (if b then 1 else 0)
  | _ => Raise TypeError
  end.

(** ** Reload of the spares catalogue ([reload_spares_from_csv]) *)

(** What the function shows in the sidebar. *)
Inductive sidebar : Type :=
| FileNotFound
| Loaded (count duplicates : nat)
| ErrorReading (e : exn).

Definition sidebar_text (m : sidebar) : string :=
  match m with
  | FileNotFound => "File not found: data/spares.csv"
  | Loaded count duplicates =>
      "Loaded " +:+ pretty count +:+ " spares! (Handled " +:+
      pretty duplicates +:+ " duplicates)"
  | ErrorReading _ => "Error reading CSV"
  end.

Definition is_integrity_error (e : exn) : bool :=
  match e with
  | IntegrityError => true
  | _ => false
  end.

(** The body of [for _, row in df.iterrows()], carrying [count] and
    [duplicates]. *)
Definition load_row (acc : nat * nat) (row : dict) : Tx (nat * nat) :=
  let '(count, duplicates) := acc in
  let p_num := py_str (get row "art_number" (get row "Part Number" (VText "UNKNOWN"))) in
  let desc := py_str (get row "Description" (get row "description" (VText ""))) in
  let loc := py_str (get row "Location" (get row "location" (VText ""))) in
  if String.eqb p_num "UNKNOWN" || String.eqb p_num "nan" then mret (count, duplicates)
  else
    try_except
      (execute (with_inventory
                  (insert_or_replace (InventoryRow p_num desc loc "General" 10 2)));;
       mret (S count, duplicates))
      is_integrity_error
      (fun _ => mret (count, S duplicates)).

(** [spares_file] is [data/spares.csv], its column names already stripped
    of blanks ([df.columns.str.strip()]). *)
Definition reload_spares_from_csv (spares_file : csv_file) : Tx sidebar :=
  match spares_file with
  | Missing => mret FileNotFound
  | Unreadable => mret (ErrorReading ParserError)
  | Frame df =>
      try_except
        (connect;;
         execute (with_inventory (fun _ => []));;
         acc ← for_fold df (O, O) load_row;
         commit;;
         mret (Loaded acc.1 acc.2))
        (fun _ => true)
        (fun e => mret (ErrorReading e))
  end.

(** ** Entry form *)

(** The downtime that the Add Reactive button stores. *)
Definition add_reactive_downtime (r_called r_back : time) : Q :=
  let dt := (inject_Z (total_seconds r_back r_called) / 60)%Q in
  let dt := if Qltb dt 0 then (dt + 1440)%Q else dt in
  py_round 1 dt.

(** [if st.button("Add Reactive")]. *)
Definition add_reactive (r_asset r_fault : string) (r_called r_back : time)
    (r_desc s_sec_eng : string) (s : session) : session :=
  let entry : dict :=
    {[ "Asset" := VText r_asset;
       "Fault" := VText r_fault;
       "Time Called" := VText (time_str r_called);
       "Time Back" := VText (time_str r_back);
       "Downtime (min)" := VReal (add_reactive_downtime r_called r_back);
       "Engineers" := VInt (if truthy (VText s_sec_eng) then 2 else 1);
       "Description" := VText r_desc ]} in
  Session (reactives s ++ [entry]) (ppms s) (other_tasks s) (spares s).

(** [if st.button("Add PPM")]. *)
Definition add_ppm (p_asset p_comm : string) (s : session) : session :=
  let entry : dict :=
    {[ "Asset" := VText p_asset;
       "Status" := VText "Complete";
       "Comments" := VText p_comm ]} in
  Session (reactives s) (ppms s ++ [entry]) (other_tasks s) (spares s).

(** The prefix of [s] before the first occurrence of [sep], when there is
    one: [sep in s] and [s.split(sep)[0]]. *)
Fixpoint split_first (sep s : string) : option string :=
  if String.prefix sep s then Some EmptyString
  else match s with
       | EmptyString => None
       | String c s' => option_map (String c) (split_first sep s')
       end.

(** [if st.button("Add Spare")]: [df_spares] is the inventory as it was read
    when the page was drawn. *)
Definition add_spare (sp_item : string) (sp_qty sp_cat : Z) (sp_dec : string)
    (df_spares : list inventory_row) (s : session) : session :=
  match split_first " - " sp_item with
  | Some art =>
      match List.filter (fun r => String.eqb (art_number r) art) df_spares with
      | row :: _ =>
          let entry : dict :=
            {[ "ART #" := VText art;
               "Description" := VText (description row);
               "Location" := VText (location row);
               "Quantity" := VInt sp_qty;
               "Category Code" := VInt sp_cat;
               "Decision" := VText sp_dec ]} in
          Session (reactives s) (ppms s) (other_tasks s) (spares s ++ [entry])
      | [] => s
      end
  | None => s
  end.

(** ** SAVE REPORT *)

(** The header widgets of the page. *)
Record form : Type := Form {
  s_date : py_date;
  s_shift : string;
  s_eng : string;
  s_sec_eng : string;
  urgent : string;
  chk_rad : bool;
  chk_phn : bool;
  chk_key : bool;
  chk_safe : bool
}.

(** The parameter tuples of the two child INSERTs. *)
Definition reactive_params (rid : Z) (r : dict) : result reactive_row :=
  asset ← getitem r "Asset";
  called ← getitem r "Time Called";
  back ← getitem r "Time Back";
  fault ← getitem r "Fault";
  engineers ← getitem r "Engineers";
  desc ← getitem r "Description";
  downtime ← getitem r "Downtime (min)";
  mret (ReactiveRow rid asset called back fault engineers desc downtime).

Definition spare_params (rid : Z) (s : dict) : result spare_used_row :=
  art ← getitem s "ART #";
  desc ← getitem s "Description";
  loc ← getitem s "Location";
  qty ← getitem s "Quantity";
  decision ← getitem s "Decision";
  code ← getitem s "Category Code";
  mret (SpareUsedRow rid art desc loc qty decision code).

(** The parameters of the stock UPDATE: quantity, then part number. *)
Definition stock_params (s : dict) : result (Z * string) :=
  qty ← getitem s "Quantity" ≫= bind_int;
  art ← getitem s "ART #" ≫= bind_text;
  mret (qty, art).

(** The database part of [if st.button("SAVE REPORT")], from
    [sqlite3.connect] to [conn.close()]; [now] is
    [datetime.now().strftime(...)]. *)
Definition save_report (f : form) (now : string) : Tx Z :=
  connect;;
  rid ← execute_returning
          (insert_report
             (ReportRow 0 (VText (date_str (s_date f))) (VText (s_shift f))
                (VText (s_eng f)) (VText (s_sec_eng f)) (VText (urgent f))
                (VBool (chk_rad f)) (VBool (chk_phn f)) (VBool (chk_key f))
                (VBool (chk_safe f)) (VText now)))
          next_report_id;
  st ← get_session;
  for_each (reactives st) (fun r =>
    row ← lift (reactive_params rid r);
    execute (insert_reactive row));;
  for_each (spares st) (fun s =>
    row ← lift (spare_params rid s);
    execute (insert_spare_used row);;
    p ← lift (stock_params s);
    execute (with_inventory (adjust_stock p.1 p.2)));;
  commit;;
  mret rid.

(** [r_data], the header dictionary handed to the two writers. *)
Definition r_data (f : form) : odict :=
  [ ("date", VText (date_str (s_date f)));
    ("shift", VText (s_shift f));
    ("engineer", VText (s_eng f));
    ("second_engineer", VText (s_sec_eng f));
    ("urgent_notes", VText (urgent f));
    ("radios_charged", VBool (chk_rad f));
    ("phones_working", VBool (chk_phn f));
    ("keys_handed", VBool (chk_key f));
    ("safety_check", VBool (chk_safe f)) ].

(** ** Workbook writer ([generate_excel_report]) *)

Definition check_mark (v : value) : value :=
  VText (if truthy v then "☑" else "☐").

Definition reactive_headers : list value :=
  [VText "Time Called"; VText "Time Back"; VText "Asset"; VText "Fault";
   VText "Comment"; VText "Engs"; VText "Man Hrs"; VText "DT Hrs"].

Definition s_heads : list value :=
  [VText "ART #"; VText "LOCATION"; VText "DESC"; VText "CATEGORY"; VText "REASON"].

Definition s_heads2 : list value :=
  [VText "QTY"; VText "NAME"; VText "DATE"; VText "DECISION"].

(** The values of one row of the reactive table. *)
Definition reactive_cells (r : dict) : result (list value) :=
  minutes ← getitem r "Downtime (min)" ≫= as_number;
  let dt := num_div minutes 60 in
  called ← getitem r "Time Called";
  back ← getitem r "Time Back";
  asset ← getitem r "Asset";
  fault ← getitem r "Fault";
  desc ← getitem r "Description";
  engineers ← getitem r "Engineers";
  engs ← getitem r "Engineers" ≫= as_number;
  mret [called; back; asset; fault; desc; engineers;
        round_number 2 (num_mul dt engs); round_number 2 dt].

Fixpoint write_reactives (ws : sheet) (row : nat) (reactives : list dict)
    : result (sheet * nat) :=
  match reactives with
  | [] => mret (ws, row)
  | r :: rest =>
      vals ← reactive_cells r;
      write_reactives (write_row ws row 1 vals) (S row) rest
  end.

Fixpoint write_ppms (ws : sheet) (row : nat) (ppms : list dict)
    : result (sheet * nat) :=
  match ppms with
  | [] => mret (ws, row)
  | p :: rest =>
      asset ← getitem p "Asset";
      status ← getitem p "Status";
      comments ← getitem p "Comments";
      write_ppms (write_row ws row 1 [asset; status; comments]) (S row) rest
  end.

Fixpoint write_spares (shift_data : odict) (ws : sheet) (row : nat)
    (spares : list dict) : result (sheet * nat) :=
  match spares with
  | [] => mret (ws, row)
  | s :: rest =>
      art ← getitem s "ART #";
      loc ← getitem s "Location";
      desc ← getitem s "Description";
      let vals := [art; loc; desc; get s "Category Code" (VText ""); VText "Wear Part"] in
      let ws := write_row ws row 1 vals in
      qty ← getitem s "Quantity";
      engineer ← ogetitem shift_data "engineer";
      date ← ogetitem shift_data "date";
      decision ← getitem s "Decision";
      let ws := write_row ws (S row) 6 [qty; engineer; date; decision] in
      write_spares shift_data ws (S (S row)) rest
  end.

(** The worksheet "Shift Report" that [wb.save] writes out. *)
Definition generate_excel_report (shift_data : odict)
    (reactives ppms other_tasks spares : list dict) : result sheet :=
  (* Header *)
  engineer ← ogetitem shift_data "engineer";
  let ws : sheet := <[(1, 1)%nat := VText "Engineer:"]> ∅ in
  let ws := <[(1, 2)%nat := engineer]> ws in
  let ws := <[(1, 3)%nat := oget shift_data "second_engineer" (VText "")]> ws in
  notes ← ogetitem shift_data "urgent_notes";
  let ws := <[(1, 5)%nat := VText ("HANDOVER NOTES:" +:+ newline +:+ py_str notes)]> ws in
  radios ← ogetitem shift_data "radios_charged";
  phones ← ogetitem shift_data "phones_working";
  keys ← ogetitem shift_data "keys_handed";
  safety ← ogetitem shift_data "safety_check";
  let ws := write_row ws 3 1 [VText "RADIO CHECK"; check_mark radios] in
  let ws := write_row ws 4 1 [VText "PHONES HANDED"; check_mark phones] in
  let ws := write_row ws 5 1 [VText "KEYS HANDED"; check_mark keys] in
  let ws := write_row ws 6 1 [VText "SAFETY OK"; check_mark safety] in
  (* Reactives *)
  let row := 8%nat in
  let ws := <[(row, 1%nat) := VText "Reactive Tasks"]> ws in
  let row := S row in
  let ws := write_row ws row 1 reactive_headers in
  let row := S row in
  '(ws, row) ← write_reactives ws row reactives;
  (* PPMs *)
  let row := (row + 2)%nat in
  let ws := <[(row, 1%nat) := VText "PPM Tasks"]> ws in
  let row := S row in
  '(ws, row) ← write_ppms ws row ppms;
  (* Spares *)
  let row := (row + 2)%nat in
  let ws := <[(row, 1%nat) := VText "Spares Used"]> ws in
  let row := S row in
  let ws := write_row ws row 1 s_heads in
  let row := S row in
  let ws := write_row ws row 6 s_heads2 in
  let row := S row in
  '(ws, row) ← write_spares shift_data ws row spares;
  mret ws.

(** ** PDF writer ([generate_pdf_report]) *)

Definition reactive_pdf_row (r : dict) : result (list value) :=
  asset ← getitem r "Asset";
  fault ← getitem r "Fault";
  called ← getitem r "Time Called";
  downtime ← getitem r "Downtime (min)";
  mret [asset; fault; called; downtime].

(** The flowables that [doc.build] lays out. *)
Definition generate_pdf_report (shift_data : odict)
    (reactives ppms other_tasks spares : list dict) (rid : Z)
    : result (list flowable) :=
  (* Page 1 *)
  let elements := [Paragraph ("SHIFT REPORT #" +:+ pretty rid) TitleStyle; Spacer 1 20] in
  engineer ← ogetitem shift_data "engineer";
  date ← ogetitem shift_data "date";
  let elements := elements ++
    [Paragraph ("<b>Engineer:</b> " +:+ py_str engineer +:+ " | <b>Date:</b> " +:+
                py_str date) NormalStyle] in
  notes ← ogetitem shift_data "urgent_notes";
  let elements := elements ++
    [Paragraph ("<b>Handover Notes:</b> " +:+ py_str notes) NormalStyle; PageBreak] in
  (* Page 2 *)
  let elements := elements ++ [Paragraph "Reactive Tasks" TitleStyle] in
  match reactives with
  | [] => mret elements
  | _ :: _ =>
      rows ← map_result reactive_pdf_row reactives;
      t ← mk_table ([VText "Asset"; VText "Fault"; VText "Time"; VText "DT(m)"] :: rows);
      mret (elements ++ [t])
  end.

End ShiftLog.

(** * app.py *)

Module App.

(** ** Tables ([init_db]) *)

Record report_row : Type := ReportRow {
  rep_id : Z;
  rep_date : value;
  rep_shift : value;
  rep_engineer : value;
  rep_team_members : value;
  rep_site_condition : value;
  rep_radios_charged : value;
  rep_phones_working : value;
  rep_urgent_notes : value;
  rep_other_tasks : value;
  rep_submitted_at : value
}.

Record reactive_row : Type := ReactiveRow {
  rx_report_id : Z;
  rx_asset : value;
  rx_time_called : value;
  rx_time_back : value;
  rx_fault : value;
  rx_engineers : value;
  rx_description : value;
  rx_downtime : value;
  rx_status : value
}.

Record ppm_row : Type := PpmRow {
  ppm_report_id : Z;
  ppm_asset : value;
  ppm_ppm_id : value;
  ppm_status : value;
  ppm_comments : value
}.

Record spare_row : Type := SpareRow {
  sp_report_id : Z;
  sp_art_number : value;
  sp_description : value;
  sp_location : value;
  sp_category : value;
  sp_quantity : value;
  sp_decision : value
}.

(** [report_seq] is the largest report id ever given out (AUTOINCREMENT). *)
Record db : Type := Db {
  tbl_reports : list report_row;
  tbl_reactives : list reactive_row;
  tbl_ppms : list ppm_row;
  tbl_spares : list spare_row;
  report_seq : Z
}.

Definition empty_db : db := Db [] [] [] [] 0.

(** ** Session state ([init_session_state]) *)

(** The keys that only feed the widgets ([current_user], the spare search
    box and its text fields) are left out. *)
Record session : Type := Session {
  reactives : list dict;
  ppms : list dict;
  spares : list dict;
  editing_report_id : option Z;
  carry_over_checked : bool
}.

Definition init_session_state : session := Session [] [] [] None false.

Abbreviation Tx := (Tx db session).

(** [if st.session_state.editing_report_id:] — the id when it is truthy. *)
Definition editing (s : session) : option Z :=
  match editing_report_id s with
  | Some rid => if rid =? 0 then None else Some rid
  | None => None
  end.

Definition is_editing (s : session) : bool :=
  match editing s with
  | Some _ => true
  | None => false
  end.

(** ** Statements *)

Definition next_report_id (d : db) : Z := report_seq d + 1.

Definition with_id (rid : Z) (h : report_row) : report_row :=
  ReportRow rid (rep_date h) (rep_shift h) (rep_engineer h) (rep_team_members h)
    (rep_site_condition h) (rep_radios_charged h) (rep_phones_working h)
    (rep_urgent_notes h) (rep_other_tasks h) (rep_submitted_at h).

(** [INSERT INTO reports (...) VALUES (...)]. *)
Definition insert_report (h : report_row) (d : db) : db :=
  Db (tbl_reports d ++ [with_id (next_report_id d) h])
     (tbl_reactives d) (tbl_ppms d) (tbl_spares d) (next_report_id d).

(** [UPDATE reports SET ... WHERE id=?]. *)
Definition update_report (rid : Z) (h : report_row) (d : db) : db :=
  Db (map (fun r => if rep_id r =? rid then with_id rid h else r) (tbl_reports d))
     (tbl_reactives d) (tbl_ppms d) (tbl_spares d) (report_seq d).

(** [DELETE FROM reactives WHERE report_id=?], and the same for the other
    two child tables. *)
Definition delete_reactives (rid : Z) (d : db) : db :=
  Db (tbl_reports d)
     (List.filter (fun r => negb (rx_report_id r =? rid)) (tbl_reactives d))
     (tbl_ppms d) (tbl_spares d) (report_seq d).

Definition delete_ppms (rid : Z) (d : db) : db :=
  Db (tbl_reports d) (tbl_reactives d)
     (List.filter (fun r => negb (ppm_report_id r =? rid)) (tbl_ppms d))
     (tbl_spares d) (report_seq d).

Definition delete_spares (rid : Z) (d : db) : db :=
  Db (tbl_reports d) (tbl_reactives d) (tbl_ppms d)
     (List.filter (fun r => negb (sp_report_id r =? rid)) (tbl_spares d))
     (report_seq d).

Definition insert_reactive (r : reactive_row) (d : db) : db :=
  Db (tbl_reports d) (tbl_reactives d ++ [r]) (tbl_ppms d) (tbl_spares d) (report_seq d).

Definition insert_ppm (r : ppm_row) (d : db) : db :=
  Db (tbl_reports d) (tbl_reactives d) (tbl_ppms d ++ [r]) (tbl_spares d) (report_seq d).

Definition insert_spare (r : spare_row) (d : db) : db :=
  Db (tbl_reports d) (tbl_reactives d) (tbl_ppms d) (tbl_spares d ++ [r]) (report_seq d).

(** [SELECT * FROM reports WHERE id=?] followed by [fetchone()]. *)
Definition select_report (rid : Z) (d : db) : option report_row :=
  head (List.filter (fun r => rep_id r =? rid) (tbl_reports d)).

(** [SELECT * FROM reactives WHERE report_id=?], and the same for the other
    two child tables; the rows come in insertion order. *)
Definition select_reactives (rid : Z) (d : db) : list reactive_row :=
  List.filter (fun r => rx_report_id r =? rid) (tbl_reactives d).

Definition select_ppms (rid : Z) (d : db) : list ppm_row :=
  List.filter (fun r => ppm_report_id r =? rid) (tbl_ppms d).

Definition select_spares (rid : Z) (d : db) : list spare_row :=
  List.filter (fun r => sp_report_id r =? rid) (tbl_spares d).

(** [status != 'Complete'] in SQL: the comparison with NULL is never true,
    and a number is never equal to a text. *)
Definition sql_ne_text (v : value) (s : string) : bool :=
  match v with
  | VNone => false
  | VText t => negb (String.eqb t s)
  | _ => true
  end.

(** [SELECT * FROM reactives WHERE status != 'Complete']. *)
Definition select_open_reactives (d : db) : list reactive_row :=
  List.filter (fun r => sql_ne_text (rx_status r) "Complete") (tbl_reactives d).

(** ** [save_report_to_db] *)

(** The parameter tuple of the header statements; [now] is
    [datetime.now().strftime(...)]. *)
Definition header_params (report_data : odict) (now : string) : result report_row :=
  date ← ogetitem report_data "date";
  shift ← ogetitem report_data "shift";
  engineer ← ogetitem report_data "engineer";
  team ← ogetitem report_data "team_members";
  site ← ogetitem report_data "site_condition";
  radios ← ogetitem report_data "radios_charged";
  phones ← ogetitem report_data "phones_working";
  notes ← ogetitem report_data "urgent_notes";
  others ← ogetitem report_data "other_tasks";
  mret (ReportRow 0 date shift engineer team site radios phones notes others (VText now)).

Definition reactive_params (rid : Z) (r : dict) : result reactive_row :=
  asset ← getitem r "Asset";
  called ← getitem r "Time Called";
  back ← getitem r "Time Back";
  fault ← getitem r "Fault";
  engineers ← getitem r "Engineers";
  desc ← getitem r "Description";
  downtime ← getitem r "Downtime (min)";
  mret (ReactiveRow rid asset called back fault engineers desc downtime
          (get r "Status" (VText "Complete"))).

Definition ppm_params (rid : Z) (p : dict) : result ppm_row :=
  asset ← getitem p "Asset";
  ppm_id ← getitem p "PPM ID";
  status ← getitem p "Status";
  comments ← getitem p "Comments";
  mret (PpmRow rid asset ppm_id status comments).

Definition spare_params (rid : Z) (s : dict) : result spare_row :=
  art ← getitem s "ART #";
  desc ← getitem s "Description";
  loc ← getitem s "Location";
  cat ← getitem s "Category";
  qty ← getitem s "Quantity";
  decision ← getitem s "Decision";
  mret (SpareRow rid art desc loc cat qty decision).

Definition save_report_to_db (report_data : odict) (now : string) : Tx Z :=
  connect;;
  st ← get_session;
  rid ← match editing st with
        | Some rid =>
            (* UPDATE existing report *)
            h ← lift (header_params report_data now);
            execute (update_report rid h);;
            execute (delete_reactives rid);;
            execute (delete_ppms rid);;
            execute (delete_spares rid);;
            mret rid
        | None =>
            (* INSERT new report *)
            h ← lift (header_params report_data now);
            execute_returning (insert_report h) next_report_id
        end;
  (* Insert Details *)
  for_each (reactives st) (fun r =>
    row ← lift (reactive_params rid r);
    execute (insert_reactive row));;
  for_each (ppms st) (fun p =>
    row ← lift (ppm_params rid p);
    execute (insert_ppm row));;
  for_each (spares st) (fun s =>
    row ← lift (spare_params rid s);
    execute (insert_spare row));;
  commit;;
  mret rid.

(** ** [load_report_for_editing] *)

Definition reactive_dict (row : reactive_row) : dict :=
  {[ "Asset" := rx_asset row;
     "Time Called" := rx_time_called row;
     "Time Back" := rx_time_back row;
     "Fault" := rx_fault row;
     "Engineers" := rx_engineers row;
     "Description" := rx_description row;
     "Downtime (min)" := rx_downtime row;
     "Status" := rx_status row ]}.

Definition ppm_dict (row : ppm_row) : dict :=
  {[ "Asset" := ppm_asset row;
     "PPM ID" := ppm_ppm_id row;
     "Status" := ppm_status row;
     "Comments" := ppm_comments row ]}.

Definition spare_dict (row : spare_row) : dict :=
  {[ "ART #" := sp_art_number row;
     "Description" := sp_description row;
     "Location" := sp_location row;
     "Category" := sp_category row;
     "Quantity" := sp_quantity row;
     "Decision" := sp_decision row ]}.

Definition set_editing (rid : option Z) (s : session) : session :=
  Session (reactives s) (ppms s) (spares s) rid (carry_over_checked s).

Definition set_reactives (l : list dict) (s : session) : session :=
  Session l (ppms s) (spares s) (editing_report_id s) (carry_over_checked s).

Definition set_ppms (l : list dict) (s : session) : session :=
  Session (reactives s) l (spares s) (editing_report_id s) (carry_over_checked s).

Definition set_spares (l : list dict) (s : session) : session :=
  Session (reactives s) (ppms s) l (editing_report_id s) (carry_over_checked s).

Definition set_checked (b : bool) (s : session) : session :=
  Session (reactives s) (ppms s) (spares s) (editing_report_id s) b.

Definition load_report_for_editing (report_id : Z) : Tx bool :=
  connect;;
  (* Load Header *)
  r ← query (select_report report_id);
  match r with
  | None => mret false
  | Some _ =>
      (* Populate Session State *)
      modify_session (set_editing (Some report_id));;
      rows ← query (select_reactives report_id);
      modify_session (set_reactives (map reactive_dict rows));;
      rows ← query (select_ppms report_id);
      modify_session (set_ppms (map ppm_dict rows));;
      rows ← query (select_spares report_id);
      modify_session (set_spares (map spare_dict rows));;
      mret true
  end.

(** ** Automatic population *)

(** [df['Day'].isin([today_day, 'Daily'])] on one row; a frame without the
    column raises [KeyError]. *)
Definition day_matches (today_day : string) (row : dict) : result bool :=
  day ← getitem row "Day";
  mret (match day with
        | VText s => String.eqb s today_day || String.eqb s "Daily"
        | _ => false
        end).

Fixpoint todays_tasks (today_day : string) (df : list dict) : result (list dict) :=
  match df with
  | [] => mret []
  | row :: df' =>
      b ← day_matches today_day row;
      rest ← todays_tasks today_day df';
      mret (if (b : bool) then row :: rest else rest)
  end.

(** The loop that fills [scheduled_ppms]: an exception ends it and what was
    appended before stays. *)
Fixpoint schedule_rows (tasks : list dict) : list dict :=
  match tasks with
  | [] => []
  | row :: tasks' =>
      match row !! "Asset" with
      | Some asset =>
          ({[ "Asset" := asset;
              "PPM ID" := get row "Task Description" (VText "Scheduled Task");
              "Status" := VText "In Progress";
              "Comments" := VText "Auto-scheduled" ]} : dict)
          :: schedule_rows tasks'
      | None => []
      end
  end.

(** [check_smart_ppms]: [ppm_file] is [data/ppm_schedule.csv] and
    [today_day] the name of today's weekday. *)
Definition check_smart_ppms (ppm_file : csv_file) (today_day : string) : list dict :=
  match ppm_file with
  | Frame df =>
      match todays_tasks today_day df with
      | Ok tasks => schedule_rows tasks
      | Raise _ => []
      end
  | _ => []
  end.

(** One entry of [carry_over]. *)
Definition carry_over_dict (row : reactive_row) : dict :=
  {[ "Asset" := rx_asset row;
     "Time Called" := rx_time_called row;
     "Time Back" := rx_time_back row;
     "Fault" := rx_fault row;
     "Engineers" := rx_engineers row;
     "Description" := VText ("[CARRY OVER] " +:+ py_str (rx_description row));
     "Downtime (min)" := rx_downtime row;
     "Status" := rx_status row ]}.

Definition check_carry_over_tasks : Tx (list dict) :=
  connect;;
  df ← query select_open_reactives;
  mret (map carry_over_dict df).

(** The block "AUTO-LOGIC: Run once per session" of [show_shift_log]. *)
Definition auto_logic (ppm_file : csv_file) (today_day : string) : Tx unit :=
  st ← get_session;
  if negb (carry_over_checked st) && negb (is_editing st) then
    (* 1. Carry Over *)
    carry_over ← check_carry_over_tasks;
    match carry_over with
    | [] => mret tt
    | _ :: _ => modify_session (fun s => set_reactives (reactives s ++ carry_over) s)
    end;;
    (* 2. Smart PPMs *)
    let smart_ppms := check_smart_ppms ppm_file today_day in
    match smart_ppms with
    | [] => mret tt
    | _ :: _ => modify_session (fun s => set_ppms (ppms s ++ smart_ppms) s)
    end;;
    modify_session (set_checked true)
  else mret tt.

(** The button "Cancel Editing". *)
Definition cancel_editing (s : session) : session :=
  Session [] [] [] None (carry_over_checked s).

(** ** Entry form *)

(** [calculate_downtime(t1, t2)]: a time is always truthy, so the guard
    [if t1 and t2] only fails for [None]. *)
Definition calculate_downtime (t1 t2 : option time) : value :=
  match t1, t2 with
  | Some t1, Some t2 => VReal (inject_Z (total_seconds t2 t1) / 60)%Q
  | _, _ => VInt 0
  end.

(** [if st.button("Add Reactive")]. *)
Definition add_reactive (r_asset : string) (r_called r_back : time)
    (r_fault r_status : string) (r_engs : Z) (r_desc : string) (s : session) : session :=
  let dt := calculate_downtime (Some r_called) (Some r_back) in
  let entry : dict :=
    {[ "Asset" := VText r_asset;
       "Time Called" := VText (time_str r_called);
       "Time Back" := VText (time_str r_back);
       "Fault" := VText r_fault;
       "Status" := VText r_status;
       "Engineers" := VInt r_engs;
       "Description" := VText r_desc;
       "Downtime (min)" := round_value 1 dt ]} in
  set_reactives (reactives s ++ [entry]) s.

(** [if st.button("Add PPM")]. *)
Definition add_ppm (p_asset p_id : string) (s : session) : session :=
  let entry : dict :=
    {[ "Asset" := VText p_asset;
       "PPM ID" := VText p_id;
       "Status" := VText "Complete";
       "Comments" := VText "" ]} in
  set_ppms (ppms s ++ [entry]) s.

(** [if st.button("Add Spare")]. *)
Definition add_spare (s_art s_desc s_loc : string) (s_qty : Z) (s_dec : string)
    (s : session) : session :=
  let entry : dict :=
    {[ "ART #" := VText s_art;
       "Description" := VText s_desc;
       "Location" := VText s_loc;
       "Category" := VText "Gen";
       "Quantity" := VInt s_qty;
       "Decision" := VText s_dec ]} in
  set_spares (spares s ++ [entry]) s.

(** [report_data], as the SAVE TO DATABASE button builds it. *)
Definition report_data (s_date : py_date) (s_shift s_eng s_team : string) : odict :=
  [ ("date", VText (date_str s_date));
    ("shift", VText s_shift);
    ("engineer", VText s_eng);
    ("team_members", VText s_team);
    ("site_condition", VText "Normal");
    ("radios_charged", VBool true);
    ("phones_working", VBool true);
    ("urgent_notes", VText "N/A");
    ("other_tasks", VText "N/A") ].

(** ** PDF writer ([generate_pdf_report]) *)

Definition is_child_key (k : string) : bool :=
  String.eqb k "reactives" || String.eqb k "ppms" || String.eqb k "spares".

(** [[k, str(v)] for k, v in shift_data.items() if k not in [...]]. *)
Definition shift_details (shift_data : odict) : list (list value) :=
  map (fun kv => [VText kv.1; VText (py_str kv.2)])
      (List.filter (fun kv => negb (is_child_key kv.1)) shift_data).

Definition reactive_pdf_row (r : dict) : result (list value) :=
  asset ← getitem r "Asset";
  fault ← getitem r "Fault";
  mret [asset; fault; get r "Status" (VText "");
        VText (py_str (get r "Downtime (min)" (VInt 0)))].

(** [st.session_state.get('editing_report_id', 'NEW')] inside the title:
    the key is always present, so the default is never used. *)
Definition title_id (editing_report_id : option Z) : string :=
  match editing_report_id with
  | Some rid => pretty rid
  | None => "None"
  end.

(** The flowables that [doc.build] lays out. *)
Definition generate_pdf_report (editing_report_id : option Z) (shift_data : odict)
    (reactives ppms spares : list dict) : result (list flowable) :=
  let elements := [Paragraph ("SHIFT REPORT #" +:+ title_id editing_report_id) TitleStyle] in
  (* Shift Info *)
  let elements := elements ++ [Paragraph "SHIFT DETAILS" H2Style] in
  t ← mk_table (shift_details shift_data);
  let elements := elements ++ [t] in
  (* Reactives *)
  match reactives with
  | [] => mret elements
  | _ :: _ =>
      let elements := elements ++
        [Paragraph ("REACTIVE TASKS (" +:+ pretty (length reactives) +:+ ")") H2Style] in
      rows ← map_result reactive_pdf_row reactives;
      t ← mk_table ([VText "Asset"; VText "Fault"; VText "Status"; VText "Downtime"] :: rows);
      mret (elements ++ [t])
  end.

End App.

(** * dashboard.py *)

Module Dashboard.

(** The frame [df_inventory] is [SELECT * FROM spares_inventory]. *)
Definition load_inventory (d : ShiftLog.db) : list ShiftLog.inventory_row :=
  ShiftLog.spares_inventory d.

(** [df_inventory[df_inventory['stock_level'] <= df_inventory['min_stock_level']]]. *)
Definition low_stock (df_inventory : list ShiftLog.inventory_row)
    : list ShiftLog.inventory_row :=
  List.filter (fun r => ShiftLog.stock_level r <=? ShiftLog.min_stock_level r)
    df_inventory.

End Dashboard.

(** * shift_log.py: the options of the part search *)

Module MasterData.

(** [sorted(l)] of a list of texts: Python orders texts by code point,
    which on their UTF-8 bytes is the order of [String.leb]. *)
Fixpoint insert_sorted (x : string) (l : list string) : list string :=
  match l with
  | [] => [x]
  | y :: l' => if String.leb x y then x :: l else y :: insert_sorted x l'
  end.

Definition sorted (l : list string) : list string :=
  fold_right insert_sorted [] l.

(** [df_spares['art_number'] + " - " + df_spares['description']]. *)
Definition option_text (r : ShiftLog.inventory_row) : string :=
  ShiftLog.art_number r +:+ " - " +:+ ShiftLog.description r.

(** The spares half of [get_master_data]: [SPARES_OPT] and [DF_SPARES].  A
    failed read of the inventory and an empty inventory both give an empty
    option list and an empty frame. *)
Definition get_master_data : ShiftLog.Tx (list string * list ShiftLog.inventory_row) :=
  connect;;
  r ← try_except
        (df_spares ← query ShiftLog.spares_inventory;
         match df_spares with
         | [] => mret ([], [])
         | _ :: _ => mret (map option_text df_spares, df_spares)
         end)
        (fun _ => true)
        (fun _ => mret ([], []));
  mret (sorted r.1, r.2).

End MasterData.

(** * Vocabulary of the statements *)

(** The same world with a connection on which no call fails. *)
Definition unlimited {db sess} (w : world db sess) : world db sess :=
  World (durable w) (work w) None (session w).

(** A computation that touches neither the database file nor the session,
    whatever its outcome. *)
Definition keeps_durable {db sess A} (m : Tx db sess A) : Prop :=
  forall w,
    match m w with
    | Done _ w' | Fail _ w' => durable w' = durable w /\ session w' = session w
    end.

(** A computation whose successful runs do not depend on the budget. *)
Definition fault_insensitive {db sess A} (m : Tx db sess A) : Prop :=
  forall w a w', m w = Done a w' -> m (unlimited w) = Done a (unlimited w').

Definition local {db sess A} (m : Tx db sess A) : Prop :=
  keeps_durable m /\ fault_insensitive m.

(** All or nothing: a failed run leaves the database file and the session
    as they were; a successful run leaves the session as it was and ends in
    the world that the run without faults ends in. *)
Definition atomic {db sess A} (m : Tx db sess A) : Prop :=
  forall w,
    match m w with
    | Fail _ w' => durable w' = durable w /\ session w' = session w
    | Done a w' => session w' = session w /\ m (unlimited w) = Done a (unlimited w')
    end.

(** A dictionary with exactly the keys [ks]. *)
Definition has_keys (ks : list string) (r : dict) : Prop :=
  dom r = list_to_set ks.

Global Instance has_keys_dec ks r : Decision (has_keys ks r).
Proof. unfold has_keys. apply _. Defined.

Module AppKeys.
Definition reactive_keys : list string :=
  ["Asset"; "Time Called"; "Time Back"; "Fault"; "Engineers"; "Description";
   "Downtime (min)"; "Status"].
Definition ppm_keys : list string := ["Asset"; "PPM ID"; "Status"; "Comments"].
Definition spare_keys : list string :=
  ["ART #"; "Description"; "Location"; "Category"; "Quantity"; "Decision"].

(** The child lists as the entry form, the carry-over import and the
    load for editing fill them. *)
Definition well_formed (s : App.session) : Prop :=
  Forall (has_keys reactive_keys) (App.reactives s) /\
  Forall (has_keys ppm_keys) (App.ppms s) /\
  Forall (has_keys spare_keys) (App.spares s).

(** Every child row belongs to a report id that has been given out. *)
Definition consistent (d : App.db) : Prop :=
  Forall (fun r => App.rx_report_id r <= App.report_seq d) (App.tbl_reactives d) /\
  Forall (fun r => App.ppm_report_id r <= App.report_seq d) (App.tbl_ppms d) /\
  Forall (fun r => App.sp_report_id r <= App.report_seq d) (App.tbl_spares d).

(** The session either creates a report or edits one that is stored. *)
Definition editable (d : App.db) (s : App.session) : Prop :=
  match App.editing s with
  | Some rid => is_Some (App.select_report rid d)
  | None => True
  end.
End AppKeys.

Module ShiftLogKeys.
Definition reactive_keys : list string :=
  ["Asset"; "Fault"; "Time Called"; "Time Back"; "Downtime (min)"; "Engineers";
   "Description"].
Definition spare_keys : list string :=
  ["ART #"; "Description"; "Location"; "Quantity"; "Category Code"; "Decision"].

(** A spare entry as Add Spare builds it: the part number is a text and
    the quantity an integer. *)
Definition spare_entry (e : dict) : Prop :=
  has_keys spare_keys e /\
  (exists art, e !! "ART #" = Some (VText art)) /\
  (exists qty, e !! "Quantity" = Some (VInt qty)).

Definition well_formed (s : ShiftLog.session) : Prop :=
  Forall (has_keys reactive_keys) (ShiftLog.reactives s) /\
  Forall spare_entry (ShiftLog.spares s).

(** The quantity that the entry [e] books on the part [art]. *)
Definition booked (art : string) (e : dict) : Z :=
  match ShiftLog.stock_params e with
  | Ok (qty, a) => if String.eqb a art then qty else 0
  | Raise _ => 0
  end.

(** The total quantity that the entries book on the part [art]. *)
Definition used (art : string) (spares : list dict) : Z :=
  fold_right (fun e acc => booked art e + acc) 0 spares.

(** A row of the inventory with [qty] taken from its stock. *)
Definition take (qty : Z) (r : ShiftLog.inventory_row) : ShiftLog.inventory_row :=
  ShiftLog.InventoryRow (ShiftLog.art_number r) (ShiftLog.description r)
    (ShiftLog.location r) (ShiftLog.category r) (ShiftLog.stock_level r - qty)
    (ShiftLog.min_stock_level r).
End ShiftLogKeys.

(** The rows that a child list is stored as: they carry the report id and
    read back as the entries of the list. *)
Definition stored_as {R} (report_id : R -> Z) (to_dict : R -> dict) (rid : Z)
    (l : list dict) (rows : list R) : Prop :=
  Forall (fun row => report_id row = rid) rows /\ map to_dict rows = l.

(** The database after the portal has saved a report with header [h] and
    child rows [rxs], [ps] and [ss]: an edited report has its header
    replaced and its old children deleted, a new report gets the next id. *)
Definition app_saved (d : App.db) (editing : option Z) (h : App.report_row)
    (rxs : list App.reactive_row) (ps : list App.ppm_row) (ss : list App.spare_row)
    : App.db :=
  match editing with
  | Some rid =>
      App.Db
        (map (fun r => if App.rep_id r =? rid then App.with_id rid h else r)
             (App.tbl_reports d))
        (List.filter (fun r => negb (App.rx_report_id r =? rid)) (App.tbl_reactives d) ++ rxs)
        (List.filter (fun r => negb (App.ppm_report_id r =? rid)) (App.tbl_ppms d) ++ ps)
        (List.filter (fun r => negb (App.sp_report_id r =? rid)) (App.tbl_spares d) ++ ss)
        (App.report_seq d)
  | None =>
      App.Db
        (App.tbl_reports d ++ [App.with_id (App.next_report_id d) h])
        (App.tbl_reactives d ++ rxs)
        (App.tbl_ppms d ++ ps)
        (App.tbl_spares d ++ ss)
        (App.next_report_id d)
  end.

(** The id under which the portal saves: the edited report or a new one. *)
Definition app_saved_id (d : App.db) (editing : option Z) : Z :=
  match editing with
  | Some rid => rid
  | None => App.next_report_id d
  end.

(** ** Sample data *)

Module Sample.
Definition day : py_date := Date 2024 3 9.

(** A portal session with one entry of each kind. *)
Definition app_session : App.session :=
  App.add_spare "ART-1" "Drive belt" "Rack A1" 2 "Used"
    (App.add_ppm "Palletiser #1" "Weekly lubrication"
       (App.add_reactive "Conveyor #1" (Time 8 0) (Time 8 45) "Mechanical"
          "In Progress" 2 "Belt slipped" App.init_session_state)).

Definition reactives_a : list dict :=
  App.reactives
    (App.add_reactive "Conveyor #1" (Time 8 0) (Time 8 45) "Mechanical"
       "Complete" 1 "Belt slipped" App.init_session_state).
Definition reactives_b : list dict :=
  App.reactives
    (App.add_reactive "Forklift #1" (Time 10 0) (Time 10 30) "Electrical"
       "Complete" 1 "Battery swapped" App.init_session_state).
Definition ppms_a : list dict :=
  App.ppms (App.add_ppm "Palletiser #1" "Weekly lubrication" App.init_session_state).
Definition ppms_b : list dict :=
  App.ppms (App.add_ppm "Conveyor #1" "Belt tension" App.init_session_state).
Definition spares_a : list dict :=
  App.spares (App.add_spare "ART-1" "Drive belt" "Rack A1" 2 "Used" App.init_session_state).
Definition spares_b : list dict :=
  App.spares (App.add_spare "ART-2" "Fuse" "Rack B4" 1 "Used" App.init_session_state).

(** A stored report, number 1, with one open reactive task. *)
Definition app_db : App.db :=
  App.Db
    [App.ReportRow 1 (VText "2024-03-08") (VText "Night Shift") (VText "Sarah Jones")
       (VText "") (VText "Normal") (VBool true) (VBool true) (VText "N/A")
       (VText "N/A") (VText "2024-03-09 06:00:00")]
    [App.ReactiveRow 1 (VText "Conveyor #1") (VText "23:30:00") (VText "00:15:00")
       (VText "Mechanical") (VInt 2) (VText "Belt slipped") (VReal (-1395))
       (VText "In Progress")]
    [] [] 1.
End Sample.

Module SampleLog.
Definition form : ShiftLog.form :=
  ShiftLog.Form Sample.day "Day" "Alf Fidoe" "" "Conveyor belt to be replaced"
    true true false true.

Definition inventory : list ShiftLog.inventory_row :=
  [ShiftLog.InventoryRow "ART-1" "Drive belt" "Rack A1" "General" 10 2;
   ShiftLog.InventoryRow "ART-2" "Fuse" "Rack B4" "General" 5 5].

Definition db : ShiftLog.db := ShiftLog.Db [] [] [] [] [] inventory 0.

(** A shift-log session with a reactive task, a PPM and a spare. *)
Definition session : ShiftLog.session :=
  ShiftLog.add_spare "ART-1 - Drive belt" 3 4 "Disposed" inventory
    (ShiftLog.add_ppm "Wrapper" "Greased"
       (ShiftLog.add_reactive "Conveyor 1" "Jam" (Time 23 30) (Time 0 15)
          "Belt realigned" "" ShiftLog.init_session_state)).

(** A catalogue in which the part ART-1 appears twice. *)
Definition catalogue : csv_file :=
  Frame
    [ {[ "Part Number" := VText "ART-1"; "Description" := VText "Drive belt";
         "Location" := VText "Rack A1" ]};
      {[ "Part Number" := VText "ART-2"; "Description" := VText "Fuse";
         "Location" := VText "Rack B4" ]};
      {[ "Part Number" := VText "ART-1"; "Description" := VText "Drive belt (new)";
         "Location" := VText "Rack C2" ]} ].
End SampleLog.

(** The header row that SAVE REPORT writes for the form [f]. *)
Definition shift_log_header (rid : Z) (f : ShiftLog.form) (now : string)
    : ShiftLog.report_row :=
  ShiftLog.ReportRow rid (VText (date_str (ShiftLog.s_date f)))
    (VText (ShiftLog.s_shift f)) (VText (ShiftLog.s_eng f))
    (VText (ShiftLog.s_sec_eng f)) (VText (ShiftLog.urgent f))
    (VBool (ShiftLog.chk_rad f)) (VBool (ShiftLog.chk_phn f))
    (VBool (ShiftLog.chk_key f)) (VBool (ShiftLog.chk_safe f)) (VText now).

(** The database after SAVE REPORT has stored the reactive rows [rxs] and
    the usage rows [sus] of the session [s]. *)
Definition shift_log_saved (d : ShiftLog.db) (f : ShiftLog.form) (now : string)
    (s : ShiftLog.session) (rxs : list ShiftLog.reactive_row)
    (sus : list ShiftLog.spare_used_row) : ShiftLog.db :=
  ShiftLog.Db
    (ShiftLog.tbl_reports d ++ [shift_log_header (ShiftLog.next_report_id d) f now])
    (ShiftLog.tbl_reactives d ++ rxs)
    (ShiftLog.tbl_ppms d)
    (ShiftLog.tbl_other_tasks d)
    (ShiftLog.tbl_spares_used d ++ sus)
    (map (fun r => ShiftLogKeys.take
                     (ShiftLogKeys.used (ShiftLog.art_number r) (ShiftLog.spares s)) r)
         (ShiftLog.spares_inventory d))
    (ShiftLog.next_report_id d).

(** The inventory row that the reload makes of a catalogue row, when the
    row has a part number. *)
Definition catalogue_row (row : dict) : option ShiftLog.inventory_row :=
  let p_num := py_str (get row "art_number" (get row "Part Number" (VText "UNKNOWN"))) in
  let desc := py_str (get row "Description" (get row "description" (VText ""))) in
  let loc := py_str (get row "Location" (get row "location" (VText ""))) in
  if String.eqb p_num "UNKNOWN" || String.eqb p_num "nan" then None
  else Some (ShiftLog.InventoryRow p_num desc loc "General" 10 2).

(** The inventory that the catalogue alone determines, built on [inv]. *)
Definition catalogue_onto (inv : list ShiftLog.inventory_row) (df : list dict)
    : list ShiftLog.inventory_row :=
  fold_left (fun inv row =>
               match catalogue_row row with
               | Some r => ShiftLog.insert_or_replace r inv
               | None => inv
               end) df inv.

Definition catalogue_inventory (df : list dict) : list ShiftLog.inventory_row :=
  catalogue_onto [] df.

(** The number of catalogue rows that have a part number. *)
Definition catalogue_count (df : list dict) : nat :=
  length (List.filter (fun row => bool_decide (is_Some (catalogue_row row))) df).

(** The default values of a reloaded row. *)
Definition has_defaults (r : ShiftLog.inventory_row) : Prop :=
  ShiftLog.category r = "General" /\
  ShiftLog.stock_level r = 10 /\
  ShiftLog.min_stock_level r = 2.

(** ** Sections of the documents *)




(** The header block of the workbook. *)
Definition workbook_header (f : ShiftLog.form) : list (nat * nat * value) :=
  [ ((1, 1), VText "Engineer:");
    ((1, 2), VText (ShiftLog.s_eng f));
    ((1, 3), VText (ShiftLog.s_sec_eng f));
    ((1, 5), VText ("HANDOVER NOTES:" +:+ newline +:+ ShiftLog.urgent f));
    ((3, 1), VText "RADIO CHECK");
    ((3, 2), ShiftLog.check_mark (VBool (ShiftLog.chk_rad f)));
    ((4, 1), VText "PHONES HANDED");
    ((4, 2), ShiftLog.check_mark (VBool (ShiftLog.chk_phn f)));
    ((5, 1), VText "KEYS HANDED");
    ((5, 2), ShiftLog.check_mark (VBool (ShiftLog.chk_key f)));
    ((6, 1), VText "SAFETY OK");
    ((6, 2), ShiftLog.check_mark (VBool (ShiftLog.chk_safe f))) ]%nat.

(** The section titles and column headers that the workbook of a report
    without entries still shows. *)
Definition workbook_sections : list (nat * nat * value) :=
  [ ((8, 1), VText "Reactive Tasks");
    ((9, 1), VText "Time Called"); ((9, 2), VText "Time Back");
    ((9, 3), VText "Asset"); ((9, 4), VText "Fault"); ((9, 5), VText "Comment");
    ((9, 6), VText "Engs"); ((9, 7), VText "Man Hrs"); ((9, 8), VText "DT Hrs");
    ((12, 1), VText "PPM Tasks");
    ((15, 1), VText "Spares Used");
    ((16, 1), VText "ART #"); ((16, 2), VText "LOCATION"); ((16, 3), VText "DESC");
    ((16, 4), VText "CATEGORY"); ((16, 5), VText "REASON");
    ((17, 6), VText "QTY"); ((17, 7), VText "NAME"); ((17, 8), VText "DATE");
    ((17, 9), VText "DECISION") ]%nat.

Definition empty_workbook (f : ShiftLog.form) : sheet :=
  list_to_map (workbook_header f ++ workbook_sections).

Definition inventory_row_eq_dec (x y : ShiftLog.inventory_row) : {x = y} + {x <> y}.
Proof.
  decide equality; first [apply Z.eq_dec | apply String.string_dec].
Defined.

(** ** Sessions that the pages can reach *)

(** The portal's session after any sequence of its actions: the three Add
    buttons, Cancel Editing, the automatic population and a load for
    editing, the last two on any database and with any failing call. *)
Inductive app_reachable : App.session -> Prop :=
| app_reach_init : app_reachable App.init_session_state
| app_reach_add_reactive r_asset r_called r_back r_fault r_status r_engs r_desc s :
    app_reachable s ->
    app_reachable (App.add_reactive r_asset r_called r_back r_fault r_status r_engs r_desc s)
| app_reach_add_ppm p_asset p_id s :
    app_reachable s -> app_reachable (App.add_ppm p_asset p_id s)
| app_reach_add_spare s_art s_desc s_loc s_qty s_dec s :
    app_reachable s -> app_reachable (App.add_spare s_art s_desc s_loc s_qty s_dec s)
| app_reach_cancel s :
    app_reachable s -> app_reachable (App.cancel_editing s)
| app_reach_auto ppm_file today_day b d s :
    app_reachable s -> app_reachable (run (App.auto_logic ppm_file today_day) b d s).2
| app_reach_load report_id b d s :
    app_reachable s -> app_reachable (run (App.load_report_for_editing report_id) b d s).2.

(** The shift log's session after any sequence of its three Add buttons. *)
Inductive shift_log_reachable : ShiftLog.session -> Prop :=
| shift_log_reach_init : shift_log_reachable ShiftLog.init_session_state
| shift_log_reach_add_reactive r_asset r_fault r_called r_back r_desc s_sec_eng s :
    shift_log_reachable s ->
    shift_log_reachable (ShiftLog.add_reactive r_asset r_fault r_called r_back r_desc s_sec_eng s)
| shift_log_reach_add_ppm p_asset p_comm s :
    shift_log_reachable s -> shift_log_reachable (ShiftLog.add_ppm p_asset p_comm s)
| shift_log_reach_add_spare sp_item sp_qty sp_cat sp_dec df_spares s :
    shift_log_reachable s ->
    shift_log_reachable (ShiftLog.add_spare sp_item sp_qty sp_cat sp_dec df_spares s).

(** A computation that keeps the property [P] of the session, whatever its
    outcome, and whose result satisfies [Q]. *)
Definition session_triple {db sess A} (P : sess -> Prop) (m : Tx db sess A)
    (Q : A -> Prop) : Prop :=
  forall w, P (session w) ->
    match m w with
    | Done a w' => P (session w') /\ Q a
    | Fail _ w' => P (session w')
    end.

Module ShiftLogForms.
Definition ppm_keys : list string := ["Asset"; "Status"; "Comments"].

(** A reactive entry as Add Reactive builds it: downtime a float, number
    of engineers an integer. *)
Definition reactive_entry (e : dict) : Prop :=
  has_keys ShiftLogKeys.reactive_keys e /\
  (exists q, e !! "Downtime (min)" = Some (VReal q)) /\
  (exists n, e !! "Engineers" = Some (VInt n)).

Definition well_typed (s : ShiftLog.session) : Prop :=
  Forall reactive_entry (ShiftLog.reactives s) /\
  Forall (has_keys ppm_keys) (ShiftLog.ppms s) /\
  Forall ShiftLogKeys.spare_entry (ShiftLog.spares s).

(** The row under which SAVE REPORT stores a reactive entry. *)
Definition reactive_row (rid : Z) (e : dict) : ShiftLog.reactive_row :=
  ShiftLog.ReactiveRow rid (get e "Asset" VNone) (get e "Time Called" VNone)
    (get e "Time Back" VNone) (get e "Fault" VNone) (get e "Engineers" VNone)
    (get e "Description" VNone) (get e "Downtime (min)" VNone).

(** The row under which SAVE REPORT stores a spare entry. *)
Definition spare_row (rid : Z) (e : dict) : ShiftLog.spare_used_row :=
  ShiftLog.SpareUsedRow rid (get e "ART #" VNone) (get e "Description" VNone)
    (get e "Location" VNone) (get e "Quantity" VNone) (get e "Decision" VNone)
    (get e "Category Code" VNone).
End ShiftLogForms.

(** ** The reports table of the portal *)

(** The ids of the reports are distinct, positive and have been given
    out; the child rows belong to ids that have been given out. *)
Definition app_store_ok (d : App.db) : Prop :=
  NoDup (map App.rep_id (App.tbl_reports d)) /\
  Forall (fun r => 0 < App.rep_id r <= App.report_seq d) (App.tbl_reports d) /\
  0 <= App.report_seq d /\
  AppKeys.consistent d.

(** The copy of an open reactive row that a save of the carried-over entry
    stores under the report [rid]. *)
Definition carried_row (rid : Z) (row : App.reactive_row) : App.reactive_row :=
  App.ReactiveRow rid (App.rx_asset row) (App.rx_time_called row) (App.rx_time_back row)
    (App.rx_fault row) (App.rx_engineers row)
    (VText ("[CARRY OVER] " +:+ py_str (App.rx_description row)))
    (App.rx_downtime row) (App.rx_status row).

(** ** The PPM schedule *)

(** The rows of the schedule that are due on [today_day]. *)
Definition due_on (today_day : string) (row : dict) : bool :=
  match row !! "Day" with
  | Some (VText s) => String.eqb s today_day || String.eqb s "Daily"
  | _ => false
  end.

(** The PPM entry scheduled for a row of the schedule. *)
Definition scheduled_entry (row : dict) : dict :=
  {[ "Asset" := get row "Asset" VNone;
     "PPM ID" := get row "Task Description" (VText "Scheduled Task");
     "Status" := VText "In Progress";
     "Comments" := VText "Auto-scheduled" ]}.

(** ** The catalogue *)



(** A text without blanks. *)
Fixpoint no_blank (s : string) : bool :=
  match s with
  | EmptyString => true
  | String c s' => negb (Ascii.eqb c " ") && no_blank s'
  end.

(** ** The inventory *)

(** Two rows of the inventory that differ at most in their stock level. *)
Definition same_part (r r' : ShiftLog.inventory_row) : Prop :=
  ShiftLog.art_number r' = ShiftLog.art_number r /\
  ShiftLog.description r' = ShiftLog.description r /\
  ShiftLog.location r' = ShiftLog.location r /\
  ShiftLog.category r' = ShiftLog.category r /\
  ShiftLog.min_stock_level r' = ShiftLog.min_stock_level r.


(** * Facts *)

(** ** Rounding and downtime *)

Lemma round_half_even_whole (q : Q) (k : Z) :
  (q == inject_Z k)%Q -> round_half_even q = k.
Proof.
  unfold Qeq, round_half_even; simpl. intros H.
  assert (Hn : Qnum q = k * Z.pos (Qden q)) by lia.
  rewrite Hn, Z.div_mul, Z.mod_mul by lia.
  simpl. reflexivity.
Qed.

Lemma py_round_whole (n : nat) (q : Q) (k : Z) :
  (q == inject_Z k)%Q -> py_round n q = inject_Z k.
Proof.
  intros H. unfold py_round.
  assert (Hs : 0 < 10 ^ Z.of_nat n) by (apply Z.pow_pos_nonneg; lia).
  rewrite (round_half_even_whole _ (k * 10 ^ Z.of_nat n)).
  - assert (Heq : (k * 10 ^ Z.of_nat n # Z.to_pos (10 ^ Z.of_nat n) == inject_Z k)%Q).
    { unfold Qeq; simpl. rewrite Z2Pos.id by lia. ring. }
    rewrite (Qred_complete _ _ Heq). apply Qcanon.Qred_identity. simpl. apply Z.gcd_1_r.
  - rewrite H, <- inject_Z_mult. reflexivity.
Qed.

Lemma minutes_of_seconds (t2 t1 : time) :
  (inject_Z (total_seconds t2 t1) / 60 == inject_Z (minute_of_day t2 - minute_of_day t1))%Q.
Proof.
  unfold total_seconds, minute_of_day, Qeq, Qdiv; simpl. lia.
Qed.

Lemma Qltb_inject_Z (q : Q) (k : Z) :
  (q == inject_Z k)%Q -> Qltb q 0 = (k <? 0).
Proof.
  intros H. unfold Qltb.
  destruct (Qle_bool 0 q) eqn:E.
  - apply Qle_bool_iff in E. rewrite H in E. unfold Qle in E; simpl in E.
    symmetry. apply Z.ltb_ge. lia.
  - simpl. symmetry. apply Z.ltb_lt.
    destruct (Z.lt_ge_cases k 0) as [Hk | Hk]; [exact Hk |].
    assert (Hle : (0 <= q)%Q) by (rewrite H; unfold Qle; simpl; lia).
    apply Qle_bool_iff in Hle. congruence.
Qed.

(** The shift-log form stores the difference of the two times, in minutes,
    with 1440 added when it is negative. *)
Lemma shift_log_downtime_formula (r_called r_back : time) :
  let d := minute_of_day r_back - minute_of_day r_called in
  ShiftLog.add_reactive_downtime r_called r_back =
  inject_Z (if d <? 0 then d + 1440 else d).
Proof.
  intros d. unfold ShiftLog.add_reactive_downtime.
  pose proof (minutes_of_seconds r_back r_called) as H. fold d in H.
  rewrite (Qltb_inject_Z _ _ H).
  destruct (d <? 0).
  - apply py_round_whole. rewrite H, inject_Z_plus. reflexivity.
  - apply py_round_whole. exact H.
Qed.

(** X1.  On the shift-log form, for two times of the day the stored
    downtime is the difference normalised into [0, 1440); equal times
    give 0. *)
Lemma shift_log_downtime_normalized (r_called r_back : time) :
  valid_time r_called -> valid_time r_back ->
  let dt := ShiftLog.add_reactive_downtime r_called r_back in
  dt = inject_Z ((minute_of_day r_back - minute_of_day r_called) mod 1440) /\
  (0 <= dt < 1440)%Q /\
  (r_back = r_called -> dt = 0%Q).
Proof.
  intros [Hh1 Hm1] [Hh2 Hm2] dt. subst dt.
  rewrite shift_log_downtime_formula. cbv zeta.
  set (d := minute_of_day r_back - minute_of_day r_called).
  assert (Hd : -1440 < d < 1440) by (unfold d, minute_of_day; lia).
  assert (Hmod : d mod 1440 = if d <? 0 then d + 1440 else d).
  { destruct (d <? 0) eqn:E.
    - apply Z.ltb_lt in E. symmetry. apply Z.mod_unique_pos with (q := -1); lia.
    - apply Z.ltb_ge in E. apply Z.mod_small. lia. }
  rewrite <- Hmod.
  pose proof (Z.mod_pos_bound d 1440 ltac:(lia)) as Hb.
  split; [reflexivity | split].
  - unfold Qle, Qlt; simpl. lia.
  - intros ->. unfold d. rewrite Z.sub_diag. reflexivity.
Qed.

(** The portal form stores the raw difference: nothing is added when the
    back time precedes the call time. *)
Lemma app_downtime_formula (r_called r_back : time) :
  round_value 1 (App.calculate_downtime (Some r_called) (Some r_back)) =
  VReal (inject_Z (minute_of_day r_back - minute_of_day r_called)).
Proof.
  simpl. f_equal. apply py_round_whole. apply minutes_of_seconds.
Qed.

(** C1 (defect in app.py).  A call at 23:30 that is back at 00:15: the
    shift-log form stores a downtime of 45 minutes, the difference
    normalised into [0, 1440); the portal form stores -1395 minutes. *)
Theorem app_downtime_misses_midnight_rollover :
  let called := Time 23 30 in
  let back := Time 0 15 in
  let shift_log_entries :=
    ShiftLog.reactives
      (ShiftLog.add_reactive "Conveyor #1" "Jam" called back "cleared" ""
         ShiftLog.init_session_state) in
  let app_entries :=
    App.reactives
      (App.add_reactive "Conveyor #1" called back "Mechanical" "Complete" 1 "cleared"
         App.init_session_state) in
  (minute_of_day back - minute_of_day called) mod 1440 = 45 /\
  (r ← head shift_log_entries; r !! "Downtime (min)") = Some (VReal 45) /\
  (r ← head app_entries; r !! "Downtime (min)") = Some (VReal (-1395)).
Proof. vm_compute. repeat split. Qed.

(** ** Transactions *)

Section TxFacts.
Context {db sess : Type}.
Implicit Types (w : world db sess).

Local Ltac tx_unfold :=
  unfold local, keeps_durable, fault_insensitive, atomic, unlimited,
    mbind, tx_bind, mret, tx_ret.

Lemma local_ret {A} (a : A) : local (mret a : Tx db sess A).
Proof. tx_unfold. split; intros w; [tauto | intros ? ? [= <- <-]; reflexivity]. Qed.

Lemma local_bind {A B} (m : Tx db sess A) (k : A -> Tx db sess B) :
  local m -> (forall a, local (k a)) -> local (m ≫= k).
Proof.
  intros [Hd Hf] Hk. split.
  - intros w. unfold mbind, tx_bind. specialize (Hd w).
    destruct (m w) as [a w1 | e w1]; [| exact Hd].
    destruct (Hk a) as [Hd' _]. specialize (Hd' w1).
    destruct (k a w1); destruct Hd, Hd'; split; congruence.
  - intros w b w' H. unfold mbind, tx_bind in *.
    destruct (m w) as [a w1 | e w1] eqn:E; [| discriminate].
    rewrite (Hf _ _ _ E). destruct (Hk a) as [_ Hf']. apply Hf'. exact H.
Qed.

Lemma local_tick : local (tick : Tx db sess unit).
Proof.
  split.
  - intros w. unfold tick. destruct (budget w) as [[| n] |]; simpl; tauto.
  - intros w a w'. unfold tick, unlimited.
    destruct w as [dw ww bw sw]; simpl.
    destruct bw as [[| n] |]; intros [= <- <-]; reflexivity.
Qed.

Lemma local_connect : local (connect : Tx db sess unit).
Proof. split; intros w; unfold connect; [simpl; tauto | intros ? ? [= <- <-]; reflexivity]. Qed.

Lemma local_read_work {A} (f : db -> A) : local (read_work f : Tx db sess A).
Proof. split; intros w; unfold read_work; [tauto | intros ? ? [= <- <-]; reflexivity]. Qed.

Lemma local_write_work (f : db -> db) : local (write_work f : Tx db sess unit).
Proof. split; intros w; unfold write_work; [simpl; tauto | intros ? ? [= <- <-]; reflexivity]. Qed.

Lemma local_get_session : local (get_session : Tx db sess sess).
Proof. split; intros w; unfold get_session; [tauto | intros ? ? [= <- <-]; reflexivity]. Qed.

Lemma local_lift {A} (r : result A) : local (lift r : Tx db sess A).
Proof.
  split; intros w; unfold lift; destruct r; try tauto;
    intros ? ? [= <- <-]; reflexivity.
Qed.

Lemma local_execute (f : db -> db) : local (execute f : Tx db sess unit).
Proof. apply local_bind; [apply local_tick | intros; apply local_write_work]. Qed.

Lemma local_execute_returning {A} (f : db -> db) (g : db -> A) :
  local (execute_returning f g : Tx db sess A).
Proof.
  apply local_bind; [apply local_tick | intros].
  apply local_bind; [apply local_read_work | intros].
  apply local_bind; [apply local_write_work | intros; apply local_ret].
Qed.

Lemma local_query {A} (f : db -> A) : local (query f : Tx db sess A).
Proof. apply local_bind; [apply local_tick | intros; apply local_read_work]. Qed.

Lemma local_for_each {A} (l : list A) (body : A -> Tx db sess unit) :
  (forall x, local (body x)) -> local (for_each l body).
Proof.
  intros H. induction l as [| x l IH]; simpl.
  - apply local_ret.
  - apply local_bind; [apply H | intros; exact IH].
Qed.

Lemma local_for_fold {A B} (l : list A) (body : B -> A -> Tx db sess B) :
  (forall acc x, local (body acc x)) -> forall acc, local (for_fold l acc body).
Proof.
  intros H. induction l as [| x l IH]; intros acc; simpl.
  - apply local_ret.
  - apply local_bind; [apply H | intros; apply IH].
Qed.

(** The end of a transaction. *)
Lemma atomic_commit {A} (a : A) : atomic (commit;; mret a : Tx db sess A).
Proof.
  intros w. unfold commit, mbind, tx_bind, mret, tx_ret, tick, flush_work, unlimited.
  destruct (budget w) as [[| n] |]; simpl; auto.
Qed.

Lemma atomic_bind {A B} (m : Tx db sess A) (k : A -> Tx db sess B) :
  local m -> (forall a, atomic (k a)) -> atomic (m ≫= k).
Proof.
  intros [Hd Hf] Hk w. unfold mbind, tx_bind.
  specialize (Hd w). destruct (m w) as [a w1 | e w1] eqn:E; [| exact Hd].
  rewrite (Hf _ _ _ E). specialize (Hk a w1). destruct Hd as [Hd Hs].
  destruct (k a w1) as [b w2 | e w2].
  - destruct Hk as [Hs2 Hk]. split; [congruence | exact Hk].
  - destruct Hk. split; congruence.
Qed.

(** What an atomic handler leaves behind. *)
Lemma atomic_run {A} (m : Tx db sess A) (b : option nat) (d : db) (s : sess) :
  atomic m ->
  match run m b d s with
  | (Raise _, d', s') => d' = d /\ s' = s
  | (Ok a, d', s') => s' = s /\ run m None d s = (Ok a, d', s)
  end.
Proof.
  intros H. unfold run. specialize (H (World d d b s)).
  destruct (m (World d d b s)) as [a w' | e w'].
  - destruct H as [Hs H]. unfold unlimited in H. simpl in H. rewrite H. simpl.
    simpl in Hs. rewrite Hs. auto.
  - exact H.
Qed.
End TxFacts.

(** Running a sequence step by step. *)
Lemma tx_bind_done {db sess A B} (m : Tx db sess A) (k : A -> Tx db sess B)
    (w w' : world db sess) (a : A) (r : outcome db sess B) :
  m w = Done a w' -> k a w' = r -> (m ≫= k) w = r.
Proof. intros Hm Hk. unfold mbind, tx_bind. rewrite Hm. exact Hk. Qed.

Lemma tx_bind_fail {db sess A B} (m : Tx db sess A) (k : A -> Tx db sess B)
    (w w' : world db sess) (e : exn) :
  m w = Fail e w' -> (m ≫= k) w = Fail e w'.
Proof. intros Hm. unfold mbind, tx_bind. rewrite Hm. reflexivity. Qed.

Ltac tx_step := eapply tx_bind_done; [reflexivity |].

Ltac solve_local :=
  repeat first
    [ apply local_ret | apply local_connect | apply local_get_session
    | apply local_lift | apply local_tick | apply local_read_work
    | apply local_write_work | apply local_execute
    | apply local_execute_returning | apply local_query
    | apply local_for_each; intros
    | apply local_bind; [| intros]
    | match goal with
      | |- local (match ?x with _ => _ end) => destruct x
      end ].

(** A loop of INSERTs on a connection without faults adds the rows one
    after the other, provided every parameter tuple can be built. *)
Lemma for_each_execute {db sess A R} (params : A -> result R) (ins : R -> db -> db)
    (l : list A) (rows : list R) (w : world db sess) :
  map_result params l = Ok rows ->
  budget w = None ->
  for_each l (fun x => row ← lift (params x); execute (ins row)) w =
  Done tt (World (durable w) (fold_left (fun d r => ins r d) rows (work w)) None (session w)).
Proof.
  revert rows w. induction l as [| x l IH]; intros rows w Hrows Hb.
  - injection Hrows as <-. destruct w; simpl in *; subst; reflexivity.
  - simpl in Hrows. unfold mbind at 1, result_bind in Hrows.
    destruct (params x) as [row | e] eqn:Hx; [| discriminate].
    unfold mbind at 1, result_bind in Hrows.
    destruct (map_result params l) as [rows' | e] eqn:Hl; [| discriminate].
    injection Hrows as <-.
    cbn [for_each].
    eapply tx_bind_done.
    { eapply tx_bind_done; [rewrite Hx; reflexivity |].
      eapply tx_bind_done; [unfold tick; rewrite Hb; reflexivity | reflexivity]. }
    rewrite (IH rows'); [reflexivity | reflexivity | exact Hb].
Qed.

Lemma map_result_Forall {A B} (f : A -> result B) (P : A -> Prop) (Q : A -> B -> Prop)
    (l : list A) :
  (forall x, P x -> exists y, f x = Ok y /\ Q x y) ->
  Forall P l ->
  exists ys, map_result f l = Ok ys /\ Forall2 Q l ys.
Proof.
  intros Hf. induction 1 as [| x l Hx Hl IH].
  - exists []. split; [reflexivity | constructor].
  - destruct (Hf x Hx) as (y & Hy & HQ). destruct IH as (ys & Hys & HQs).
    exists (y :: ys). split; [| constructor; assumption].
    simpl. rewrite Hy. unfold mbind at 1, result_bind. rewrite Hys. reflexivity.
Qed.

(** ** Row dictionaries *)

Lemma lookup_keyed (f : string -> value) (ks : list string) (k : string) :
  (list_to_map (map (fun k => (k, f k)) ks) : dict) !! k =
  if decide (k ∈ ks) then Some (f k) else None.
Proof.
  induction ks as [| k0 ks IH]; simpl.
  - rewrite lookup_empty. destruct (decide (k ∈ [])) as [H | H]; [| reflexivity].
    inversion H.
  - destruct (decide (k0 = k)) as [-> | Hne].
    + rewrite lookup_insert_eq. destruct (decide (k ∈ k :: ks)) as [| H]; [reflexivity |].
      exfalso. apply H. left.
    + rewrite lookup_insert_ne by exact Hne. rewrite IH.
      destruct (decide (k ∈ ks)) as [H | H], (decide (k ∈ k0 :: ks)) as [H' | H'];
        try reflexivity.
      * exfalso. apply H'. right. exact H.
      * exfalso. inversion H'; subst; [congruence | contradiction].
Qed.

Lemma has_keys_lookup (ks : list string) (r : dict) (k : string) :
  has_keys ks r -> k ∈ ks -> exists v, r !! k = Some v.
Proof.
  unfold has_keys. intros H Hk.
  assert (Hd : k ∈ dom r) by (rewrite H; apply elem_of_list_to_set; exact Hk).
  apply elem_of_dom in Hd. destruct Hd as [v Hv]. eauto.
Qed.

(** A dictionary with the keys [ks] is the dictionary built from its own
    values under these keys. *)
Lemma has_keys_rebuild (ks : list string) (r : dict) :
  has_keys ks r ->
  list_to_map (map (fun k => (k, get r k VNone)) ks) = r.
Proof.
  intros H. apply map_eq. intros k. rewrite lookup_keyed.
  destruct (decide (k ∈ ks)) as [Hk | Hk].
  - destruct (has_keys_lookup _ _ _ H Hk) as [v Hv]. unfold get. rewrite Hv. reflexivity.
  - symmetry. apply not_elem_of_dom. unfold has_keys in H. rewrite H.
    rewrite elem_of_list_to_set. exact Hk.
Qed.

Ltac key_lookup H k v Hv :=
  destruct (has_keys_lookup _ _ k H) as [v Hv];
  [ repeat constructor | ].

(** ** The portal: saving and loading a report *)

Lemma app_reactive_params_ok (rid : Z) (r : dict) :
  has_keys AppKeys.reactive_keys r ->
  exists row, App.reactive_params rid r = Ok row /\
              (App.rx_report_id row = rid /\ App.reactive_dict row = r).
Proof.
  intros H.
  key_lookup H "Asset" v1 H1. key_lookup H "Time Called" v2 H2.
  key_lookup H "Time Back" v3 H3. key_lookup H "Fault" v4 H4.
  key_lookup H "Engineers" v5 H5. key_lookup H "Description" v6 H6.
  key_lookup H "Downtime (min)" v7 H7. key_lookup H "Status" v8 H8.
  exists (App.ReactiveRow rid v1 v2 v3 v4 v5 v6 v7 v8).
  unfold App.reactive_params, getitem, get. rewrite H1, H2, H3, H4, H5, H6, H7, H8.
  split; [reflexivity | split; [reflexivity |]].
  rewrite <- (has_keys_rebuild _ _ H). unfold App.reactive_dict, get; simpl.
  rewrite H1, H2, H3, H4, H5, H6, H7, H8. reflexivity.
Qed.

Lemma app_ppm_params_ok (rid : Z) (p : dict) :
  has_keys AppKeys.ppm_keys p ->
  exists row, App.ppm_params rid p = Ok row /\
              (App.ppm_report_id row = rid /\ App.ppm_dict row = p).
Proof.
  intros H.
  key_lookup H "Asset" v1 H1. key_lookup H "PPM ID" v2 H2.
  key_lookup H "Status" v3 H3. key_lookup H "Comments" v4 H4.
  exists (App.PpmRow rid v1 v2 v3 v4).
  unfold App.ppm_params, getitem. rewrite H1, H2, H3, H4.
  split; [reflexivity | split; [reflexivity |]].
  rewrite <- (has_keys_rebuild _ _ H). unfold App.ppm_dict, get; simpl.
  rewrite H1, H2, H3, H4. reflexivity.
Qed.

Lemma app_spare_params_ok (rid : Z) (s : dict) :
  has_keys AppKeys.spare_keys s ->
  exists row, App.spare_params rid s = Ok row /\
              (App.sp_report_id row = rid /\ App.spare_dict row = s).
Proof.
  intros H.
  key_lookup H "ART #" v1 H1. key_lookup H "Description" v2 H2.
  key_lookup H "Location" v3 H3. key_lookup H "Category" v4 H4.
  key_lookup H "Quantity" v5 H5. key_lookup H "Decision" v6 H6.
  exists (App.SpareRow rid v1 v2 v3 v4 v5 v6).
  unfold App.spare_params, getitem. rewrite H1, H2, H3, H4, H5, H6.
  split; [reflexivity | split; [reflexivity |]].
  rewrite <- (has_keys_rebuild _ _ H). unfold App.spare_dict, get; simpl.
  rewrite H1, H2, H3, H4, H5, H6. reflexivity.
Qed.

Lemma stored_as_Forall2 {R} (report_id : R -> Z) (to_dict : R -> dict) rid l rows :
  Forall2 (fun r row => report_id row = rid /\ to_dict row = r) l rows ->
  stored_as report_id to_dict rid l rows.
Proof.
  induction 1 as [| r row l rows [H1 H2] _ [IH1 IH2]]; split; simpl.
  - constructor.
  - reflexivity.
  - constructor; assumption.
  - congruence.
Qed.

Lemma app_children_params (rid : Z) (s : App.session) :
  AppKeys.well_formed s ->
  exists rxs ps ss,
    map_result (App.reactive_params rid) (App.reactives s) = Ok rxs /\
    map_result (App.ppm_params rid) (App.ppms s) = Ok ps /\
    map_result (App.spare_params rid) (App.spares s) = Ok ss /\
    stored_as App.rx_report_id App.reactive_dict rid (App.reactives s) rxs /\
    stored_as App.ppm_report_id App.ppm_dict rid (App.ppms s) ps /\
    stored_as App.sp_report_id App.spare_dict rid (App.spares s) ss.
Proof.
  intros (Hr & Hp & Hs).
  destruct (map_result_Forall _ _ _ _ (app_reactive_params_ok rid) Hr) as (rxs & E1 & F1).
  destruct (map_result_Forall _ _ _ _ (app_ppm_params_ok rid) Hp) as (ps & E2 & F2).
  destruct (map_result_Forall _ _ _ _ (app_spare_params_ok rid) Hs) as (ss & E3 & F3).
  exists rxs, ps, ss. repeat split; try assumption;
    try (apply stored_as_Forall2; assumption);
    eapply stored_as_Forall2; eassumption.
Qed.

Lemma app_insert_reactives (rows : list App.reactive_row) (d : App.db) :
  fold_left (fun d r => App.insert_reactive r d) rows d =
  App.Db (App.tbl_reports d) (App.tbl_reactives d ++ rows) (App.tbl_ppms d)
    (App.tbl_spares d) (App.report_seq d).
Proof.
  revert d. induction rows as [| r rows IH]; intros d; simpl.
  - rewrite app_nil_r. destruct d; reflexivity.
  - rewrite IH. simpl. rewrite <- app_assoc. reflexivity.
Qed.

Lemma app_insert_ppms (rows : list App.ppm_row) (d : App.db) :
  fold_left (fun d r => App.insert_ppm r d) rows d =
  App.Db (App.tbl_reports d) (App.tbl_reactives d) (App.tbl_ppms d ++ rows)
    (App.tbl_spares d) (App.report_seq d).
Proof.
  revert d. induction rows as [| r rows IH]; intros d; simpl.
  - rewrite app_nil_r. destruct d; reflexivity.
  - rewrite IH. simpl. rewrite <- app_assoc. reflexivity.
Qed.

Lemma app_insert_spares (rows : list App.spare_row) (d : App.db) :
  fold_left (fun d r => App.insert_spare r d) rows d =
  App.Db (App.tbl_reports d) (App.tbl_reactives d) (App.tbl_ppms d)
    (App.tbl_spares d ++ rows) (App.report_seq d).
Proof.
  revert d. induction rows as [| r rows IH]; intros d; simpl.
  - rewrite app_nil_r. destruct d; reflexivity.
  - rewrite IH. simpl. rewrite <- app_assoc. reflexivity.
Qed.

(** Saving is all or nothing, whatever call into the database fails. *)
Lemma app_save_atomic (report_data : odict) (now : string) :
  atomic (App.save_report_to_db report_data now).
Proof.
  unfold App.save_report_to_db.
  apply atomic_bind; [solve_local | intros _].
  apply atomic_bind; [solve_local | intros st].
  apply atomic_bind; [solve_local | intros rid].
  apply atomic_bind; [solve_local | intros _].
  apply atomic_bind; [solve_local | intros _].
  apply atomic_bind; [solve_local | intros _].
  apply atomic_commit.
Qed.

(** A save on which no database call fails. *)
Lemma app_save_run (report_data : odict) (now : string) (d : App.db) (s : App.session)
    (h : App.report_row) rxs ps ss :
  let rid := app_saved_id d (App.editing s) in
  App.header_params report_data now = Ok h ->
  map_result (App.reactive_params rid) (App.reactives s) = Ok rxs ->
  map_result (App.ppm_params rid) (App.ppms s) = Ok ps ->
  map_result (App.spare_params rid) (App.spares s) = Ok ss ->
  run (App.save_report_to_db report_data now) None d s =
  (Ok rid, app_saved d (App.editing s) h rxs ps ss, s).
Proof.
  intros rid Hh Hr Hp Hs. unfold run.
  assert (Hrun : App.save_report_to_db report_data now (World d d None s) =
                 Done rid (let d' := app_saved d (App.editing s) h rxs ps ss in
                           World d' d' None s)).
  { unfold App.save_report_to_db. tx_step. tx_step. cbn [session]. subst rid.
    destruct (App.editing s) as [rid |] eqn:He; unfold app_saved_id in Hr, Hp, Hs |- *.
    - eapply tx_bind_done.
      { eapply tx_bind_done; [rewrite Hh; reflexivity |]. do 4 tx_step. reflexivity. }
      eapply tx_bind_done; [apply (for_each_execute _ _ _ _ _ Hr); reflexivity |].
      eapply tx_bind_done; [apply (for_each_execute _ _ _ _ _ Hp); reflexivity |].
      eapply tx_bind_done; [apply (for_each_execute _ _ _ _ _ Hs); reflexivity |].
      tx_step. cbn. rewrite app_insert_spares, app_insert_ppms, app_insert_reactives.
      reflexivity.
    - eapply tx_bind_done.
      { eapply tx_bind_done; [rewrite Hh; reflexivity |]. reflexivity. }
      eapply tx_bind_done; [apply (for_each_execute _ _ _ _ _ Hr); reflexivity |].
      eapply tx_bind_done; [apply (for_each_execute _ _ _ _ _ Hp); reflexivity |].
      eapply tx_bind_done; [apply (for_each_execute _ _ _ _ _ Hs); reflexivity |].
      tx_step. cbn. rewrite app_insert_spares, app_insert_ppms, app_insert_reactives.
      reflexivity. }
  rewrite Hrun. reflexivity.
Qed.

(** Selecting by report id from old rows of other reports followed by new
    rows of this report gives the new rows. *)
Lemma filter_key_app {R} (key : R -> Z) (rid : Z) (old new : list R) :
  Forall (fun r => key r <> rid) old ->
  Forall (fun r => key r = rid) new ->
  List.filter (fun r => key r =? rid) (old ++ new) = new.
Proof.
  intros Ho Hn. rewrite List.filter_app.
  assert (H1 : List.filter (fun r => key r =? rid) old = []).
  { induction Ho as [| r old Hr _ IH]; simpl; [reflexivity |].
    apply Z.eqb_neq in Hr. rewrite Hr. exact IH. }
  assert (H2 : List.filter (fun r => key r =? rid) new = new).
  { induction Hn as [| r new Hr _ IH]; simpl; [reflexivity |].
    apply Z.eqb_eq in Hr. rewrite Hr, IH. reflexivity. }
  rewrite H1, H2. reflexivity.
Qed.

Lemma filter_key_deleted {R} (key : R -> Z) (rid : Z) (l : list R) :
  Forall (fun r => key r <> rid) (List.filter (fun r => negb (key r =? rid)) l).
Proof.
  apply List.Forall_forall. intros r Hr. apply List.filter_In in Hr.
  destruct Hr as [_ Hr]. apply negb_true_iff, Z.eqb_neq in Hr. exact Hr.
Qed.

Lemma Forall_below_fresh {R} (key : R -> Z) (seq : Z) (l : list R) :
  Forall (fun r => key r <= seq) l -> Forall (fun r => key r <> seq + 1) l.
Proof. apply List.Forall_impl. intros r Hr. lia. Qed.

(** After a save the children stored under the saved id are the rows of
    the session, in the order of the session. *)
Lemma app_saved_children (d : App.db) (editing : option Z) h rxs ps ss (l1 l2 l3 : list dict) :
  let rid := app_saved_id d editing in
  let d' := app_saved d editing h rxs ps ss in
  (editing = None -> AppKeys.consistent d) ->
  stored_as App.rx_report_id App.reactive_dict rid l1 rxs ->
  stored_as App.ppm_report_id App.ppm_dict rid l2 ps ->
  stored_as App.sp_report_id App.spare_dict rid l3 ss ->
  map App.reactive_dict (App.select_reactives rid d') = l1 /\
  map App.ppm_dict (App.select_ppms rid d') = l2 /\
  map App.spare_dict (App.select_spares rid d') = l3.
Proof.
  intros rid d' Hc [F1 M1] [F2 M2] [F3 M3]. subst rid d'.
  unfold App.select_reactives, App.select_ppms, App.select_spares.
  destruct editing as [rid |]; simpl.
  - rewrite !filter_key_app by (try apply filter_key_deleted; assumption). auto.
  - destruct (Hc eq_refl) as (C1 & C2 & C3). unfold App.next_report_id in *.
    rewrite !filter_key_app by (try apply Forall_below_fresh; assumption). auto.
Qed.

(** After a save the header of the saved id is in the reports table. *)
Lemma app_saved_header (d : App.db) (editing : option Z) h rxs ps ss :
  match editing with
  | Some rid => is_Some (App.select_report rid d)
  | None => True
  end ->
  is_Some (App.select_report (app_saved_id d editing)
             (app_saved d editing h rxs ps ss)).
Proof.
  unfold App.select_report. destruct editing as [rid |]; simpl.
  - generalize (App.tbl_reports d). intros l. induction l as [| r l IH]; simpl.
    + intros [x Hx]. discriminate.
    + destruct (App.rep_id r =? rid) eqn:E; simpl.
      * rewrite Z.eqb_refl. simpl. eauto.
      * rewrite E. exact IH.
  - intros _. rewrite List.filter_app. simpl. rewrite Z.eqb_refl.
    destruct (List.filter _ (App.tbl_reports d)); simpl; eauto.
Qed.

(** Loading a stored report on a connection without faults. *)
Lemma app_load_run (rid : Z) (d : App.db) (s : App.session) :
  is_Some (App.select_report rid d) ->
  run (App.load_report_for_editing rid) None d s =
  (Ok true, d,
   App.Session (map App.reactive_dict (App.select_reactives rid d))
     (map App.ppm_dict (App.select_ppms rid d))
     (map App.spare_dict (App.select_spares rid d))
     (Some rid) (App.carry_over_checked s)).
Proof.
  intros [r Hr]. unfold run, App.load_report_for_editing.
  erewrite tx_bind_done; [| reflexivity |].
  2:{ eapply tx_bind_done; [reflexivity |]. cbn [work durable budget session]. rewrite Hr.
      do 7 tx_step. reflexivity. }
  reflexivity.
Qed.

(** X6.  Loading for editing an id that has no header row answers [False]
    and changes neither the database nor the session: the session is not
    put into editing. *)
Lemma app_load_missing (rid : Z) (d : App.db) (s : App.session) :
  App.select_report rid d = None ->
  run (App.load_report_for_editing rid) None d s = (Ok false, d, s).
Proof.
  intros Hr. unfold run, App.load_report_for_editing.
  erewrite tx_bind_done; [| reflexivity |].
  2:{ eapply tx_bind_done; [reflexivity |]. cbn [work durable budget session]. rewrite Hr.
      reflexivity. }
  reflexivity.
Qed.

Lemma app_header_params_ok (s_date : py_date) (s_shift s_eng s_team now : string) :
  exists h, App.header_params (App.report_data s_date s_shift s_eng s_team) now = Ok h.
Proof. eexists. reflexivity. Qed.

(** ** The shift log: SAVE REPORT *)

(** Saving is all or nothing, whatever call into the database fails. *)
Lemma shift_log_save_atomic (f : ShiftLog.form) (now : string) :
  atomic (ShiftLog.save_report f now).
Proof.
  unfold ShiftLog.save_report.
  apply atomic_bind; [solve_local | intros _].
  apply atomic_bind; [solve_local | intros rid].
  apply atomic_bind; [solve_local | intros st].
  apply atomic_bind; [solve_local | intros _].
  apply atomic_bind; [solve_local | intros _].
  apply atomic_commit.
Qed.

Lemma shift_log_reactive_params_ok (rid : Z) (r : dict) :
  has_keys ShiftLogKeys.reactive_keys r ->
  exists row, ShiftLog.reactive_params rid r = Ok row /\ ShiftLog.rx_report_id row = rid.
Proof.
  intros H.
  key_lookup H "Asset" v1 H1. key_lookup H "Time Called" v2 H2.
  key_lookup H "Time Back" v3 H3. key_lookup H "Fault" v4 H4.
  key_lookup H "Engineers" v5 H5. key_lookup H "Description" v6 H6.
  key_lookup H "Downtime (min)" v7 H7.
  exists (ShiftLog.ReactiveRow rid v1 v2 v3 v4 v5 v6 v7).
  unfold ShiftLog.reactive_params, getitem. rewrite H1, H2, H3, H4, H5, H6, H7.
  split; reflexivity.
Qed.

Lemma shift_log_spare_params_ok (rid : Z) (e : dict) :
  ShiftLogKeys.spare_entry e ->
  exists row art qty,
    ShiftLog.spare_params rid e = Ok row /\
    ShiftLog.stock_params e = Ok (qty, art) /\
    e !! "ART #" = Some (VText art) /\
    e !! "Quantity" = Some (VInt qty).
Proof.
  intros (H & [art H1] & [qty H4]).
  key_lookup H "Description" v2 H2. key_lookup H "Location" v3 H3.
  key_lookup H "Decision" v5 H5. key_lookup H "Category Code" v6 H6.
  exists (ShiftLog.SpareUsedRow rid (VText art) v2 v3 (VInt qty) v5 v6), art, qty.
  unfold ShiftLog.spare_params, ShiftLog.stock_params, getitem.
  rewrite H1, H2, H3, H4, H5, H6. repeat split; reflexivity.
Qed.

Lemma shift_log_insert_reactives (rows : list ShiftLog.reactive_row) (d : ShiftLog.db) :
  fold_left (fun d r => ShiftLog.insert_reactive r d) rows d =
  ShiftLog.Db (ShiftLog.tbl_reports d) (ShiftLog.tbl_reactives d ++ rows)
    (ShiftLog.tbl_ppms d) (ShiftLog.tbl_other_tasks d) (ShiftLog.tbl_spares_used d)
    (ShiftLog.spares_inventory d) (ShiftLog.report_seq d).
Proof.
  revert d. induction rows as [| r rows IH]; intros d; simpl.
  - rewrite app_nil_r. destruct d; reflexivity.
  - rewrite IH. simpl. rewrite <- app_assoc. reflexivity.
Qed.

(** *** Stock adjustment *)

Lemma take_take (x y : Z) (r : ShiftLog.inventory_row) :
  ShiftLogKeys.take x (ShiftLogKeys.take y r) = ShiftLogKeys.take (y + x) r.
Proof. unfold ShiftLogKeys.take; simpl. f_equal. lia. Qed.

Lemma take_zero (r : ShiftLog.inventory_row) : ShiftLogKeys.take 0 r = r.
Proof. unfold ShiftLogKeys.take. destruct r; simpl. f_equal. lia. Qed.

(** The UPDATE takes the quantity from every row of the part and leaves
    the other rows as they are. *)
Lemma adjust_stock_take (qty : Z) (art : string) (inv : list ShiftLog.inventory_row) :
  ShiftLog.adjust_stock qty art inv =
  map (fun r => if String.eqb (ShiftLog.art_number r) art
                then ShiftLogKeys.take qty r else r) inv.
Proof. reflexivity. Qed.

(** For a part that the inventory does not hold, the UPDATE changes
    nothing. *)
Lemma adjust_stock_absent (qty : Z) (art : string) (inv : list ShiftLog.inventory_row) :
  Forall (fun r => ShiftLog.art_number r <> art) inv ->
  ShiftLog.adjust_stock qty art inv = inv.
Proof.
  induction 1 as [| r inv Hr _ IH]; simpl; [reflexivity |].
  apply String.eqb_neq in Hr. rewrite Hr. f_equal. exact IH.
Qed.

Lemma booked_entry (art a : string) (qty : Z) (e : dict) :
  ShiftLog.stock_params e = Ok (qty, a) ->
  ShiftLogKeys.booked art e = if String.eqb a art then qty else 0.
Proof. intros H. unfold ShiftLogKeys.booked. rewrite H. reflexivity. Qed.

(** The loop over the spares of the session, on a connection without
    faults: one usage row per entry, and every inventory row gives up what
    the entries book on its part. *)
Lemma shift_log_spares_loop (rid : Z) (sps : list dict) (w : world ShiftLog.db ShiftLog.session) :
  Forall ShiftLogKeys.spare_entry sps ->
  budget w = None ->
  exists rows,
    length rows = length sps /\
    for_each sps (fun s =>
      row ← lift (ShiftLog.spare_params rid s);
      execute (ShiftLog.insert_spare_used row);;
      p ← lift (ShiftLog.stock_params s);
      execute (ShiftLog.with_inventory (ShiftLog.adjust_stock p.1 p.2))) w =
    Done tt
      (World (durable w)
         (ShiftLog.Db (ShiftLog.tbl_reports (work w)) (ShiftLog.tbl_reactives (work w))
            (ShiftLog.tbl_ppms (work w)) (ShiftLog.tbl_other_tasks (work w))
            (ShiftLog.tbl_spares_used (work w) ++ rows)
            (map (fun r => ShiftLogKeys.take
                             (ShiftLogKeys.used (ShiftLog.art_number r) sps) r)
                 (ShiftLog.spares_inventory (work w)))
            (ShiftLog.report_seq (work w)))
         None (session w)).
Proof.
  intros H. revert w. induction H as [| e sps He _ IH]; intros w Hb.
  - exists []. split; [reflexivity |]. simpl.
    rewrite app_nil_r. destruct w as [dw ww bw sw]; simpl in *; subst.
    unfold mret, tx_ret. f_equal. f_equal. destruct ww; simpl. f_equal.
    rewrite <- (map_id spares_inventory) at 1. apply map_ext. intros r.
    symmetry. apply take_zero.
  - destruct (shift_log_spare_params_ok rid e He) as (row & art & qty & E1 & E2 & _).
    destruct w as [dw ww bw sw]. simpl in Hb. subst bw.
    set (w1 := World dw
                 (ShiftLog.with_inventory (ShiftLog.adjust_stock qty art)
                    (ShiftLog.insert_spare_used row ww))
                 None sw).
    destruct (IH w1 eq_refl) as (rows & Hlen & Hrun).
    exists (row :: rows). split; [simpl; congruence |].
    cbn [for_each]. eapply tx_bind_done with (a := tt) (w' := w1).
    { eapply tx_bind_done; [rewrite E1; reflexivity |].
      eapply tx_bind_done; [reflexivity |].
      eapply tx_bind_done; [rewrite E2; reflexivity |].
      reflexivity. }
    rewrite Hrun. subst w1. cbn. f_equal. f_equal. f_equal.
    + rewrite <- app_assoc. reflexivity.
    + rewrite map_map. apply map_ext. intros r.
      rewrite (booked_entry _ _ _ _ E2).
      destruct (String.eqb (ShiftLog.art_number r) art) eqn:E.
      * apply String.eqb_eq in E. subst art. simpl.
        rewrite String.eqb_refl. apply take_take.
      * rewrite String.eqb_sym in E. rewrite E. reflexivity.
Qed.

(** SAVE REPORT on a connection without faults. *)
Lemma shift_log_save_run (f : ShiftLog.form) (now : string) (d : ShiftLog.db)
    (s : ShiftLog.session) :
  ShiftLogKeys.well_formed s ->
  exists rxs sus,
    length rxs = length (ShiftLog.reactives s) /\
    length sus = length (ShiftLog.spares s) /\
    run (ShiftLog.save_report f now) None d s =
    (Ok (ShiftLog.next_report_id d), shift_log_saved d f now s rxs sus, s).
Proof.
  intros [Hr Hs]. set (rid := ShiftLog.next_report_id d).
  destruct (map_result_Forall _ _ (fun _ row => ShiftLog.rx_report_id row = rid) _
              (shift_log_reactive_params_ok rid) Hr) as (rxs & E1 & F1).
  set (d1 := fold_left (fun d r => ShiftLog.insert_reactive r d) rxs
               (ShiftLog.insert_report (shift_log_header 0 f now) d)).
  destruct (shift_log_spares_loop rid (ShiftLog.spares s) (World d d1 None s) Hs eq_refl)
    as (sus & Hlen & Hloop).
  exists rxs, sus. split; [symmetry; eapply Forall2_length; exact F1 |].
  split; [exact Hlen |].
  unfold run.
  assert (Hrun : ShiftLog.save_report f now (World d d None s) =
                 Done rid (let d' := shift_log_saved d f now s rxs sus in
                           World d' d' None s)).
  { unfold ShiftLog.save_report. tx_step. tx_step. tx_step. cbn [session].
    eapply tx_bind_done; [apply (for_each_execute _ _ _ _ _ E1); reflexivity |].
    eapply tx_bind_done; [exact Hloop |].
    tx_step. cbn. subst d1. rewrite shift_log_insert_reactives. reflexivity. }
  rewrite Hrun. reflexivity.
Qed.

(** ** The shift log: reload of the spares catalogue *)

Lemma load_row_run (count duplicates : nat) (row : dict)
    (w : world ShiftLog.db ShiftLog.session) :
  budget w = None ->
  ShiftLog.load_row (count, duplicates) row w =
  match catalogue_row row with
  | Some r =>
      Done (S count, duplicates)
        (World (durable w)
           (ShiftLog.with_inventory (ShiftLog.insert_or_replace r) (work w))
           None (session w))
  | None => Done (count, duplicates) w
  end.
Proof.
  intros Hb. destruct w as [dw ww bw sw]. simpl in Hb. subst bw.
  unfold ShiftLog.load_row, catalogue_row.
  destruct (String.eqb _ "UNKNOWN" || String.eqb _ "nan"); reflexivity.
Qed.

Lemma load_rows_run (df : list dict) (count duplicates : nat)
    (w : world ShiftLog.db ShiftLog.session) :
  budget w = None ->
  for_fold df (count, duplicates) ShiftLog.load_row w =
  Done ((count + catalogue_count df)%nat, duplicates)
    (World (durable w)
       (ShiftLog.with_inventory (fun inv => catalogue_onto inv df) (work w))
       None (session w)).
Proof.
  revert count w. induction df as [| row df IH]; intros count w Hb.
  - destruct w as [dw ww bw sw]. simpl in Hb. subst bw. simpl.
    unfold mret, tx_ret. rewrite Nat.add_0_r. destruct ww; reflexivity.
  - cbn [for_fold]. unfold mbind, tx_bind. rewrite (load_row_run _ _ _ _ Hb).
    unfold catalogue_count, catalogue_onto. cbn [List.filter fold_left].
    destruct (catalogue_row row) as [r |] eqn:E.
    + rewrite IH by reflexivity. rewrite bool_decide_true by eauto.
      cbn [length]. unfold catalogue_count, catalogue_onto.
      rewrite Nat.add_succ_r. reflexivity.
    + rewrite IH by exact Hb. rewrite bool_decide_false by (intros [x Hx]; discriminate).
      destruct w as [dw ww bw sw]. simpl in Hb. subst bw. reflexivity.
Qed.

(** The reload on a connection without faults: the table is emptied and
    then filled from the catalogue alone. *)
Lemma reload_run (df : list dict) (d : ShiftLog.db) (s : ShiftLog.session) :
  run (ShiftLog.reload_spares_from_csv (Frame df)) None d s =
  (Ok (ShiftLog.Loaded (catalogue_count df) 0),
   ShiftLog.with_inventory (fun _ => catalogue_inventory df) d, s).
Proof.
  unfold run, ShiftLog.reload_spares_from_csv, try_except.
  erewrite tx_bind_done; [| reflexivity |].
  2:{ tx_step. eapply tx_bind_done; [apply load_rows_run; reflexivity |].
      tx_step. reflexivity. }
  reflexivity.
Qed.

(** The handler of [sqlite3.IntegrityError] is never entered: a row is
    either skipped, stored, or stops the reload with another exception. *)
Lemma load_row_duplicates (acc acc' : nat * nat) (row : dict)
    (w w' : world ShiftLog.db ShiftLog.session) :
  ShiftLog.load_row acc row w = Done acc' w' -> acc'.2 = acc.2.
Proof.
  destruct acc as [count duplicates]. unfold ShiftLog.load_row.
  destruct (String.eqb _ "UNKNOWN" || String.eqb _ "nan").
  - intros [= <- _]. reflexivity.
  - unfold try_except, execute, mbind, tx_bind, tick, write_work, mret, tx_ret.
    destruct (budget w) as [[| n] |]; simpl; intros [= <- _]; reflexivity.
Qed.

Lemma load_rows_duplicates (df : list dict) (acc acc' : nat * nat)
    (w w' : world ShiftLog.db ShiftLog.session) :
  for_fold df acc ShiftLog.load_row w = Done acc' w' -> acc'.2 = acc.2.
Proof.
  revert acc w. induction df as [| row df IH]; intros acc w; cbn [for_fold].
  - intros [= <- _]. reflexivity.
  - unfold mbind, tx_bind.
    destruct (ShiftLog.load_row acc row w) as [acc1 w1 | e w1] eqn:E; [| discriminate].
    intros H. apply IH in H. apply load_row_duplicates in E. congruence.
Qed.

(** Whatever the catalogue holds and whatever call fails, the number of
    duplicates that the reload reports is 0. *)
Lemma reload_reports_no_duplicates (file : csv_file) (b : option nat) (d : ShiftLog.db)
    (s : ShiftLog.session) (count duplicates : nat) :
  (run (ShiftLog.reload_spares_from_csv file) b d s).1.1 =
    Ok (ShiftLog.Loaded count duplicates) ->
  duplicates = 0%nat.
Proof.
  unfold run, ShiftLog.reload_spares_from_csv.
  destruct file as [| | df]; try (simpl; discriminate).
  unfold try_except, mbind, tx_bind, connect, mret, tx_ret.
  destruct (execute _ _) as [[] w1 | e w1]; [| simpl; discriminate].
  destruct (for_fold df (0%nat, 0%nat) ShiftLog.load_row w1) as [acc w2 | e w2] eqn:E;
    [| simpl; discriminate].
  apply load_rows_duplicates in E. simpl in E.
  destruct (commit w2) as [[] w3 | e w3]; simpl; [| discriminate].
  intros [= _ <-]. exact E.
Qed.

(** Rows added from the catalogue carry the default values. *)
Lemma catalogue_row_defaults (row : dict) (r : ShiftLog.inventory_row) :
  catalogue_row row = Some r -> has_defaults r.
Proof.
  unfold catalogue_row.
  destruct (String.eqb _ "UNKNOWN" || String.eqb _ "nan"); [discriminate |].
  intros [= <-]. repeat split.
Qed.

Lemma catalogue_onto_defaults (df : list dict) (inv : list ShiftLog.inventory_row) :
  Forall has_defaults inv -> Forall has_defaults (catalogue_onto inv df).
Proof.
  revert inv. induction df as [| row df IH]; intros inv H; simpl; [exact H |].
  apply IH. destruct (catalogue_row row) as [r |] eqn:E; [| exact H].
  unfold ShiftLog.insert_or_replace. apply List.Forall_app. split.
  - apply List.Forall_forall. intros x Hx. apply List.filter_In in Hx.
    destruct Hx as [Hx _]. revert x Hx. apply List.Forall_forall. exact H.
  - constructor; [| constructor]. eapply catalogue_row_defaults. exact E.
Qed.

(** A part number that is in the table stays in it. *)
Lemma insert_or_replace_keeps_part (r : ShiftLog.inventory_row)
    (inv : list ShiftLog.inventory_row) (art : string) :
  (exists x, In x inv /\ ShiftLog.art_number x = art) ->
  exists x, In x (ShiftLog.insert_or_replace r inv) /\ ShiftLog.art_number x = art.
Proof.
  intros (x & Hx & Ha). unfold ShiftLog.insert_or_replace.
  destruct (String.eqb (ShiftLog.art_number x) (ShiftLog.art_number r)) eqn:E.
  - exists r. split; [apply List.in_or_app; right; left; reflexivity |].
    apply String.eqb_eq in E. congruence.
  - exists x. split; [| exact Ha]. apply List.in_or_app. left.
    apply List.filter_In. split; [exact Hx |]. rewrite E. reflexivity.
Qed.

Lemma catalogue_onto_keeps_part (df : list dict) (inv : list ShiftLog.inventory_row)
    (art : string) :
  (exists x, In x inv /\ ShiftLog.art_number x = art) ->
  exists x, In x (catalogue_onto inv df) /\ ShiftLog.art_number x = art.
Proof.
  revert inv. induction df as [| row df IH]; intros inv H; simpl; [exact H |].
  apply IH. destruct (catalogue_row row); [| exact H].
  apply insert_or_replace_keeps_part. exact H.
Qed.

(** Every catalogue row with a part number has its part in the table. *)
Lemma catalogue_onto_has_part (df : list dict) (inv : list ShiftLog.inventory_row)
    (row : dict) (r : ShiftLog.inventory_row) :
  In row df -> catalogue_row row = Some r ->
  exists x, In x (catalogue_onto inv df) /\ ShiftLog.art_number x = ShiftLog.art_number r.
Proof.
  revert inv. induction df as [| row0 df IH]; intros inv Hin Hr; [destruct Hin |].
  destruct Hin as [-> | Hin]; simpl.
  - rewrite Hr. apply catalogue_onto_keeps_part. exists r. split; [| reflexivity].
    unfold ShiftLog.insert_or_replace. apply List.in_or_app. right. left. reflexivity.
  - apply IH; assumption.
Qed.

(** ** Round trip and replacement of the children of a report *)


(** C4.  Saving an edited report first with the child lists A and then
    with the child lists B leaves under its id exactly the entries of B, in
    all three child tables; when A and B are disjoint no entry of A is
    left. *)
Theorem replacing_children_twice_leaves_second
    (date_a date_b : py_date) (shift_a eng_a team_a now_a shift_b eng_b team_b now_b : string)
    (d : App.db) (rid : Z) (checked : bool)
    (reactives_a ppms_a spares_a reactives_b ppms_b spares_b : list dict) :
  let session_a := App.Session reactives_a ppms_a spares_a (Some rid) checked in
  let session_b := App.Session reactives_b ppms_b spares_b (Some rid) checked in
  rid <> 0 ->
  AppKeys.well_formed session_a ->
  AppKeys.well_formed session_b ->
  (forall x, In x reactives_a -> ~ In x reactives_b) ->
  (forall x, In x ppms_a -> ~ In x ppms_b) ->
  (forall x, In x spares_a -> ~ In x spares_b) ->
  exists d1 d2,
    run (App.save_report_to_db (App.report_data date_a shift_a eng_a team_a) now_a)
      None d session_a = (Ok rid, d1, session_a) /\
    run (App.save_report_to_db (App.report_data date_b shift_b eng_b team_b) now_b)
      None d1 session_b = (Ok rid, d2, session_b) /\
    map App.reactive_dict (App.select_reactives rid d2) = reactives_b /\
    map App.ppm_dict (App.select_ppms rid d2) = ppms_b /\
    map App.spare_dict (App.select_spares rid d2) = spares_b /\
    (forall x, In x reactives_a ->
               ~ In x (map App.reactive_dict (App.select_reactives rid d2))) /\
    (forall x, In x ppms_a -> ~ In x (map App.ppm_dict (App.select_ppms rid d2))) /\
    (forall x, In x spares_a -> ~ In x (map App.spare_dict (App.select_spares rid d2))).
Proof.
  intros session_a session_b Hrid Hwa Hwb D1 D2 D3.
  assert (Ea : App.editing session_a = Some rid).
  { unfold App.editing; simpl. apply Z.eqb_neq in Hrid. rewrite Hrid. reflexivity. }
  assert (Eb : App.editing session_b = Some rid) by exact Ea.
  destruct (app_children_params rid _ Hwa) as (rxa & pa & sa & A1 & A2 & A3 & _).
  destruct (app_children_params rid _ Hwb)
    as (rxb & pb & sb & B1 & B2 & B3 & S1 & S2 & S3).
  destruct (app_header_params_ok date_a shift_a eng_a team_a now_a) as [ha Ha].
  destruct (app_header_params_ok date_b shift_b eng_b team_b now_b) as [hb Hb].
  pose proof (app_save_run _ _ d session_a ha rxa pa sa Ha) as Hsa.
  rewrite Ea in Hsa. specialize (Hsa A1 A2 A3).
  set (d1 := app_saved d (Some rid) ha rxa pa sa) in *.
  pose proof (app_save_run _ _ d1 session_b hb rxb pb sb Hb) as Hsb.
  rewrite Eb in Hsb. specialize (Hsb B1 B2 B3).
  destruct (app_saved_children d1 (Some rid) hb rxb pb sb _ _ _
              (fun H => ltac:(discriminate H)) S1 S2 S3) as (C1 & C2 & C3).
  cbv zeta in C1, C2, C3. unfold app_saved_id in C1, C2, C3.
  exists d1, (app_saved d1 (Some rid) hb rxb pb sb).
  split; [exact Hsa |]. split; [exact Hsb |].
  rewrite C1, C2, C3. repeat split; auto.
Qed.


(** Report 1 of the sample store, saved with the lists A and then with
    the lists B. *)
Lemma replacing_children_twice_leaves_second_witness :
  let session_a :=
    App.Session Sample.reactives_a Sample.ppms_a Sample.spares_a (Some 1) true in
  let session_b :=
    App.Session Sample.reactives_b Sample.ppms_b Sample.spares_b (Some 1) true in
  (1 <> 0 /\
   AppKeys.well_formed session_a /\
   AppKeys.well_formed session_b /\
   (forall x, In x Sample.reactives_a -> ~ In x Sample.reactives_b) /\
   (forall x, In x Sample.ppms_a -> ~ In x Sample.ppms_b) /\
   (forall x, In x Sample.spares_a -> ~ In x Sample.spares_b)) /\
  exists d1 d2,
    run (App.save_report_to_db
           (App.report_data Sample.day "Day Shift" "John Smith" "") "2024-03-09 18:00:00")
      None Sample.app_db session_a = (Ok 1, d1, session_a) /\
    run (App.save_report_to_db
           (App.report_data Sample.day "Day Shift" "John Smith" "") "2024-03-09 18:05:00")
      None d1 session_b = (Ok 1, d2, session_b) /\
    map App.reactive_dict (App.select_reactives 1 d2) = Sample.reactives_b /\
    map App.ppm_dict (App.select_ppms 1 d2) = Sample.ppms_b /\
    map App.spare_dict (App.select_spares 1 d2) = Sample.spares_b /\
    (forall x, In x Sample.reactives_a ->
               ~ In x (map App.reactive_dict (App.select_reactives 1 d2))) /\
    (forall x, In x Sample.ppms_a -> ~ In x (map App.ppm_dict (App.select_ppms 1 d2))) /\
    (forall x, In x Sample.spares_a -> ~ In x (map App.spare_dict (App.select_spares 1 d2))).
Proof.
  intros session_a session_b.
  assert (Hrid : 1 <> 0) by lia.
  assert (Hwa : AppKeys.well_formed session_a).
  { repeat split; repeat constructor; vm_compute; reflexivity. }
  assert (Hwb : AppKeys.well_formed session_b).
  { repeat split; repeat constructor; vm_compute; reflexivity. }
  assert (D1 : forall x, In x Sample.reactives_a -> ~ In x Sample.reactives_b).
  { intros x [<- | []] [H | []].
    apply (f_equal (fun m : dict => m !! "Asset")) in H. vm_compute in H. discriminate H. }
  assert (D2 : forall x, In x Sample.ppms_a -> ~ In x Sample.ppms_b).
  { intros x [<- | []] [H | []].
    apply (f_equal (fun m : dict => m !! "Asset")) in H. vm_compute in H. discriminate H. }
  assert (D3 : forall x, In x Sample.spares_a -> ~ In x Sample.spares_b).
  { intros x [<- | []] [H | []].
    apply (f_equal (fun m : dict => m !! "ART #")) in H. vm_compute in H. discriminate H. }
  split; [exact (conj Hrid (conj Hwa (conj Hwb (conj D1 (conj D2 D3))))) |].
  exact (replacing_children_twice_leaves_second Sample.day Sample.day
           "Day Shift" "John Smith" "" "2024-03-09 18:00:00"
           "Day Shift" "John Smith" "" "2024-03-09 18:05:00"
           Sample.app_db 1 true _ _ _ _ _ _ Hrid Hwa Hwb D1 D2 D3).
Defined.

(** ** Carry-over of open reactive tasks *)

(** The automatic population at the start of a session that is neither
    checked nor editing. *)
Lemma auto_logic_run (ppm_file : csv_file) (today_day : string) (d : App.db)
    (s : App.session) :
  App.carry_over_checked s = false ->
  App.editing s = None ->
  run (App.auto_logic ppm_file today_day) None d s =
  (Ok tt, d,
   App.Session
     (App.reactives s ++ map App.carry_over_dict (App.select_open_reactives d))
     (App.ppms s ++ App.check_smart_ppms ppm_file today_day)
     (App.spares s) (App.editing_report_id s) true).
Proof.
  intros Hc He. unfold run, App.auto_logic.
  assert (Hq : App.check_carry_over_tasks (World d d None s) =
               Done (map App.carry_over_dict (App.select_open_reactives d))
                 (World d d None s)) by reflexivity.
  destruct (map App.carry_over_dict (App.select_open_reactives d)) eqn:E1;
    destruct (App.check_smart_ppms ppm_file today_day) eqn:E2;
    (erewrite tx_bind_done; [| reflexivity |];
     [| cbn [session]; unfold App.is_editing; rewrite Hc, He; cbn [negb andb];
        eapply tx_bind_done; [exact Hq |];
        tx_step; cbv zeta; tx_step; reflexivity ]);
    cbn; rewrite ?app_nil_r; destruct s; reflexivity.
Qed.

(** Once the session is checked, or while it edits a report, the block
    does nothing, whatever the database holds and whatever call fails. *)
Lemma auto_logic_skip (ppm_file : csv_file) (today_day : string) (b : option nat)
    (d : App.db) (s : App.session) :
  App.carry_over_checked s = true \/ App.is_editing s = true ->
  run (App.auto_logic ppm_file today_day) b d s = (Ok tt, d, s).
Proof.
  intros H. unfold run, App.auto_logic.
  erewrite tx_bind_done; [| reflexivity |].
  2:{ cbn [session].
      assert (E : negb (App.carry_over_checked s) && negb (App.is_editing s) = false).
      { destruct H as [-> | ->]; [reflexivity | apply andb_false_r]. }
      rewrite E. reflexivity. }
  reflexivity.
Qed.




(** ** Atomic saves *)

(** X3.  The portal's save, whichever database call fails: after a failure
    the database file and the session are as they were;
    after a success it holds what the save without faults writes, header
    and children together. *)
Lemma app_save_all_or_nothing (report_data : odict) (now : string) (b : option nat)
    (d : App.db) (s : App.session) :
  match run (App.save_report_to_db report_data now) b d s with
  | (Raise _, d', s') => d' = d /\ s' = s
  | (Ok rid, d', s') =>
      s' = s /\ run (App.save_report_to_db report_data now) None d s = (Ok rid, d', s)
  end.
Proof. apply atomic_run, app_save_atomic. Qed.

(** X4.  SAVE REPORT of the shift log, whichever database call fails: after
    a failure the database file and the session are as they were; after a
    success the file holds what the save without faults writes. *)
Lemma shift_log_save_all_or_nothing (f : ShiftLog.form) (now : string) (b : option nat)
    (d : ShiftLog.db) (s : ShiftLog.session) :
  match run (ShiftLog.save_report f now) b d s with
  | (Raise _, d', s') => d' = d /\ s' = s
  | (Ok rid, d', s') =>
      s' = s /\ run (ShiftLog.save_report f now) None d s = (Ok rid, d', s)
  end.
Proof. apply atomic_run, shift_log_save_atomic. Qed.

(** A successful SAVE REPORT of the shift log leaves the ppms table as it
    was, whatever PPM entries the session holds. *)
Lemma shift_log_save_keeps_ppms_table (f : ShiftLog.form) (now : string)
    (d : ShiftLog.db) (s : ShiftLog.session) :
  ShiftLogKeys.well_formed s ->
  exists d',
    run (ShiftLog.save_report f now) None d s = (Ok (ShiftLog.next_report_id d), d', s) /\
    ShiftLog.tbl_ppms d' = ShiftLog.tbl_ppms d.
Proof.
  intros H. destruct (shift_log_save_run f now d s H) as (rxs & sus & _ & _ & Hrun).
  eexists. split; [exact Hrun | reflexivity].
Qed.

(** C2 (defect in shift_log.py).  SAVE REPORT on a session with one
    reactive task, one PPM and one spare: the save succeeds as report 1,
    the header, the reactive row and the usage row are committed, and the
    ppms table stays empty, so the PPM entry of the report is not stored.
    The portal's save stores the PPM entry of the same kind of session. *)
Theorem shift_log_save_drops_ppm_rows :
  (exists d',
      run (ShiftLog.save_report SampleLog.form "2024-03-09 18:00:00") None
        SampleLog.db SampleLog.session = (Ok 1, d', SampleLog.session) /\
      length (ShiftLog.ppms SampleLog.session) = 1%nat /\
      map ShiftLog.rep_id (ShiftLog.tbl_reports d') = [1] /\
      map ShiftLog.rx_report_id (ShiftLog.tbl_reactives d') = [1] /\
      map ShiftLog.su_report_id (ShiftLog.tbl_spares_used d') = [1] /\
      ShiftLog.tbl_ppms d' = []) /\
  (exists d',
      run (App.save_report_to_db
             (App.report_data Sample.day "Day Shift" "John Smith" "")
             "2024-03-09 18:00:00") None
        App.empty_db Sample.app_session = (Ok 1, d', Sample.app_session) /\
      length (App.ppms Sample.app_session) = 1%nat /\
      map App.ppm_report_id (App.tbl_ppms d') = [1]).
Proof.
  split.
  - eexists. split; [vm_compute; reflexivity |]. repeat split.
  - eexists. split; [vm_compute; reflexivity |]. repeat split.
Qed.

(** ** Stock adjustment on save *)

(** C5.  SAVE REPORT with well-formed entries succeeds, and every row of
    the inventory loses exactly the quantities that the saved usage
    records book on its part number.  For a single record of quantity
    [qty] on part [art]: the rows of that part lose exactly [qty], and when
    the inventory has no such part it is left untouched and the save
    still succeeds. *)
Theorem spare_usage_decrements_stock (f : ShiftLog.form) (now : string)
    (d : ShiftLog.db) (s : ShiftLog.session) :
  ShiftLogKeys.well_formed s ->
  exists d',
    run (ShiftLog.save_report f now) None d s = (Ok (ShiftLog.next_report_id d), d', s) /\
    length (ShiftLog.tbl_spares_used d') =
      (length (ShiftLog.tbl_spares_used d) + length (ShiftLog.spares s))%nat /\
    ShiftLog.spares_inventory d' =
      map (fun r => ShiftLogKeys.take
                      (ShiftLogKeys.used (ShiftLog.art_number r) (ShiftLog.spares s)) r)
          (ShiftLog.spares_inventory d) /\
    (forall e art qty,
        ShiftLog.spares s = [e] ->
        e !! "ART #" = Some (VText art) ->
        e !! "Quantity" = Some (VInt qty) ->
        ShiftLog.spares_inventory d' =
          map (fun r => if String.eqb (ShiftLog.art_number r) art
                        then ShiftLogKeys.take qty r else r)
              (ShiftLog.spares_inventory d) /\
        (Forall (fun r => ShiftLog.art_number r <> art) (ShiftLog.spares_inventory d) ->
         ShiftLog.spares_inventory d' = ShiftLog.spares_inventory d)).
Proof.
  intros H. destruct (shift_log_save_run f now d s H) as (rxs & sus & _ & Hlen & Hrun).
  eexists. split; [exact Hrun |]. cbn [shift_log_saved ShiftLog.tbl_spares_used
                                       ShiftLog.spares_inventory].
  split; [rewrite length_app; congruence |]. split; [reflexivity |].
  intros e art qty He Ha Hq. rewrite He.
  assert (Hp : ShiftLog.stock_params e = Ok (qty, art)).
  { unfold ShiftLog.stock_params, getitem. rewrite Hq, Ha. reflexivity. }
  assert (Hmap :
    map (fun r => ShiftLogKeys.take (ShiftLogKeys.used (ShiftLog.art_number r) [e]) r)
        (ShiftLog.spares_inventory d) =
    ShiftLog.adjust_stock qty art (ShiftLog.spares_inventory d)).
  { rewrite adjust_stock_take. apply map_ext. intros r. simpl.
    rewrite (booked_entry _ _ _ _ Hp), String.eqb_sym.
    destruct (String.eqb (ShiftLog.art_number r) art).
    - f_equal. lia.
    - apply take_zero. }
  split.
  - rewrite Hmap. apply adjust_stock_take.
  - intros Habs. rewrite Hmap. apply adjust_stock_absent. exact Habs.
Qed.

(** The sample session books 3 pieces of ART-1 on the sample inventory. *)
Lemma spare_usage_decrements_stock_witness :
  ShiftLogKeys.well_formed SampleLog.session /\
  exists d',
    run (ShiftLog.save_report SampleLog.form "2024-03-09 18:00:00") None SampleLog.db
      SampleLog.session = (Ok (ShiftLog.next_report_id SampleLog.db), d', SampleLog.session) /\
    length (ShiftLog.tbl_spares_used d') =
      (length (ShiftLog.tbl_spares_used SampleLog.db) +
       length (ShiftLog.spares SampleLog.session))%nat /\
    ShiftLog.spares_inventory d' =
      map (fun r => ShiftLogKeys.take
                      (ShiftLogKeys.used (ShiftLog.art_number r)
                         (ShiftLog.spares SampleLog.session)) r)
          (ShiftLog.spares_inventory SampleLog.db) /\
    (forall e art qty,
        ShiftLog.spares SampleLog.session = [e] ->
        e !! "ART #" = Some (VText art) ->
        e !! "Quantity" = Some (VInt qty) ->
        ShiftLog.spares_inventory d' =
          map (fun r => if String.eqb (ShiftLog.art_number r) art
                        then ShiftLogKeys.take qty r else r)
              (ShiftLog.spares_inventory SampleLog.db) /\
        (Forall (fun r => ShiftLog.art_number r <> art)
           (ShiftLog.spares_inventory SampleLog.db) ->
         ShiftLog.spares_inventory d' = ShiftLog.spares_inventory SampleLog.db)).
Proof.
  assert (Hwf : ShiftLogKeys.well_formed SampleLog.session).
  { split.
    - repeat constructor; vm_compute; reflexivity.
    - repeat constructor; try (vm_compute; reflexivity).
      + exists "ART-1". vm_compute. reflexivity.
      + exists 3. vm_compute. reflexivity. }
  split; [exact Hwf |].
  exact (spare_usage_decrements_stock SampleLog.form "2024-03-09 18:00:00"
           SampleLog.db SampleLog.session Hwf).
Defined.

(** On the sample inventory the stock of ART-1 falls from 10 to 7 and the
    row of ART-2 is left as it is. *)
Example sample_stock_after_save :
  ShiftLog.spares_inventory
    (run (ShiftLog.save_report SampleLog.form "2024-03-09 18:00:00") None SampleLog.db
       SampleLog.session).1.2 =
  [ShiftLog.InventoryRow "ART-1" "Drive belt" "Rack A1" "General" 7 2;
   ShiftLog.InventoryRow "ART-2" "Fuse" "Rack B4" "General" 5 5].
Proof. vm_compute. reflexivity. Qed.

(** ** Catalogue reload *)

Lemma catalogue_onto_origin (df : list dict) (inv : list ShiftLog.inventory_row)
    (x : ShiftLog.inventory_row) :
  In x (catalogue_onto inv df) ->
  In x inv \/ exists row, In row df /\ catalogue_row row = Some x.
Proof.
  revert inv. induction df as [| row df IH]; intros inv H; simpl in H; [left; exact H |].
  apply IH in H. destruct H as [H | (row' & Hin & Hr)].
  - destruct (catalogue_row row) as [r |] eqn:E; [| left; exact H].
    unfold ShiftLog.insert_or_replace in H. apply List.in_app_or in H.
    destruct H as [H | [<- | []]].
    + left. apply List.filter_In in H. tauto.
    + right. exists row. split; [left; reflexivity | exact E].
  - right. exists row'. split; [right; exact Hin | exact Hr].
Qed.

(** C9 (defect in shift_log.py).  Reload of a catalogue of three rows in
    which the part ART-1 appears twice: the later row replaces the earlier
    one and no exception is raised, but the sidebar reports 3 loaded
    spares and 0 duplicates, although one row was replaced. *)
Theorem reload_reports_zero_duplicates :
  exists d',
    run (ShiftLog.reload_spares_from_csv SampleLog.catalogue) None SampleLog.db
      ShiftLog.init_session_state =
      (Ok (ShiftLog.Loaded 3 0), d', ShiftLog.init_session_state) /\
    ShiftLog.spares_inventory d' =
      [ShiftLog.InventoryRow "ART-2" "Fuse" "Rack B4" "General" 10 2;
       ShiftLog.InventoryRow "ART-1" "Drive belt (new)" "Rack C2" "General" 10 2] /\
    ShiftLog.sidebar_text (ShiftLog.Loaded 3 0) =
      "Loaded 3 spares! (Handled 0 duplicates)".
Proof. eexists. split; [vm_compute; reflexivity |]. split; reflexivity. Qed.

(** C10.  A reload empties the inventory table and fills it from the
    catalogue alone: every row of the new table comes from a catalogue row
    with a part number and carries category General, stock level 10 and
    minimum level 2; every such catalogue row has its part in the table;
    the other tables are untouched; and the result is the same whatever
    the inventory held before. *)
Theorem reload_discards_stock_levels (df : list dict) (d : ShiftLog.db)
    (s : ShiftLog.session) :
  exists d',
    run (ShiftLog.reload_spares_from_csv (Frame df)) None d s =
      (Ok (ShiftLog.Loaded (catalogue_count df) 0), d', s) /\
    d' = ShiftLog.with_inventory (fun _ => catalogue_inventory df) d /\
    Forall has_defaults (ShiftLog.spares_inventory d') /\
    (forall x, In x (ShiftLog.spares_inventory d') ->
               exists row, In row df /\ catalogue_row row = Some x) /\
    (forall row r, In row df -> catalogue_row row = Some r ->
                   exists x, In x (ShiftLog.spares_inventory d') /\
                             ShiftLog.art_number x = ShiftLog.art_number r) /\
    (forall inv,
        (run (ShiftLog.reload_spares_from_csv (Frame df)) None
           (ShiftLog.with_inventory (fun _ => inv) d) s).1.2 = d').
Proof.
  eexists. split; [apply reload_run |]. split; [reflexivity |].
  cbn [ShiftLog.with_inventory ShiftLog.spares_inventory].
  split; [apply catalogue_onto_defaults; constructor |].
  split; [| split].
  - intros x Hx. apply catalogue_onto_origin in Hx. destruct Hx as [[] | Hx]. exact Hx.
  - intros row r Hin Hr. eapply catalogue_onto_has_part; eassumption.
  - intros inv. rewrite reload_run. destruct d; reflexivity.
Qed.

(** ** Low stock *)

(** Each row is reported as often as the inventory holds it, when its
    stock is low, and not at all otherwise. *)
Lemma low_stock_count (df_inventory : list ShiftLog.inventory_row)
    (r : ShiftLog.inventory_row) :
  count_occ inventory_row_eq_dec (Dashboard.low_stock df_inventory) r =
  if ShiftLog.stock_level r <=? ShiftLog.min_stock_level r
  then count_occ inventory_row_eq_dec df_inventory r else 0%nat.
Proof.
  unfold Dashboard.low_stock. induction df_inventory as [| x l IH]; simpl.
  - destruct (_ <=? _); reflexivity.
  - destruct (inventory_row_eq_dec x r) as [-> | Hne].
    + destruct (ShiftLog.stock_level r <=? ShiftLog.min_stock_level r) eqn:E; simpl.
      * destruct (inventory_row_eq_dec r r) as [_ | Hne]; [| contradiction].
        rewrite IH. reflexivity.
      * exact IH.
    + destruct (ShiftLog.stock_level x <=? ShiftLog.min_stock_level x); simpl.
      * destruct (inventory_row_eq_dec x r) as [Heq | _]; [contradiction | exact IH].
      * exact IH.
Qed.

(** C6.  The low-stock frame holds exactly the inventory rows whose stock
    level is at most their minimum level, each as often as the inventory
    holds it; a row whose stock level equals its minimum level is among
    them. *)
Theorem low_stock_exact (df_inventory : list ShiftLog.inventory_row) :
  (forall r, In r (Dashboard.low_stock df_inventory) <->
             In r df_inventory /\ ShiftLog.stock_level r <= ShiftLog.min_stock_level r) /\
  (forall r, count_occ inventory_row_eq_dec (Dashboard.low_stock df_inventory) r =
             if ShiftLog.stock_level r <=? ShiftLog.min_stock_level r
             then count_occ inventory_row_eq_dec df_inventory r else 0%nat) /\
  (forall r, In r df_inventory /\ ShiftLog.stock_level r = ShiftLog.min_stock_level r ->
             In r (Dashboard.low_stock df_inventory)).
Proof.
  assert (Hiff : forall r, In r (Dashboard.low_stock df_inventory) <->
             In r df_inventory /\ ShiftLog.stock_level r <= ShiftLog.min_stock_level r).
  { intros r. unfold Dashboard.low_stock. rewrite List.filter_In, Z.leb_le. reflexivity. }
  split; [exact Hiff |]. split; [apply low_stock_count |].
  intros r [Hin Heq]. apply Hiff. split; [exact Hin | lia].
Qed.

(** The two examples of the specification: a stock of 2 under a minimum of
    5 and a stock of 5 at a minimum of 5 are both reported, a stock of 6
    over a minimum of 5 is not. *)
Example low_stock_boundary :
  let item stock := ShiftLog.InventoryRow "ART-1" "Drive belt" "Rack A1" "General" stock 5 in
  Dashboard.low_stock [item 2; item 5; item 6] = [item 2; item 5].
Proof. reflexivity. Qed.

(** ** Documents of a report without entries *)

(** The workbook of a report without entries: the header block, the three
    section titles and their column headers, and nothing else. *)
Lemma empty_report_workbook (f : ShiftLog.form) :
  ShiftLog.generate_excel_report (ShiftLog.r_data f) [] [] [] [] =
  Ok (empty_workbook f).
Proof. reflexivity. Qed.




(** ** Invariants of the sessions and of the store *)

Lemma has_keys_app_reactive (a b c d e f g h : value) :
  has_keys AppKeys.reactive_keys
    {[ "Asset" := a; "Time Called" := b; "Time Back" := c; "Fault" := d;
       "Engineers" := e; "Description" := f; "Downtime (min)" := g; "Status" := h ]}.
Proof. vm_compute. reflexivity. Qed.

Lemma has_keys_app_ppm (a b c d : value) :
  has_keys AppKeys.ppm_keys
    {[ "Asset" := a; "PPM ID" := b; "Status" := c; "Comments" := d ]}.
Proof. vm_compute. reflexivity. Qed.

Lemma has_keys_app_spare (a b c d e f : value) :
  has_keys AppKeys.spare_keys
    {[ "ART #" := a; "Description" := b; "Location" := c; "Category" := d;
       "Quantity" := e; "Decision" := f ]}.
Proof. vm_compute. reflexivity. Qed.

Lemma app_init_well_formed : AppKeys.well_formed App.init_session_state.
Proof. repeat split; constructor. Qed.

Lemma app_add_reactive_well_formed r_asset r_called r_back r_fault r_status r_engs r_desc s :
  AppKeys.well_formed s ->
  AppKeys.well_formed
    (App.add_reactive r_asset r_called r_back r_fault r_status r_engs r_desc s).
Proof.
  intros (H1 & H2 & H3). repeat split; try assumption. simpl.
  apply List.Forall_app. split; [exact H1 |]. constructor; [| constructor].
  vm_compute. reflexivity.
Qed.

Lemma app_add_ppm_well_formed p_asset p_id s :
  AppKeys.well_formed s -> AppKeys.well_formed (App.add_ppm p_asset p_id s).
Proof.
  intros (H1 & H2 & H3). repeat split; try assumption. simpl.
  apply List.Forall_app. split; [exact H2 |]. constructor; [| constructor].
  vm_compute. reflexivity.
Qed.

Lemma app_add_spare_well_formed s_art s_desc s_loc s_qty s_dec s :
  AppKeys.well_formed s ->
  AppKeys.well_formed (App.add_spare s_art s_desc s_loc s_qty s_dec s).
Proof.
  intros (H1 & H2 & H3). repeat split; try assumption. simpl.
  apply List.Forall_app. split; [exact H3 |]. constructor; [| constructor].
  vm_compute. reflexivity.
Qed.

(** The lists that a load for editing fills are well formed. *)
Lemma app_loaded_well_formed (rxs : list App.reactive_row) (ps : list App.ppm_row)
    (ss : list App.spare_row) (rid : option Z) (checked : bool) :
  AppKeys.well_formed
    (App.Session (map App.reactive_dict rxs) (map App.ppm_dict ps)
       (map App.spare_dict ss) rid checked).
Proof.
  repeat split; simpl; apply List.Forall_forall; intros x Hx;
    apply List.in_map_iff in Hx; destruct Hx as (row & <- & _).
  - apply has_keys_app_reactive.
  - apply has_keys_app_ppm.
  - apply has_keys_app_spare.
Qed.

Lemma schedule_rows_well_formed (tasks : list dict) :
  Forall (has_keys AppKeys.ppm_keys) (App.schedule_rows tasks).
Proof.
  induction tasks as [| row tasks IH]; simpl; [constructor |].
  destruct (row !! "Asset"); constructor; [apply has_keys_app_ppm | exact IH].
Qed.

(** The automatic population keeps the lists well formed. *)
Lemma app_auto_logic_well_formed (ppm_file : csv_file) (today_day : string)
    (d : App.db) (s : App.session) :
  AppKeys.well_formed s ->
  AppKeys.well_formed (run (App.auto_logic ppm_file today_day) None d s).2.
Proof.
  intros Hwf. destruct (App.carry_over_checked s) eqn:Hc.
  { rewrite auto_logic_skip by (left; exact Hc). exact Hwf. }
  destruct (App.editing s) eqn:He.
  { rewrite auto_logic_skip; [exact Hwf |]. right. unfold App.is_editing.
    rewrite He. reflexivity. }
  rewrite auto_logic_run by assumption. destruct Hwf as (H1 & H2 & H3).
  repeat split; simpl; try assumption.
  - apply List.Forall_app. split; [exact H1 |]. apply List.Forall_forall.
    intros x Hx. apply List.in_map_iff in Hx. destruct Hx as (row & <- & _).
    apply has_keys_app_reactive.
  - apply List.Forall_app. split; [exact H2 |]. unfold App.check_smart_ppms.
    destruct ppm_file as [| | df]; try constructor.
    destruct (App.todays_tasks today_day df); [apply schedule_rows_well_formed | constructor].
Qed.

(** A save keeps the store consistent. *)
Lemma app_saved_consistent (d : App.db) (s : App.session) h rxs ps ss :
  let rid := app_saved_id d (App.editing s) in
  AppKeys.consistent d ->
  match App.editing s with
  | Some rid => rid <= App.report_seq d
  | None => True
  end ->
  stored_as App.rx_report_id App.reactive_dict rid (App.reactives s) rxs ->
  stored_as App.ppm_report_id App.ppm_dict rid (App.ppms s) ps ->
  stored_as App.sp_report_id App.spare_dict rid (App.spares s) ss ->
  AppKeys.consistent (app_saved d (App.editing s) h rxs ps ss).
Proof.
  intros rid (C1 & C2 & C3) Hrid [F1 _] [F2 _] [F3 _]. subst rid.
  destruct (App.editing s) as [rid |]; unfold AppKeys.consistent; simpl in *.
  - repeat split; apply List.Forall_app; split;
      try (eapply List.Forall_impl; [| eassumption]; simpl; intros; lia);
      apply List.Forall_forall; intros x Hx; apply List.filter_In in Hx;
      destruct Hx as [Hx _];
      [ revert x Hx; apply List.Forall_forall; exact C1
      | revert x Hx; apply List.Forall_forall; exact C2
      | revert x Hx; apply List.Forall_forall; exact C3 ].
  - unfold App.next_report_id in *.
    repeat split; apply List.Forall_app; split;
      try (eapply List.Forall_impl; [| eassumption]; simpl; intros; lia).
Qed.

(** The entries of the shift-log form are well formed. *)
Lemma shift_log_add_reactive_well_formed r_asset r_fault r_called r_back r_desc s_sec_eng s :
  ShiftLogKeys.well_formed s ->
  ShiftLogKeys.well_formed
    (ShiftLog.add_reactive r_asset r_fault r_called r_back r_desc s_sec_eng s).
Proof.
  intros (H1 & H2). split; [| exact H2]. simpl.
  apply List.Forall_app. split; [exact H1 |]. constructor; [| constructor].
  vm_compute. reflexivity.
Qed.

Lemma shift_log_add_ppm_well_formed p_asset p_comm s :
  ShiftLogKeys.well_formed s -> ShiftLogKeys.well_formed (ShiftLog.add_ppm p_asset p_comm s).
Proof. intros H. exact H. Qed.

Lemma shift_log_add_spare_well_formed sp_item sp_qty sp_cat sp_dec df_spares s :
  ShiftLogKeys.well_formed s ->
  ShiftLogKeys.well_formed (ShiftLog.add_spare sp_item sp_qty sp_cat sp_dec df_spares s).
Proof.
  intros (H1 & H2). unfold ShiftLog.add_spare.
  destruct (ShiftLog.split_first " - " sp_item) as [art |]; [| split; assumption].
  destruct (List.filter _ df_spares) as [| row rows]; [split; assumption |].
  split; [exact H1 |]. simpl. apply List.Forall_app. split; [exact H2 |].
  constructor; [| constructor]. split; [vm_compute; reflexivity |].
  split; [exists art | exists sp_qty]; reflexivity.
Qed.

(** * Further properties *)

(** ** Downtime *)

(** A call at 23:30 that is back at 00:15, on the shift-log form. *)
Lemma shift_log_downtime_normalized_witness :
  valid_time (Time 23 30) /\ valid_time (Time 0 15) /\
  let dt := ShiftLog.add_reactive_downtime (Time 23 30) (Time 0 15) in
  dt = inject_Z ((minute_of_day (Time 0 15) - minute_of_day (Time 23 30)) mod 1440) /\
  (0 <= dt < 1440)%Q /\
  (Time 0 15 = Time 23 30 -> dt = 0%Q).
Proof.
  assert (H1 : valid_time (Time 23 30)) by (unfold valid_time; simpl; lia).
  assert (H2 : valid_time (Time 0 15)) by (unfold valid_time; simpl; lia).
  split; [exact H1 |]. split; [exact H2 |].
  exact (shift_log_downtime_normalized (Time 23 30) (Time 0 15) H1 H2).
Defined.

(** X2.  The entry that the portal's Add Reactive appends holds, as
    downtime, the minutes from the call time to the back time on the same
    day: a negative number exactly when the back time is earlier than the
    call time. *)
Theorem app_add_reactive_stores_raw_difference
    (r_asset : string) (r_called r_back : time) (r_fault r_status : string)
    (r_engs : Z) (r_desc : string) (s : App.session) :
  let d := minute_of_day r_back - minute_of_day r_called in
  exists entry,
    last (App.reactives
            (App.add_reactive r_asset r_called r_back r_fault r_status r_engs r_desc s))
      = Some entry /\
    entry !! "Downtime (min)" = Some (VReal (inject_Z d)) /\
    ((inject_Z d < 0)%Q <-> minute_of_day r_back < minute_of_day r_called).
Proof.
  intros d. subst d. eexists. split; [simpl; apply last_snoc |]. split.
  - rewrite <- app_downtime_formula. reflexivity.
  - unfold Qlt; simpl. lia.
Qed.

(** ** Reload of the catalogue under failing calls *)

Lemma local_load_row (acc : nat * nat) (row : dict) : local (ShiftLog.load_row acc row).
Proof.
  destruct acc as [count duplicates]. unfold ShiftLog.load_row.
  destruct (String.eqb _ "UNKNOWN" || String.eqb _ "nan"); [apply local_ret |].
  split.
  - intros [dw ww [[| n] |] sw]; simpl; tauto.
  - intros [dw ww [[| n] |] sw] a w'; simpl; intros [= <- <-]; reflexivity.
Qed.

(** X5.  A reload never raises.  When it reports loaded spares, the
    inventory is the one the catalogue determines and the number of
    duplicates shown is 0; in every other case (file missing, file
    unreadable, a failing database call) the database is exactly as it was
    before, the deletion of the table included. *)
Theorem reload_all_or_nothing (file : csv_file) (b : option nat) (d : ShiftLog.db)
    (s : ShiftLog.session) :
  exists msg d',
    run (ShiftLog.reload_spares_from_csv file) b d s = (Ok msg, d', s) /\
    match msg with
    | ShiftLog.Loaded count duplicates =>
        exists df, file = Frame df /\
                   d' = ShiftLog.with_inventory (fun _ => catalogue_inventory df) d /\
                   count = catalogue_count df /\ duplicates = 0%nat
    | _ => d' = d
    end.
Proof.
  destruct file as [| | df]; [eexists _, _; split; reflexivity .. |].
  pose proof (reload_run df d s) as Hfree.
  unfold run, ShiftLog.reload_spares_from_csv, try_except in *.
  set (body := (connect;; execute (ShiftLog.with_inventory (fun _ => []));;
                acc ← for_fold df (0%nat, 0%nat) ShiftLog.load_row;
                commit;; mret (ShiftLog.Loaded acc.1 acc.2))
               : ShiftLog.Tx ShiftLog.sidebar) in *.
  assert (Hat : atomic body).
  { unfold body. apply atomic_bind; [solve_local | intros _].
    apply atomic_bind; [solve_local | intros _].
    apply atomic_bind; [apply local_for_fold; intros; apply local_load_row | intros acc].
    apply atomic_commit. }
  specialize (Hat (World d d b s)). unfold unlimited in Hat. simpl in Hat.
  destruct (body (World d d b s)) as [msg w' | e w'].
  - destruct Hat as [Hs Hat]. rewrite Hat in Hfree. simpl in Hfree.
    injection Hfree as -> Hd. exists (ShiftLog.Loaded (catalogue_count df) 0), (durable w').
    split; [rewrite Hs; reflexivity |]. exists df. auto.
  - destruct Hat as [Hd Hs]. exists (ShiftLog.ErrorReading e), (durable w'). simpl.
    split; [rewrite Hs; reflexivity | exact Hd].
Qed.

(** The sample catalogue, in which ART-1 appears twice. *)
Lemma reload_reports_no_duplicates_witness :
  (run (ShiftLog.reload_spares_from_csv SampleLog.catalogue) None SampleLog.db
     ShiftLog.init_session_state).1.1 = Ok (ShiftLog.Loaded 3 0) /\
  0%nat = 0%nat.
Proof.
  assert (H : (run (ShiftLog.reload_spares_from_csv SampleLog.catalogue) None SampleLog.db
                 ShiftLog.init_session_state).1.1 = Ok (ShiftLog.Loaded 3 0))
    by (vm_compute; reflexivity).
  split; [exact H |].
  exact (reload_reports_no_duplicates SampleLog.catalogue None SampleLog.db
           ShiftLog.init_session_state 3 0 H).
Defined.

(** ** Loading a report that is not stored *)

(** The sample store has no report 7. *)
Lemma app_load_missing_witness :
  App.select_report 7 Sample.app_db = None /\
  run (App.load_report_for_editing 7) None Sample.app_db Sample.app_session =
    (Ok false, Sample.app_db, Sample.app_session).
Proof.
  assert (H : App.select_report 7 Sample.app_db = None) by reflexivity.
  split; [exact H |].
  exact (app_load_missing 7 Sample.app_db Sample.app_session H).
Defined.

(** ** Sessions built through the pages *)

Section SessionTriples.
Context {db sess : Type} (P : sess -> Prop).

Lemma triple_local {A} (m : Tx db sess A) : local m -> session_triple P m (fun _ => True).
Proof.
  intros [Hd _] w Hw. specialize (Hd w).
  destruct (m w); destruct Hd as [_ Hs]; rewrite Hs; auto.
Qed.

Lemma triple_ret {A} (a : A) (Q : A -> Prop) :
  Q a -> session_triple P (mret a : Tx db sess A) Q.
Proof. intros Ha w Hw. simpl. auto. Qed.

Lemma triple_bind {A B} (m : Tx db sess A) (k : A -> Tx db sess B)
    (Q : A -> Prop) (R : B -> Prop) :
  session_triple P m Q ->
  (forall a, Q a -> session_triple P (k a) R) ->
  session_triple P (m ≫= k) R.
Proof.
  intros Hm Hk w Hw. unfold mbind, tx_bind. specialize (Hm w Hw).
  destruct (m w) as [a w1 | e w1]; [| exact Hm].
  destruct Hm as [H1 Ha]. exact (Hk a Ha w1 H1).
Qed.

Lemma triple_modify (f : sess -> sess) :
  (forall s, P s -> P (f s)) ->
  session_triple P (modify_session f : Tx db sess unit) (fun _ => True).
Proof. intros Hf w Hw. simpl. auto. Qed.

Lemma triple_query {A} (f : db -> A) (Q : A -> Prop) :
  (forall d, Q (f d)) -> session_triple P (query f : Tx db sess A) Q.
Proof.
  intros Hf [dw ww [[| n] |] sw] Hw; simpl; auto.
Qed.

Lemma triple_run {A} (m : Tx db sess A) (Q : A -> Prop) (b : option nat) (d : db)
    (s : sess) :
  session_triple P m Q -> P s -> P (run m b d s).2.
Proof.
  intros Hm Hs. unfold run. specialize (Hm (World d d b s) Hs).
  destruct (m (World d d b s)); simpl; tauto.
Qed.
End SessionTriples.

Lemma triple_load (report_id : Z) :
  session_triple AppKeys.well_formed (App.load_report_for_editing report_id)
    (fun _ => True).
Proof.
  unfold App.load_report_for_editing.
  eapply triple_bind; [apply triple_local, local_connect | intros _ _].
  eapply triple_bind; [apply triple_local, local_query | intros r _].
  destruct r as [r |]; [| apply triple_ret; exact I].
  eapply triple_bind; [apply triple_modify | intros _ _].
  { intros s (H1 & H2 & H3). repeat split; assumption. }
  eapply triple_bind; [apply triple_local, local_query | intros rows _].
  eapply triple_bind; [apply triple_modify | intros _ _].
  { intros s (H1 & H2 & H3). repeat split; try assumption. simpl.
    apply List.Forall_forall. intros x Hx. apply List.in_map_iff in Hx.
    destruct Hx as (row & <- & _). apply has_keys_app_reactive. }
  eapply triple_bind; [apply triple_local, local_query | intros rows' _].
  eapply triple_bind; [apply triple_modify | intros _ _].
  { intros s (H1 & H2 & H3). repeat split; try assumption. simpl.
    apply List.Forall_forall. intros x Hx. apply List.in_map_iff in Hx.
    destruct Hx as (row & <- & _). apply has_keys_app_ppm. }
  eapply triple_bind; [apply triple_local, local_query | intros rows'' _].
  eapply triple_bind; [apply triple_modify | intros _ _].
  { intros s (H1 & H2 & H3). repeat split; try assumption. simpl.
    apply List.Forall_forall. intros x Hx. apply List.in_map_iff in Hx.
    destruct Hx as (row & <- & _). apply has_keys_app_spare. }
  apply triple_ret. exact I.
Qed.

Lemma check_smart_ppms_well_formed (ppm_file : csv_file) (today_day : string) :
  Forall (has_keys AppKeys.ppm_keys) (App.check_smart_ppms ppm_file today_day).
Proof.
  unfold App.check_smart_ppms. destruct ppm_file as [| | df]; try constructor.
  destruct (App.todays_tasks today_day df); [apply schedule_rows_well_formed | constructor].
Qed.

Lemma triple_auto_logic (ppm_file : csv_file) (today_day : string) :
  session_triple AppKeys.well_formed (App.auto_logic ppm_file today_day) (fun _ => True).
Proof.
  unfold App.auto_logic.
  eapply triple_bind; [apply triple_local, local_get_session | intros st _].
  destruct (negb (App.carry_over_checked st) && negb (App.is_editing st));
    [| apply triple_ret; exact I].
  eapply triple_bind with (Q := Forall (has_keys AppKeys.reactive_keys)).
  { unfold App.check_carry_over_tasks.
    eapply triple_bind; [apply triple_local, local_connect | intros _ _].
    eapply triple_bind; [apply triple_local, local_query | intros df _].
    apply triple_ret. apply List.Forall_forall. intros x Hx.
    apply List.in_map_iff in Hx. destruct Hx as (row & <- & _).
    apply has_keys_app_reactive. }
  intros carry_over Hcarry.
  eapply triple_bind with (Q := fun _ => True).
  { destruct carry_over; [apply triple_ret; exact I |].
    intros w Hw. simpl. split; [| exact I]. destruct Hw as (H1 & H2 & H3).
    repeat split; try assumption. simpl. apply List.Forall_app. split; assumption. }
  intros _ _.
  pose proof (check_smart_ppms_well_formed ppm_file today_day) as Hsmart.
  eapply triple_bind with (Q := fun _ => True).
  { destruct (App.check_smart_ppms ppm_file today_day); [apply triple_ret; exact I |].
    intros w Hw. simpl. split; [| exact I]. destruct Hw as (H1 & H2 & H3).
    repeat split; try assumption. simpl. apply List.Forall_app. split; assumption. }
  intros _ _. intros w Hw. simpl. split; [| exact I]. destruct Hw as (H1 & H2 & H3).
  repeat split; assumption.
Qed.

(** Every session that the portal can reach has well-formed lists. *)
Lemma app_reachable_well_formed (s : App.session) :
  app_reachable s -> AppKeys.well_formed s.
Proof.
  induction 1.
  - apply app_init_well_formed.
  - apply app_add_reactive_well_formed. assumption.
  - apply app_add_ppm_well_formed. assumption.
  - apply app_add_spare_well_formed. assumption.
  - repeat split; constructor.
  - eapply triple_run; [apply triple_auto_logic | assumption].
  - eapply triple_run; [apply triple_load | assumption].
Qed.

Lemma app_reactive_pdf_rows (l : list dict) :
  Forall (has_keys AppKeys.reactive_keys) l ->
  exists rows, map_result App.reactive_pdf_row l = Ok rows.
Proof.
  intros H.
  assert (Hrow : forall r, has_keys AppKeys.reactive_keys r ->
                   exists y, App.reactive_pdf_row r = Ok y /\ True).
  { intros r Hr. key_lookup Hr "Asset" v1 H1. key_lookup Hr "Fault" v2 H2.
    unfold App.reactive_pdf_row, getitem. rewrite H1, H2.
    eexists. split; [reflexivity | exact I]. }
  destruct (map_result_Forall _ _ (fun _ _ => True) l Hrow H) as (rows & Hrows & _).
  eauto.
Qed.

(** X8.  Whatever sequence of actions has built the portal's session, a
    save on which no database call fails stores it without raising, and
    the PDF writer renders it without raising: every entry of the session
    carries the keys that the INSERTs and the table of reactive tasks
    read. *)
Theorem app_reachable_session_saves_and_renders
    (s : App.session) (s_date : py_date) (s_shift s_eng s_team now : string)
    (d : App.db) :
  app_reachable s ->
  let report_data := App.report_data s_date s_shift s_eng s_team in
  (exists rid d', run (App.save_report_to_db report_data now) None d s = (Ok rid, d', s)) /\
  (exists elements,
      App.generate_pdf_report (App.editing_report_id s) report_data
        (App.reactives s) (App.ppms s) (App.spares s) = Ok elements).
Proof.
  intros Hr report_data. pose proof (app_reachable_well_formed s Hr) as Hwf. split.
  - destruct (app_children_params (app_saved_id d (App.editing s)) s Hwf)
      as (rxs & ps & ss & E1 & E2 & E3 & _).
    destruct (app_header_params_ok s_date s_shift s_eng s_team now) as [h Hh].
    eexists _, _. exact (app_save_run _ _ d s h rxs ps ss Hh E1 E2 E3).
  - destruct Hwf as (H1 & _). unfold App.generate_pdf_report.
    destruct (App.reactives s) as [| r l] eqn:E; [eexists; reflexivity |].
    destruct (app_reactive_pdf_rows _ H1) as [rows Hrows].
    unfold mbind at 1, result_bind. cbn [mk_table report_data App.report_data
      App.shift_details List.filter map negb App.is_child_key String.eqb Ascii.eqb
      Bool.eqb orb fst snd].
    rewrite Hrows. eexists. reflexivity.
Qed.

(** The sample session, built with the three Add buttons. *)
Lemma app_reachable_session_saves_and_renders_witness :
  app_reachable Sample.app_session /\
  let report_data := App.report_data Sample.day "Day Shift" "John Smith" "" in
  (exists rid d',
      run (App.save_report_to_db report_data "2024-03-09 18:00:00") None Sample.app_db
        Sample.app_session = (Ok rid, d', Sample.app_session)) /\
  (exists elements,
      App.generate_pdf_report (App.editing_report_id Sample.app_session) report_data
        (App.reactives Sample.app_session) (App.ppms Sample.app_session)
        (App.spares Sample.app_session) = Ok elements).
Proof.
  assert (H : app_reachable Sample.app_session).
  { apply app_reach_add_spare, app_reach_add_ppm, app_reach_add_reactive, app_reach_init. }
  split; [exact H |].
  exact (app_reachable_session_saves_and_renders Sample.app_session Sample.day
           "Day Shift" "John Smith" "" "2024-03-09 18:00:00" Sample.app_db H).
Defined.

(** ** The shift log: sessions built through the form *)

Lemma has_keys_shift_log_reactive (a b c d e f g : value) :
  has_keys ShiftLogKeys.reactive_keys
    {[ "Asset" := a; "Fault" := b; "Time Called" := c; "Time Back" := d;
       "Downtime (min)" := e; "Engineers" := f; "Description" := g ]}.
Proof. vm_compute. reflexivity. Qed.

Lemma has_keys_shift_log_ppm (a b c : value) :
  has_keys ShiftLogForms.ppm_keys {[ "Asset" := a; "Status" := b; "Comments" := c ]}.
Proof. vm_compute. reflexivity. Qed.

Lemma shift_log_reachable_well_typed (s : ShiftLog.session) :
  shift_log_reachable s -> ShiftLogForms.well_typed s.
Proof.
  induction 1 as [| ? ? ? ? ? ? s _ (H1 & H2 & H3) | ? ? s _ (H1 & H2 & H3)
                  | ? ? ? ? ? s Hs (H1 & H2 & H3)].
  - repeat split; constructor.
  - repeat split; try assumption. simpl. apply List.Forall_app. split; [exact H1 |].
    constructor; [| constructor]. split; [apply has_keys_shift_log_reactive |].
    split; eexists; reflexivity.
  - repeat split; try assumption. simpl. apply List.Forall_app. split; [exact H2 |].
    constructor; [| constructor]. apply has_keys_shift_log_ppm.
  - assert (Hwf : ShiftLogKeys.well_formed s).
    { split; [| exact H3]. eapply List.Forall_impl; [| exact H1]. intros e He. apply He. }
    destruct (shift_log_add_spare_well_formed sp_item sp_qty sp_cat sp_dec df_spares s Hwf)
      as [_ H3'].
    unfold ShiftLog.add_spare in *.
    destruct (ShiftLog.split_first " - " sp_item); [| repeat split; assumption].
    destruct (List.filter _ df_spares); repeat split; assumption.
Qed.

Lemma well_typed_well_formed (s : ShiftLog.session) :
  ShiftLogForms.well_typed s -> ShiftLogKeys.well_formed s.
Proof.
  intros (H1 & _ & H3). split; [| exact H3].
  eapply List.Forall_impl; [| exact H1]. intros e He. apply He.
Qed.

(** *** The loops of the workbook writer *)









(** ** The portal's store across saves *)

Lemma map_rep_id_update (rid : Z) (h : App.report_row) (l : list App.report_row) :
  map App.rep_id (map (fun r => if App.rep_id r =? rid then App.with_id rid h else r) l) =
  map App.rep_id l.
Proof.
  rewrite map_map. apply map_ext. intros r.
  destruct (App.rep_id r =? rid) eqn:E; [| reflexivity].
  apply Z.eqb_eq in E. simpl. congruence.
Qed.

Lemma select_report_In (rid : Z) (d : App.db) :
  is_Some (App.select_report rid d) -> In rid (map App.rep_id (App.tbl_reports d)).
Proof.
  unfold App.select_report. intros [r Hr].
  destruct (List.filter _ (App.tbl_reports d)) as [| x l] eqn:E; [discriminate |].
  assert (Hx : In x (List.filter (fun r => App.rep_id r =? rid) (App.tbl_reports d)))
    by (rewrite E; left; reflexivity).
  apply List.filter_In in Hx. destruct Hx as [Hx Hid]. apply Z.eqb_eq in Hid.
  rewrite <- Hid. apply List.in_map. exact Hx.
Qed.

Lemma select_report_fresh (rid : Z) (d : App.db) :
  ~ In rid (map App.rep_id (App.tbl_reports d)) -> App.select_report rid d = None.
Proof.
  unfold App.select_report. intros H.
  destruct (List.filter _ (App.tbl_reports d)) as [| x l] eqn:E; [reflexivity |].
  exfalso. apply H.
  assert (Hx : In x (List.filter (fun r => App.rep_id r =? rid) (App.tbl_reports d)))
    by (rewrite E; left; reflexivity).
  apply List.filter_In in Hx. destruct Hx as [Hx Hid]. apply Z.eqb_eq in Hid.
  rewrite <- Hid. apply List.in_map. exact Hx.
Qed.

Lemma app_ids_below_seq (d : App.db) (rid : Z) :
  Forall (fun r => 0 < App.rep_id r <= App.report_seq d) (App.tbl_reports d) ->
  In rid (map App.rep_id (App.tbl_reports d)) -> 0 < rid <= App.report_seq d.
Proof.
  intros H Hin. apply List.in_map_iff in Hin. destruct Hin as (r & <- & Hr).
  revert r Hr. apply List.Forall_forall. exact H.
Qed.

(** X10.  A save keeps the store in order: the ids of the reports stay
    distinct, positive and below the counter, and the child rows stay
    attached to ids that were given out.  A new report gets an id that no
    stored report has and is added at the end; an edit leaves the list of
    ids and the counter as they were.  In both cases the header of the
    saved id is in the table afterwards. *)
Theorem app_save_keeps_store_in_order
    (s_date : py_date) (s_shift s_eng s_team now : string) (d : App.db) (s : App.session) :
  app_store_ok d ->
  AppKeys.well_formed s ->
  AppKeys.editable d s ->
  exists rid d',
    run (App.save_report_to_db (App.report_data s_date s_shift s_eng s_team) now)
      None d s = (Ok rid, d', s) /\
    app_store_ok d' /\
    is_Some (App.select_report rid d') /\
    match App.editing s with
    | None =>
        App.select_report rid d = None /\
        map App.rep_id (App.tbl_reports d') = map App.rep_id (App.tbl_reports d) ++ [rid]
    | Some _ =>
        map App.rep_id (App.tbl_reports d') = map App.rep_id (App.tbl_reports d) /\
        App.report_seq d' = App.report_seq d
    end.
Proof.
  intros (Hnd & Hids & Hseq & Hc) Hwf He.
  set (rid := app_saved_id d (App.editing s)).
  destruct (app_children_params rid s Hwf) as (rxs & ps & ss & E1 & E2 & E3 & S1 & S2 & S3).
  destruct (app_header_params_ok s_date s_shift s_eng s_team now) as [h Hh].
  exists rid, (app_saved d (App.editing s) h rxs ps ss).
  split; [exact (app_save_run _ _ d s h rxs ps ss Hh E1 E2 E3) |].
  assert (Hrid : match App.editing s with
                 | Some rid => rid <= App.report_seq d
                 | None => True
                 end).
  { unfold AppKeys.editable in He. destruct (App.editing s) as [r |]; [| exact I].
    apply (app_ids_below_seq d r Hids). apply select_report_In. exact He. }
  pose proof (app_saved_consistent d s h rxs ps ss Hc Hrid S1 S2 S3) as Hc'.
  pose proof (app_saved_header d (App.editing s) h rxs ps ss He) as Hhead.
  fold rid in Hhead. split; [| split; [exact Hhead |]].
  - subst rid. unfold app_store_ok. split; [| split; [| split; [| exact Hc']]];
      destruct (App.editing s) as [r |]; simpl.
    + rewrite map_rep_id_update. exact Hnd.
    + rewrite map_app. simpl. apply NoDup_app. repeat split; [exact Hnd | |].
      * intros x Hx Hx'. apply list_elem_of_In in Hx, Hx'. destruct Hx' as [<- | []].
        pose proof (app_ids_below_seq d _ Hids Hx). unfold App.next_report_id in *. lia.
      * constructor; [intros H; inversion H | constructor].
    + apply List.Forall_forall. intros x Hx. apply List.in_map_iff in Hx.
      destruct Hx as (y & <- & Hy).
      pose proof (proj1 (List.Forall_forall _ _) Hids y Hy) as Hy'. cbv beta in Hy'.
      destruct (App.rep_id y =? r) eqn:E; [| exact Hy'].
      apply Z.eqb_eq in E. unfold App.with_id. simpl. lia.
    + unfold App.next_report_id. apply List.Forall_app. split.
      * eapply List.Forall_impl; [| exact Hids]. simpl. intros; lia.
      * constructor; [simpl; lia | constructor].
    + exact Hseq.
    + unfold App.next_report_id. lia.
  - subst rid. destruct (App.editing s) as [r |]; simpl.
    + split; [apply map_rep_id_update | reflexivity].
    + split.
      * apply select_report_fresh. intros Hin.
        pose proof (app_ids_below_seq d _ Hids Hin). unfold App.next_report_id in *. lia.
      * rewrite map_app. reflexivity.
Qed.

(** The sample session saved as a new report into the sample store. *)
Lemma app_save_keeps_store_in_order_witness :
  app_store_ok Sample.app_db /\
  AppKeys.well_formed Sample.app_session /\
  AppKeys.editable Sample.app_db Sample.app_session /\
  exists rid d',
    run (App.save_report_to_db (App.report_data Sample.day "Day Shift" "John Smith" "")
           "2024-03-09 18:00:00")
      None Sample.app_db Sample.app_session = (Ok rid, d', Sample.app_session) /\
    app_store_ok d' /\
    is_Some (App.select_report rid d') /\
    match App.editing Sample.app_session with
    | None =>
        App.select_report rid Sample.app_db = None /\
        map App.rep_id (App.tbl_reports d') =
          map App.rep_id (App.tbl_reports Sample.app_db) ++ [rid]
    | Some _ =>
        map App.rep_id (App.tbl_reports d') = map App.rep_id (App.tbl_reports Sample.app_db) /\
        App.report_seq d' = App.report_seq Sample.app_db
    end.
Proof.
  assert (H1 : app_store_ok Sample.app_db).
  { unfold app_store_ok. split; [apply NoDup_singleton |].
    split; [repeat constructor; simpl; lia |]. split; [simpl; lia |].
    repeat split; repeat constructor; simpl; lia. }
  assert (H2 : AppKeys.well_formed Sample.app_session).
  { repeat split; repeat constructor; vm_compute; reflexivity. }
  assert (H3 : AppKeys.editable Sample.app_db Sample.app_session) by exact I.
  split; [exact H1 |]. split; [exact H2 |]. split; [exact H3 |].
  exact (app_save_keeps_store_in_order Sample.day "Day Shift" "John Smith" ""
           "2024-03-09 18:00:00" Sample.app_db Sample.app_session H1 H2 H3).
Defined.

Lemma filter_other_key {R} (key : R -> Z) (rid other : Z) (old new : list R) :
  other <> rid ->
  Forall (fun r => key r = rid) new ->
  List.filter (fun r => key r =? other)
    (List.filter (fun r => negb (key r =? rid)) old ++ new) =
  List.filter (fun r => key r =? other) old.
Proof.
  intros Hne Hn. rewrite List.filter_app.
  assert (H2 : List.filter (fun r => key r =? other) new = []).
  { induction Hn as [| r new Hr _ IH]; simpl; [reflexivity |].
    assert (E : (key r =? other) = false) by (apply Z.eqb_neq; lia).
    rewrite E. exact IH. }
  rewrite H2, app_nil_r. induction old as [| r old IH]; simpl; [reflexivity |].
  destruct (key r =? rid) eqn:E1; simpl.
  - apply Z.eqb_eq in E1. assert (E : (key r =? other) = false) by (apply Z.eqb_neq; lia).
    rewrite E. exact IH.
  - destruct (key r =? other); [f_equal |]; exact IH.
Qed.

Lemma filter_other_key_new {R} (key : R -> Z) (rid other : Z) (old new : list R) :
  other <> rid ->
  Forall (fun r => key r = rid) new ->
  List.filter (fun r => key r =? other) (old ++ new) =
  List.filter (fun r => key r =? other) old.
Proof.
  intros Hne Hn. rewrite List.filter_app.
  assert (H2 : List.filter (fun r => key r =? other) new = []).
  { induction Hn as [| r new Hr _ IH]; simpl; [reflexivity |].
    assert (E : (key r =? other) = false) by (apply Z.eqb_neq; lia).
    rewrite E. exact IH. }
  rewrite H2, app_nil_r. reflexivity.
Qed.

(** X11.  A save touches the saved report only: for every other report id
    the header and the rows of the three child tables are afterwards what
    they were before. *)
Theorem app_save_leaves_other_reports
    (s_date : py_date) (s_shift s_eng s_team now : string) (d : App.db) (s : App.session) :
  AppKeys.well_formed s ->
  exists rid d',
    run (App.save_report_to_db (App.report_data s_date s_shift s_eng s_team) now)
      None d s = (Ok rid, d', s) /\
    forall other,
      other <> rid ->
      App.select_report other d' = App.select_report other d /\
      App.select_reactives other d' = App.select_reactives other d /\
      App.select_ppms other d' = App.select_ppms other d /\
      App.select_spares other d' = App.select_spares other d.
Proof.
  intros Hwf. set (rid := app_saved_id d (App.editing s)).
  destruct (app_children_params rid s Hwf)
    as (rxs & ps & ss & E1 & E2 & E3 & [F1 _] & [F2 _] & [F3 _]).
  destruct (app_header_params_ok s_date s_shift s_eng s_team now) as [h Hh].
  exists rid, (app_saved d (App.editing s) h rxs ps ss).
  split; [exact (app_save_run _ _ d s h rxs ps ss Hh E1 E2 E3) |].
  intros other Hne. subst rid.
  unfold App.select_report, App.select_reactives, App.select_ppms, App.select_spares.
  destruct (App.editing s) as [r |]; simpl in *.
  - rewrite (filter_other_key App.rx_report_id r other),
      (filter_other_key App.ppm_report_id r other),
      (filter_other_key App.sp_report_id r other) by assumption.
    repeat split. f_equal.
    induction (App.tbl_reports d) as [| x l IH]; simpl; [reflexivity |].
    destruct (App.rep_id x =? r) eqn:Ex; simpl.
    + apply Z.eqb_eq in Ex.
      assert (E : (r =? other) = false) by (apply Z.eqb_neq; lia).
      assert (E' : (App.rep_id x =? other) = false) by (apply Z.eqb_neq; lia).
      rewrite E, E'. exact IH.
    + destruct (App.rep_id x =? other); [f_equal |]; exact IH.
  - rewrite (filter_other_key_new App.rx_report_id (App.next_report_id d) other),
      (filter_other_key_new App.ppm_report_id (App.next_report_id d) other),
      (filter_other_key_new App.sp_report_id (App.next_report_id d) other) by assumption.
    repeat split.
    rewrite List.filter_app. simpl.
    assert (E : (App.next_report_id d =? other) = false) by (apply Z.eqb_neq; lia).
    rewrite E, app_nil_r. reflexivity.
Qed.

(** Lists A of the sample, saved into report 1 of the sample store. *)
Lemma app_save_leaves_other_reports_witness :
  let s := App.Session Sample.reactives_a Sample.ppms_a Sample.spares_a (Some 1) true in
  AppKeys.well_formed s /\
  exists rid d',
    run (App.save_report_to_db (App.report_data Sample.day "Day Shift" "John Smith" "")
           "2024-03-09 18:00:00") None Sample.app_db s = (Ok rid, d', s) /\
    forall other,
      other <> rid ->
      App.select_report other d' = App.select_report other Sample.app_db /\
      App.select_reactives other d' = App.select_reactives other Sample.app_db /\
      App.select_ppms other d' = App.select_ppms other Sample.app_db /\
      App.select_spares other d' = App.select_spares other Sample.app_db.
Proof.
  intros s.
  assert (H : AppKeys.well_formed s).
  { repeat split; repeat constructor; vm_compute; reflexivity. }
  split; [exact H |].
  exact (app_save_leaves_other_reports Sample.day "Day Shift" "John Smith" ""
           "2024-03-09 18:00:00" Sample.app_db s H).
Defined.

(** ** Editing a stored report *)

(** X12.  A stored report that is loaded for editing and saved again
    without a change keeps its children: after the save the three child
    tables hold under its id entries with the same fields and values, in
    the same order, and the reports table has as many rows as before. *)
Theorem load_then_save_keeps_children
    (s_date : py_date) (s_shift s_eng s_team now : string) (d : App.db)
    (s0 : App.session) (report_id : Z) :
  report_id <> 0 ->
  is_Some (App.select_report report_id d) ->
  exists s1 d2,
    run (App.load_report_for_editing report_id) None d s0 = (Ok true, d, s1) /\
    run (App.save_report_to_db (App.report_data s_date s_shift s_eng s_team) now)
      None d s1 = (Ok report_id, d2, s1) /\
    map App.reactive_dict (App.select_reactives report_id d2) =
      map App.reactive_dict (App.select_reactives report_id d) /\
    map App.ppm_dict (App.select_ppms report_id d2) =
      map App.ppm_dict (App.select_ppms report_id d) /\
    map App.spare_dict (App.select_spares report_id d2) =
      map App.spare_dict (App.select_spares report_id d) /\
    length (App.tbl_reports d2) = length (App.tbl_reports d).
Proof.
  intros Hne Hsome.
  set (s1 := App.Session (map App.reactive_dict (App.select_reactives report_id d))
               (map App.ppm_dict (App.select_ppms report_id d))
               (map App.spare_dict (App.select_spares report_id d))
               (Some report_id) (App.carry_over_checked s0)).
  assert (He : App.editing s1 = Some report_id).
  { unfold App.editing; simpl. apply Z.eqb_neq in Hne. rewrite Hne. reflexivity. }
  pose proof (app_loaded_well_formed (App.select_reactives report_id d)
                (App.select_ppms report_id d) (App.select_spares report_id d)
                (Some report_id) (App.carry_over_checked s0)) as Hwf.
  fold s1 in Hwf.
  destruct (app_children_params report_id s1 Hwf)
    as (rxs & ps & ss & E1 & E2 & E3 & S1 & S2 & S3).
  destruct (app_header_params_ok s_date s_shift s_eng s_team now) as [h Hh].
  pose proof (app_save_run _ _ d s1 h rxs ps ss Hh) as Hsave.
  rewrite He in Hsave. specialize (Hsave E1 E2 E3).
  destruct (app_saved_children d (Some report_id) h rxs ps ss _ _ _
              (fun H => ltac:(discriminate H)) S1 S2 S3) as (C1 & C2 & C3).
  cbv zeta in C1, C2, C3. unfold app_saved_id in C1, C2, C3.
  exists s1, (app_saved d (Some report_id) h rxs ps ss).
  split; [apply app_load_run; exact Hsome |]. split; [exact Hsave |].
  rewrite C1, C2, C3. repeat split. simpl. apply length_map.
Qed.

(** Report 1 of the sample store. *)
Lemma load_then_save_keeps_children_witness :
  1 <> 0 /\
  is_Some (App.select_report 1 Sample.app_db) /\
  exists s1 d2,
    run (App.load_report_for_editing 1) None Sample.app_db App.init_session_state =
      (Ok true, Sample.app_db, s1) /\
    run (App.save_report_to_db (App.report_data Sample.day "Day Shift" "John Smith" "")
           "2024-03-09 18:00:00") None Sample.app_db s1 = (Ok 1, d2, s1) /\
    map App.reactive_dict (App.select_reactives 1 d2) =
      map App.reactive_dict (App.select_reactives 1 Sample.app_db) /\
    map App.ppm_dict (App.select_ppms 1 d2) =
      map App.ppm_dict (App.select_ppms 1 Sample.app_db) /\
    map App.spare_dict (App.select_spares 1 d2) =
      map App.spare_dict (App.select_spares 1 Sample.app_db) /\
    length (App.tbl_reports d2) = length (App.tbl_reports Sample.app_db).
Proof.
  assert (H1 : 1 <> 0) by lia.
  assert (H2 : is_Some (App.select_report 1 Sample.app_db)) by (eexists; reflexivity).
  split; [exact H1 |]. split; [exact H2 |].
  exact (load_then_save_keeps_children Sample.day "Day Shift" "John Smith" ""
           "2024-03-09 18:00:00" Sample.app_db App.init_session_state 1 H1 H2).
Defined.



(** ** Carry-over across saves *)

Lemma carried_params (rid : Z) (rows : list App.reactive_row) :
  map_result (App.reactive_params rid) (map App.carry_over_dict rows) =
  Ok (map (carried_row rid) rows).
Proof.
  induction rows as [| row rows IH]; [reflexivity |].
  cbn [map map_result]. rewrite IH.
  change (App.reactive_params rid (App.carry_over_dict row)) with (Ok (carried_row rid row)).
  reflexivity.
Qed.

Lemma carried_rows_open (rid : Z) (rows : list App.reactive_row) :
  Forall (fun r => App.sql_ne_text (App.rx_status r) "Complete" = true) rows ->
  List.filter (fun r => App.sql_ne_text (App.rx_status r) "Complete")
    (map (carried_row rid) rows) = map (carried_row rid) rows.
Proof.
  induction 1 as [| r rows Hr _ IH]; simpl; [reflexivity |].
  rewrite Hr, IH. reflexivity.
Qed.

(** X13.  Nothing marks a carried-over task as imported.  When a fresh
    session imports the open reactive tasks and is saved as a new report,
    each of them is stored a second time under the new report, still open
    and with the marker in front of its description; the next fresh
    session therefore imports every open task twice, the copy carrying the
    marker twice. *)
Theorem saved_carry_over_is_imported_again
    (ppm_file : csv_file) (today_day : string)
    (s_date : py_date) (s_shift s_eng s_team now : string) (d : App.db) :
  let opened := App.select_open_reactives d in
  let rid := App.next_report_id d in
  exists s1 d1 s2,
    run (App.auto_logic ppm_file today_day) None d App.init_session_state = (Ok tt, d, s1) /\
    run (App.save_report_to_db (App.report_data s_date s_shift s_eng s_team) now)
      None d s1 = (Ok rid, d1, s1) /\
    App.select_open_reactives d1 = opened ++ map (carried_row rid) opened /\
    run (App.auto_logic ppm_file today_day) None d1 App.init_session_state = (Ok tt, d1, s2) /\
    App.reactives s2 =
      map App.carry_over_dict opened ++
      map App.carry_over_dict (map (carried_row rid) opened) /\
    (forall row, In row opened ->
       App.carry_over_dict (carried_row rid row) !! "Description" =
       Some (VText ("[CARRY OVER] [CARRY OVER] " +:+ py_str (App.rx_description row)))).
Proof.
  intros opened rid.
  pose proof (auto_logic_run ppm_file today_day d App.init_session_state eq_refl eq_refl)
    as Hauto. cbn [App.reactives App.ppms App.spares App.init_session_state
                   App.editing_report_id app] in Hauto.
  set (s1 := App.Session (map App.carry_over_dict (App.select_open_reactives d))
               (App.check_smart_ppms ppm_file today_day) [] None true) in *.
  destruct (map_result_Forall _ _ _ _ (app_ppm_params_ok rid)
              (check_smart_ppms_well_formed ppm_file today_day)) as (ps & E2 & _).
  destruct (app_header_params_ok s_date s_shift s_eng s_team now) as [h Hh].
  pose proof (app_save_run _ _ d s1 h (map (carried_row rid) opened) ps [] Hh
                (carried_params rid opened) E2 eq_refl) as Hsave.
  change (App.editing s1) with (@None Z) in Hsave.
  set (d1 := app_saved d None h (map (carried_row rid) opened) ps []) in *.
  assert (Hopen : App.select_open_reactives d1 = opened ++ map (carried_row rid) opened).
  { unfold App.select_open_reactives, d1; simpl. rewrite List.filter_app.
    fold (App.select_open_reactives d). fold opened. f_equal.
    apply carried_rows_open. apply List.Forall_forall. intros r Hr.
    apply List.filter_In in Hr. apply Hr. }
  exists s1, d1. eexists. split; [exact Hauto |]. split; [exact Hsave |].
  split; [exact Hopen |].
  split; [apply auto_logic_run; reflexivity |].
  cbn [App.reactives App.init_session_state app]. rewrite Hopen, map_app.
  split; [reflexivity |]. intros row _. reflexivity.
Qed.

(** ** The PPM schedule *)

Lemma todays_tasks_due (today_day : string) (df : list dict) :
  Forall (fun row => is_Some (row !! "Day") /\ is_Some (row !! "Asset")) df ->
  App.todays_tasks today_day df = Ok (List.filter (due_on today_day) df).
Proof.
  induction 1 as [| row df [[day Hd] _] _ IH]; simpl; [reflexivity |].
  unfold App.day_matches, getitem, due_on. rewrite Hd, IH. simpl.
  destruct day; try reflexivity.
Qed.

Lemma schedule_rows_entries (tasks : list dict) :
  Forall (fun row => is_Some (row !! "Day") /\ is_Some (row !! "Asset")) tasks ->
  App.schedule_rows tasks = map scheduled_entry tasks.
Proof.
  induction 1 as [| row tasks [_ [asset Ha]] _ IH]; simpl; [reflexivity |].
  rewrite Ha, IH. unfold scheduled_entry, get. rewrite Ha. reflexivity.
Qed.

(** X14.  From a schedule whose rows carry a day and an asset, the rows
    due today — day equal to today's weekday or to Daily — are scheduled,
    in the order of the file and no others, each as a PPM entry In
    Progress with the comment Auto-scheduled. *)
Theorem check_smart_ppms_schedules_due_rows (df : list dict) (today_day : string) :
  Forall (fun row => is_Some (row !! "Day") /\ is_Some (row !! "Asset")) df ->
  App.check_smart_ppms (Frame df) today_day =
    map scheduled_entry (List.filter (due_on today_day) df) /\
  Forall (fun e => e !! "Status" = Some (VText "In Progress") /\
                   e !! "Comments" = Some (VText "Auto-scheduled"))
    (App.check_smart_ppms (Frame df) today_day).
Proof.
  intros H.
  assert (E : App.check_smart_ppms (Frame df) today_day =
              map scheduled_entry (List.filter (due_on today_day) df)).
  { unfold App.check_smart_ppms. rewrite (todays_tasks_due _ _ H).
    apply schedule_rows_entries. apply List.Forall_forall. intros row Hrow.
    apply List.filter_In in Hrow. destruct Hrow as [Hrow _].
    revert row Hrow. apply List.Forall_forall. exact H. }
  split; [exact E |]. rewrite E. apply List.Forall_forall. intros e He.
  apply List.in_map_iff in He. destruct He as (row & <- & _). split; reflexivity.
Qed.

(** A schedule with a Friday task, a daily task and a Monday task, read on
    a Friday. *)
Lemma check_smart_ppms_schedules_due_rows_witness :
  let df : list dict :=
    [ {[ "Asset" := VText "Conveyor #1"; "Day" := VText "Friday";
         "Task Description" := VText "Belt tension" ]};
      {[ "Asset" := VText "Forklift #1"; "Day" := VText "Daily";
         "Task Description" := VText "Battery check" ]};
      {[ "Asset" := VText "Palletiser #1"; "Day" := VText "Monday";
         "Task Description" := VText "Lubrication" ]} ] in
  Forall (fun row => is_Some (row !! "Day") /\ is_Some (row !! "Asset")) df /\
  App.check_smart_ppms (Frame df) "Friday" =
    map scheduled_entry (List.filter (due_on "Friday") df) /\
  Forall (fun e => e !! "Status" = Some (VText "In Progress") /\
                   e !! "Comments" = Some (VText "Auto-scheduled"))
    (App.check_smart_ppms (Frame df) "Friday").
Proof.
  intros df.
  assert (H : Forall (fun row => is_Some (row !! "Day") /\ is_Some (row !! "Asset")) df).
  { repeat constructor; eexists; reflexivity. }
  split; [exact H |].
  exact (check_smart_ppms_schedules_due_rows df "Friday" H).
Defined.

(** X19.  A schedule that cannot be used schedules nothing and raises
    nothing: a missing file, an unreadable file, and a frame in which a
    row has no Day all give the empty list. *)
Theorem check_smart_ppms_swallows_bad_schedule (df : list dict) (today_day : string) :
  Exists (fun row => row !! "Day" = None) df ->
  App.check_smart_ppms (Frame df) today_day = [] /\
  App.check_smart_ppms Missing today_day = [] /\
  App.check_smart_ppms Unreadable today_day = [].
Proof.
  intros H. split; [| split; reflexivity].
  unfold App.check_smart_ppms.
  assert (E : exists e, App.todays_tasks today_day df = Raise e).
  { induction H as [row df Hrow | row df _ [e IH]]; simpl.
    - unfold App.day_matches, getitem. rewrite Hrow. eexists. reflexivity.
    - destruct (App.day_matches today_day row) as [b | e']; simpl.
      + rewrite IH. eexists. reflexivity.
      + eexists. reflexivity. }
  destruct E as [e ->]. reflexivity.
Qed.

(** A schedule whose only row has no Day. *)
Lemma check_smart_ppms_swallows_bad_schedule_witness :
  let df : list dict := [ {[ "Asset" := VText "Conveyor #1" ]} ] in
  Exists (fun row => row !! "Day" = None) df /\
  App.check_smart_ppms (Frame df) "Friday" = [] /\
  App.check_smart_ppms Missing "Friday" = [] /\
  App.check_smart_ppms Unreadable "Friday" = [].
Proof.
  intros df.
  assert (H : Exists (fun row => row !! "Day" = None) df) by (left; reflexivity).
  split; [exact H |].
  exact (check_smart_ppms_swallows_bad_schedule df "Friday" H).
Defined.

(** ** The part search of the shift log *)

Lemma append_assoc (a b c : string) : (a +:+ b) +:+ c = a +:+ b +:+ c.
Proof.
  induction a as [| x a IH]; [reflexivity |].
  change (String x ((a +:+ b) +:+ c) = String x (a +:+ b +:+ c)). rewrite IH. reflexivity.
Qed.

(** The text before the first " - " of a text that starts with a part
    number without blanks. *)
Lemma split_first_no_blank (p rest : string) :
  no_blank p = true ->
  ShiftLog.split_first " - " (p +:+ " - " +:+ rest) = Some p.
Proof.
  induction p as [| c p IH]; intros H.
  - change (EmptyString +:+ " - " +:+ rest) with (String " " (String "-" (String " " rest))).
    destruct rest; reflexivity.
  - simpl in H. apply andb_true_iff in H. destruct H as [Hc Hp].
    apply negb_true_iff, Ascii.eqb_neq in Hc.
    change (String c p +:+ " - " +:+ rest) with (String c (p +:+ " - " +:+ rest)).
    cbn [ShiftLog.split_first String.prefix].
    destruct (ascii_dec " " c) as [E | _]; [congruence |].
    rewrite (IH Hp). reflexivity.
Qed.

Lemma insert_sorted_In (x y : string) (l : list string) :
  In y (MasterData.insert_sorted x l) <-> y = x \/ In y l.
Proof.
  induction l as [| z l IH]; simpl; [intuition |].
  destruct (String.leb x z); simpl; [intuition |]. rewrite IH. intuition.
Qed.

(** Sorting keeps the members of a list. *)
Lemma sorted_In (y : string) (l : list string) :
  In y (MasterData.sorted l) <-> In y l.
Proof.
  induction l as [| x l IH]; simpl; [reflexivity |].
  rewrite insert_sorted_In, IH. intuition.
Qed.

Lemma filter_unique_part (row : ShiftLog.inventory_row) (inv : list ShiftLog.inventory_row) :
  NoDup (map ShiftLog.art_number inv) ->
  In row inv ->
  List.filter (fun r => String.eqb (ShiftLog.art_number r) (ShiftLog.art_number row)) inv
  = [row].
Proof.
  induction inv as [| x inv IH]; intros Hnd Hin; [destruct Hin |].
  simpl in Hnd. apply NoDup_cons in Hnd. destruct Hnd as [Hx Hnd].
  assert (Hnone : forall r, ~ In (ShiftLog.art_number r) (map ShiftLog.art_number inv) ->
            List.filter (fun y => String.eqb (ShiftLog.art_number y) (ShiftLog.art_number r))
              inv = []).
  { intros r Hr. clear -Hr. induction inv as [| y inv IH]; simpl; [reflexivity |].
    destruct (String.eqb (ShiftLog.art_number y) (ShiftLog.art_number r)) eqn:E.
    - apply String.eqb_eq in E. exfalso. apply Hr. left. exact E.
    - apply IH. intros H. apply Hr. right. exact H. }
  simpl. destruct Hin as [-> | Hin].
  - rewrite String.eqb_refl. f_equal. apply Hnone. intros H. apply Hx.
    apply list_elem_of_In. exact H.
  - destruct (String.eqb (ShiftLog.art_number x) (ShiftLog.art_number row)) eqn:E.
    + apply String.eqb_eq in E. exfalso. apply Hx. rewrite E.
      apply list_elem_of_In. apply List.in_map. exact Hin.
    + apply IH; assumption.
Qed.

Lemma get_master_data_run (d : ShiftLog.db) (s : ShiftLog.session) :
  run MasterData.get_master_data None d s =
  (Ok (MasterData.sorted (map MasterData.option_text (ShiftLog.spares_inventory d)),
       ShiftLog.spares_inventory d), d, s).
Proof.
  cbv [run MasterData.get_master_data mbind mret tx_bind tx_ret try_except connect
       query tick read_work durable work budget session].
  destruct (ShiftLog.spares_inventory d); reflexivity.
Qed.

(** X15.  Every part of the inventory whose number has no blank is offered
    by the part search as "number - description", and choosing that
    option and pressing Add Spare appends one entry that carries the
    number, description and location of that very inventory row, with the
    quantity, category code and decision of the form. *)
Theorem part_search_round_trip (d : ShiftLog.db) (s : ShiftLog.session)
    (row : ShiftLog.inventory_row) (sp_qty sp_cat : Z) (sp_dec : string) :
  In row (ShiftLog.spares_inventory d) ->
  NoDup (map ShiftLog.art_number (ShiftLog.spares_inventory d)) ->
  no_blank (ShiftLog.art_number row) = true ->
  exists spares_opt df_spares,
    run MasterData.get_master_data None d s = (Ok (spares_opt, df_spares), d, s) /\
    In (MasterData.option_text row) spares_opt /\
    ShiftLog.add_spare (MasterData.option_text row) sp_qty sp_cat sp_dec df_spares s =
      ShiftLog.Session (ShiftLog.reactives s) (ShiftLog.ppms s) (ShiftLog.other_tasks s)
        (ShiftLog.spares s ++
         [ {[ "ART #" := VText (ShiftLog.art_number row);
              "Description" := VText (ShiftLog.description row);
              "Location" := VText (ShiftLog.location row);
              "Quantity" := VInt sp_qty;
              "Category Code" := VInt sp_cat;
              "Decision" := VText sp_dec ]} ]).
Proof.
  intros Hin Hnd Hnb. eexists _, _. split; [apply get_master_data_run |]. split.
  - apply sorted_In. apply List.in_map. exact Hin.
  - unfold ShiftLog.add_spare, MasterData.option_text.
    rewrite (split_first_no_blank _ _ Hnb), (filter_unique_part _ _ Hnd Hin). reflexivity.
Qed.

(** The part ART-1 of the sample inventory. *)
Lemma part_search_round_trip_witness :
  let row := ShiftLog.InventoryRow "ART-1" "Drive belt" "Rack A1" "General" 10 2 in
  In row (ShiftLog.spares_inventory SampleLog.db) /\
  NoDup (map ShiftLog.art_number (ShiftLog.spares_inventory SampleLog.db)) /\
  no_blank (ShiftLog.art_number row) = true /\
  exists spares_opt df_spares,
    run MasterData.get_master_data None SampleLog.db ShiftLog.init_session_state =
      (Ok (spares_opt, df_spares), SampleLog.db, ShiftLog.init_session_state) /\
    In (MasterData.option_text row) spares_opt /\
    ShiftLog.add_spare (MasterData.option_text row) 3 4 "Disposed" df_spares
      ShiftLog.init_session_state =
      ShiftLog.Session [] [] []
        ([] ++
         [ {[ "ART #" := VText (ShiftLog.art_number row);
              "Description" := VText (ShiftLog.description row);
              "Location" := VText (ShiftLog.location row);
              "Quantity" := VInt 3;
              "Category Code" := VInt 4;
              "Decision" := VText "Disposed" ]} ]).
Proof.
  intros row.
  assert (H1 : In row (ShiftLog.spares_inventory SampleLog.db)) by (left; reflexivity).
  assert (H2 : NoDup (map ShiftLog.art_number (ShiftLog.spares_inventory SampleLog.db))).
  { simpl. apply NoDup_cons. split; [| apply NoDup_singleton].
    intros H. apply list_elem_of_In in H. destruct H as [H | []]. discriminate H. }
  assert (H3 : no_blank (ShiftLog.art_number row) = true) by reflexivity.
  split; [exact H1 |]. split; [exact H2 |]. split; [exact H3 |].
  exact (part_search_round_trip SampleLog.db ShiftLog.init_session_state row 3 4
           "Disposed" H1 H2 H3).
Defined.

(** X16.  A part whose number contains " - " cannot be added through the
    form: Add Spare looks up the text before the first " - " of the chosen
    option, and when the inventory has no part of that name the click
    changes nothing and raises nothing. *)
Theorem add_spare_ignores_part_with_separator
    (row : ShiftLog.inventory_row) (prefix rest : string) (sp_qty sp_cat : Z)
    (sp_dec : string) (df_spares : list ShiftLog.inventory_row) (s : ShiftLog.session) :
  ShiftLog.art_number row = prefix +:+ " - " +:+ rest ->
  no_blank prefix = true ->
  Forall (fun r => ShiftLog.art_number r <> prefix) df_spares ->
  ShiftLog.add_spare (MasterData.option_text row) sp_qty sp_cat sp_dec df_spares s = s.
Proof.
  intros Hart Hnb Hnone. unfold ShiftLog.add_spare, MasterData.option_text.
  rewrite Hart, !append_assoc.
  rewrite (split_first_no_blank prefix _ Hnb).
  assert (E : List.filter (fun r => String.eqb (ShiftLog.art_number r) prefix) df_spares = []).
  { induction Hnone as [| r l Hr _ IH]; simpl; [reflexivity |].
    apply String.eqb_neq in Hr. rewrite Hr. exact IH. }
  rewrite E. reflexivity.
Qed.

(** An inventory whose only part is numbered "AB - 12". *)
Lemma add_spare_ignores_part_with_separator_witness :
  let row := ShiftLog.InventoryRow "AB - 12" "Bearing" "Rack D1" "General" 10 2 in
  ShiftLog.art_number row = "AB" +:+ " - " +:+ "12" /\
  no_blank "AB" = true /\
  Forall (fun r => ShiftLog.art_number r <> "AB") [row] /\
  ShiftLog.add_spare (MasterData.option_text row) 1 1 "Disposed" [row]
    ShiftLog.init_session_state = ShiftLog.init_session_state.
Proof.
  intros row.
  assert (H1 : ShiftLog.art_number row = "AB" +:+ " - " +:+ "12") by reflexivity.
  assert (H2 : no_blank "AB" = true) by reflexivity.
  assert (H3 : Forall (fun r => ShiftLog.art_number r <> "AB") [row]).
  { constructor; [discriminate | constructor]. }
  split; [exact H1 |]. split; [exact H2 |]. split; [exact H3 |].
  exact (add_spare_ignores_part_with_separator row "AB" "12" 1 1 "Disposed" [row]
           ShiftLog.init_session_state H1 H2 H3).
Defined.

(** * More on the shift log: stored rows, and the reloaded inventory *)

(** ** The rows that SAVE REPORT stores *)

Lemma shift_log_reactive_params_row (rid : Z) (r : dict) :
  has_keys ShiftLogKeys.reactive_keys r ->
  ShiftLog.reactive_params rid r = Ok (ShiftLogForms.reactive_row rid r).
Proof.
  intros H.
  key_lookup H "Asset" v1 H1. key_lookup H "Time Called" v2 H2.
  key_lookup H "Time Back" v3 H3. key_lookup H "Fault" v4 H4.
  key_lookup H "Engineers" v5 H5. key_lookup H "Description" v6 H6.
  key_lookup H "Downtime (min)" v7 H7.
  unfold ShiftLog.reactive_params, ShiftLogForms.reactive_row, getitem, get.
  rewrite H1, H2, H3, H4, H5, H6, H7. reflexivity.
Qed.

Lemma shift_log_spare_params_row (rid : Z) (e : dict) :
  ShiftLogKeys.spare_entry e ->
  ShiftLog.spare_params rid e = Ok (ShiftLogForms.spare_row rid e).
Proof.
  intros (H & [art H1] & [qty H4]).
  key_lookup H "Description" v2 H2. key_lookup H "Location" v3 H3.
  key_lookup H "Decision" v5 H5. key_lookup H "Category Code" v6 H6.
  unfold ShiftLog.spare_params, ShiftLogForms.spare_row, getitem, get.
  rewrite H1, H2, H3, H4, H5, H6. reflexivity.
Qed.

Lemma map_result_map {A B} (f : A -> result B) (g : A -> B) (l : list A) :
  Forall (fun x => f x = Ok (g x)) l -> map_result f l = Ok (map g l).
Proof.
  induction 1 as [| x l Hx _ IH]; simpl; [reflexivity |].
  rewrite Hx, IH. reflexivity.
Qed.

Lemma Forall2_map_left {A B C} (P : B -> C -> Prop) (f : A -> B) (l : list A)
    (k : list C) :
  Forall2 P (map f l) k -> Forall2 (fun x y => P (f x) y) l k.
Proof.
  revert k. induction l as [| a l IH]; intros k H; inversion H; subst; constructor; auto.
Qed.

Lemma shift_log_spares_loop_rows (rid : Z) (sps : list dict)
    (w : world ShiftLog.db ShiftLog.session) :
  Forall ShiftLogKeys.spare_entry sps ->
  budget w = None ->
  exists inv,
    Forall2 same_part (ShiftLog.spares_inventory (work w)) inv /\
    for_each sps (fun s =>
      row ← lift (ShiftLog.spare_params rid s);
      execute (ShiftLog.insert_spare_used row);;
      p ← lift (ShiftLog.stock_params s);
      execute (ShiftLog.with_inventory (ShiftLog.adjust_stock p.1 p.2))) w =
    Done tt
      (World (durable w)
         (ShiftLog.Db (ShiftLog.tbl_reports (work w)) (ShiftLog.tbl_reactives (work w))
            (ShiftLog.tbl_ppms (work w)) (ShiftLog.tbl_other_tasks (work w))
            (ShiftLog.tbl_spares_used (work w) ++ map (ShiftLogForms.spare_row rid) sps)
            inv
            (ShiftLog.report_seq (work w)))
         None (session w)).
Proof.
  intros H. revert w. induction H as [| e sps He _ IH]; intros w Hb.
  - exists (ShiftLog.spares_inventory (work w)). split.
    + apply Forall2_same_length_lookup_2; [reflexivity |].
      intros i x y Hx Hy. rewrite Hx in Hy. injection Hy as <-. repeat split.
    + simpl. rewrite app_nil_r. destruct w as [dw ww bw sw]; simpl in *; subst.
      destruct ww; reflexivity.
  - pose proof (shift_log_spare_params_row rid e He) as E1.
    destruct (shift_log_spare_params_ok rid e He) as (row & art & qty & _ & E2 & _).
    destruct w as [dw ww bw sw]. simpl in Hb. subst bw.
    set (w1 := World dw
                 (ShiftLog.with_inventory (ShiftLog.adjust_stock qty art)
                    (ShiftLog.insert_spare_used (ShiftLogForms.spare_row rid e) ww))
                 None sw).
    destruct (IH w1 eq_refl) as (inv & Hinv & Hrun).
    exists inv. split.
    + subst w1.
      cbn [work ShiftLog.with_inventory ShiftLog.insert_spare_used
           ShiftLog.spares_inventory] in Hinv.
      unfold ShiftLog.adjust_stock in Hinv. cbn [work].
      apply Forall2_map_left in Hinv.
      eapply Forall2_impl; [exact Hinv |].
      intros r r' Hrr. cbv beta in Hrr.
      destruct (String.eqb (ShiftLog.art_number r) art); exact Hrr.
    + cbn [for_each]. eapply tx_bind_done with (a := tt) (w' := w1).
      { eapply tx_bind_done; [rewrite E1; reflexivity |].
        eapply tx_bind_done; [reflexivity |].
        eapply tx_bind_done; [rewrite E2; reflexivity |].
        reflexivity. }
      rewrite Hrun. subst w1. cbn. rewrite <- app_assoc. reflexivity.
Qed.

(** X17.  SAVE REPORT of the shift log, when no database call fails, adds to
    the reactives table one row per reactive entry of the session and to
    the usage table one row per spare entry, in the order of the session
    and with the values of the entries under the new report id; it adds
    the header row, leaves the PPM and other-tasks tables as they were, and
    changes nothing of an inventory row but its stock level. *)
Theorem shift_log_save_stores_entry_values
    (f : ShiftLog.form) (now : string) (d : ShiftLog.db) (s : ShiftLog.session) :
  ShiftLogKeys.well_formed s ->
  exists d',
    run (ShiftLog.save_report f now) None d s = (Ok (ShiftLog.next_report_id d), d', s) /\
    ShiftLog.tbl_reports d' =
      ShiftLog.tbl_reports d ++ [shift_log_header (ShiftLog.next_report_id d) f now] /\
    ShiftLog.tbl_reactives d' =
      ShiftLog.tbl_reactives d ++
      map (ShiftLogForms.reactive_row (ShiftLog.next_report_id d)) (ShiftLog.reactives s) /\
    ShiftLog.tbl_spares_used d' =
      ShiftLog.tbl_spares_used d ++
      map (ShiftLogForms.spare_row (ShiftLog.next_report_id d)) (ShiftLog.spares s) /\
    ShiftLog.tbl_ppms d' = ShiftLog.tbl_ppms d /\
    ShiftLog.tbl_other_tasks d' = ShiftLog.tbl_other_tasks d /\
    Forall2 same_part (ShiftLog.spares_inventory d) (ShiftLog.spares_inventory d').
Proof.
  intros [Hr Hs]. set (rid := ShiftLog.next_report_id d).
  assert (E1 : map_result (ShiftLog.reactive_params rid) (ShiftLog.reactives s) =
               Ok (map (ShiftLogForms.reactive_row rid) (ShiftLog.reactives s))).
  { apply map_result_map. eapply Forall_impl; [exact Hr |].
    intros r. apply shift_log_reactive_params_row. }
  set (d1 := fold_left (fun d r => ShiftLog.insert_reactive r d)
               (map (ShiftLogForms.reactive_row rid) (ShiftLog.reactives s))
               (ShiftLog.insert_report (shift_log_header 0 f now) d)).
  destruct (shift_log_spares_loop_rows rid (ShiftLog.spares s) (World d d1 None s) Hs eq_refl)
    as (inv & Hinv & Hloop).
  cbn [work durable session] in Hinv, Hloop.
  assert (Hrun : exists d', ShiftLog.save_report f now (World d d None s) =
                            Done rid (World d' d' None s) /\
                            d' = ShiftLog.Db (ShiftLog.tbl_reports d1) (ShiftLog.tbl_reactives d1)
                                   (ShiftLog.tbl_ppms d1) (ShiftLog.tbl_other_tasks d1)
                                   (ShiftLog.tbl_spares_used d1 ++
                                      map (ShiftLogForms.spare_row rid) (ShiftLog.spares s))
                                   inv (ShiftLog.report_seq d1)).
  { eexists. split; [| reflexivity].
    unfold ShiftLog.save_report. tx_step. tx_step. tx_step. cbn [session].
    eapply tx_bind_done; [apply (for_each_execute _ _ _ _ _ E1); reflexivity |].
    eapply tx_bind_done; [exact Hloop |].
    tx_step. reflexivity. }
  destruct Hrun as (d' & Hrun & Hd').
  exists d'. unfold run. rewrite Hrun. split; [reflexivity |].
  subst d' d1. rewrite shift_log_insert_reactives in *.
  cbn in Hinv |- *. repeat split; try reflexivity. exact Hinv.
Qed.

Lemma shift_log_save_stores_entry_values_witness :
  ShiftLogKeys.well_formed SampleLog.session /\
  exists d',
    run (ShiftLog.save_report SampleLog.form "2024-01-01 08:00:00") None SampleLog.db
      SampleLog.session = (Ok (ShiftLog.next_report_id SampleLog.db), d', SampleLog.session) /\
    ShiftLog.tbl_reports d' =
      ShiftLog.tbl_reports SampleLog.db ++
      [shift_log_header (ShiftLog.next_report_id SampleLog.db) SampleLog.form
         "2024-01-01 08:00:00"] /\
    ShiftLog.tbl_reactives d' =
      ShiftLog.tbl_reactives SampleLog.db ++
      map (ShiftLogForms.reactive_row (ShiftLog.next_report_id SampleLog.db))
        (ShiftLog.reactives SampleLog.session) /\
    ShiftLog.tbl_spares_used d' =
      ShiftLog.tbl_spares_used SampleLog.db ++
      map (ShiftLogForms.spare_row (ShiftLog.next_report_id SampleLog.db))
        (ShiftLog.spares SampleLog.session) /\
    ShiftLog.tbl_ppms d' = ShiftLog.tbl_ppms SampleLog.db /\
    ShiftLog.tbl_other_tasks d' = ShiftLog.tbl_other_tasks SampleLog.db /\
    Forall2 same_part (ShiftLog.spares_inventory SampleLog.db) (ShiftLog.spares_inventory d').
Proof.
  assert (H : ShiftLogKeys.well_formed SampleLog.session).
  { apply well_typed_well_formed, shift_log_reachable_well_typed.
    unfold SampleLog.session. repeat constructor. }
  split; [exact H |].
  exact (shift_log_save_stores_entry_values SampleLog.form "2024-01-01 08:00:00"
           SampleLog.db SampleLog.session H).
Defined.

(** ** The inventory after a reload *)






